(** * VoiceChannelHandling: temporary voice channel lifecycle

    A shallow embedding of the Red-DiscordBot cog [VoiceChannelHandling]
    (voicechannelhandling.py, VCC/VCOwnerCommand.py) and the properties of
    its guild settings store, channel name renderer, deletion timers and
    lobby-join / ownership-transfer handlers.

    Conventions of the embedding.
    - Python [int] is [Z] (unbounded); [str] is [string], one character per
      [ascii]; [str(n)] for an [int] is the decimal printer [pretty].
    - A Python [dict] whose iteration order is observed (owner_channels,
      permission overwrites) is an insertion-ordered association list; the
      timer registry [_delete_tasks], only ever accessed by key, is a [gmap].
    - The persisted settings of the guild an event belongs to are one record
      [GuildConfig]; every operation of the cog addresses
      [self.config.guild(guild)] of that one guild.
    - Calls to the platform are recorded in a log of [api_call]s; what the
      platform answers (the new channel, an HTTP error, a refused message)
      is an input of the handler.
    - The body of an event handler or of a command runs without
      interleaving.  A deletion task runs in steps, from one [await] that
      suspends it to the next: [asyncio.sleep], [channel.delete] and the two
      writes of the settings; the event loop may run handlers and other
      tasks between two steps, and a cancellation takes effect at the
      suspension the task is in.  [get_next_counter] is given both as one
      step, as the handlers use it, and as its read and its write, which
      other calls may come between. *)

From Stdlib Require Import ZArith Lia Ascii String Sorted.
From stdpp Require Import base option list gmap strings pretty.

Open Scope Z_scope.

(** ** Python values *)

(** [str(n)] for an integer. *)
Definition str (n : Z) : string := pretty n.

(** Exception classes that occur in the cog; all derive from [Exception].
    [Forbidden] and [NotFound] are subclasses of [discord.HTTPException]. *)
Inductive exn :=
  | ValueError | KeyError | IndexError | AttributeError | TypeError
  | AssertionError
  | HTTPException | Forbidden | NotFound.

Global Instance exn_eq_dec : EqDecision exn.
Proof. solve_decision. Defined.

(** [isinstance(e, discord.HTTPException)] *)
Definition is_HTTPException (e : exn) : bool :=
  match e with HTTPException | Forbidden | NotFound => true | _ => false end.

(** [isinstance(e, discord.NotFound)] *)
Definition is_NotFound (e : exn) : bool :=
  match e with NotFound => true | _ => false end.

(** Outcome of evaluating a Python expression or call. *)
Inductive result (A : Type) :=
  | Ok (a : A)
  | Raise (e : exn).
Global Arguments Ok {A} a.
Global Arguments Raise {A} e.

(** ** Insertion-ordered dictionaries *)

Module PyDict.
Section dict.
Context {K V : Type} `{EqDecision K}.

(** [d.get(k)] *)
Fixpoint get (d : list (K * V)) (k : K) : option V :=
  match d with
  | [] => None
  | (k', v) :: d' => if decide (k' = k) then Some v else get d' k
  end.

(** [d[k] = v]: an existing key keeps its position, a new key goes last. *)
Fixpoint set (d : list (K * V)) (k : K) (v : V) : list (K * V) :=
  match d with
  | [] => [(k, v)]
  | (k', v') :: d' =>
      if decide (k' = k) then (k, v) :: d' else (k', v') :: set d' k v
  end.

(** [d.pop(k, None)], the popped value dropped. *)
Fixpoint pop (d : list (K * V)) (k : K) : list (K * V) :=
  match d with
  | [] => []
  | (k', v) :: d' => if decide (k' = k) then d' else (k', v) :: pop d' k
  end.

(** [k in d] *)
Definition mem (d : list (K * V)) (k : K) : bool :=
  bool_decide (is_Some (get d k)).

(** A list of pairs represents a dictionary when no key is repeated. *)
Definition wf (d : list (K * V)) : Prop := NoDup d.*1.
End dict.
End PyDict.

(** ** Discord objects, as the cog reads them *)

Inductive ChannelKind := VoiceChannel | CategoryChannel | OtherChannel.

Global Instance ChannelKind_eq_dec : EqDecision ChannelKind.
Proof. solve_decision. Defined.

(** A [discord.PermissionOverwrite]: the flags that are set. *)
Definition PermissionOverwrite := list (string * bool).

(** The overwrite the cog grants to the owner of a temporary channel. *)
Definition owner_overwrite : PermissionOverwrite :=
  [("manage_channels", true); ("move_members", true);
   ("mute_members", true); ("deafen_members", true)]%string.

(** What the guild cache holds for a channel id. *)
Record ChannelInfo := {
  kind : ChannelKind;
  channel_guild : option Z;
  members : list Z;
  category_id : option Z;       (* [channel.category_id] *)
  overwrites : list (Z * PermissionOverwrite)
}.

(** A channel object: its id and the cached attributes. *)
Record Channel := {
  channel_id : Z;
  channel_info : ChannelInfo
}.

(** The guild as seen during one handler: its channel cache and the bot's
    own permissions ([guild.me.guild_permissions]). *)
Record Guild := {
  guild_channels : gmap Z ChannelInfo;
  me_manage_channels : bool;
  me_move_members : bool
}.

(** [guild.get_channel(cid)] *)
Definition get_channel (g : Guild) (cid : Z) : option Channel :=
  (λ i, {| channel_id := cid; channel_info := i |}) <$> guild_channels g !! cid.

(** [isinstance(ch, discord.VoiceChannel)] for the result of [get_channel]. *)
Definition is_voice (ch : option Channel) : bool :=
  match ch with
  | Some c => bool_decide (kind (channel_info c) = VoiceChannel)
  | None => false
  end.

Definition is_category (ch : option Channel) : bool :=
  match ch with
  | Some c => bool_decide (kind (channel_info c) = CategoryChannel)
  | None => false
  end.

(** A member: [member.id], [member.display_name], [str(member)],
    [member.bot] and the channel of [member.voice] ([None] when the member
    has no voice state or the voice state has no channel). *)
Record Member := {
  member_id : Z;
  display_name : string;
  member_tag : string;
  bot : bool;
  voice_channel : option Channel
}.

(** ** Persisted guild settings and process state *)

Record GuildConfig := {
  creation_channel_id : option Z;
  name_template : string;
  delete_delay : Z;
  temp_category_id : option Z;
  temp_channels : list Z;
  counter : option Z;
  owner_channels : list (string * Z)
}.

(** The registered defaults ([default_guild]). *)
Definition default_guild : GuildConfig :=
  {| creation_channel_id := None;
     name_template := "{user}'s channel";
     delete_delay := 10;
     temp_category_id := None;
     temp_channels := [];
     counter := Some 1;
     owner_channels := [] |}.

(** Requests sent to the platform. *)
Inductive api_call :=
  | CreateVoiceChannel (name : string) (cat : option Z)
      (ow : list (Z * PermissionOverwrite))
  | EditChannel (cid : Z) (name : string) (ow : list (Z * PermissionOverwrite))
  | DeleteChannel (cid : Z)
  | MoveTo (uid cid : Z)
  | Send (text : string).

(** A deletion task ([asyncio.Task] running
    [_delete_temp_channel_after_delay(channel)]). *)
Inductive task_outcome := Returned | Failed (e : exn) | WasCancelled.

Inductive task_phase :=
  | NotStarted                  (* created, coroutine not yet run *)
  | Sleeping                    (* suspended in [asyncio.sleep(delay)] *)
  | Deleting                    (* in [channel.delete]: request sent *)
  | Untracking                  (* in [_remove_temp_channel]: list written *)
  | Purging                     (* in [_clear_owner_by_channel]: map written *)
  | Done (o : task_outcome).

Record Task := {
  task_channel : Z;             (* [channel.id] of the captured channel *)
  task_phase_of : task_phase;
  must_cancel : bool            (* [cancel()] was called on the live task *)
}.

(** [task.done()] *)
Definition done_ (t : Task) : bool :=
  match task_phase_of t with Done _ => true | _ => false end.

Record Cog := {
  config : GuildConfig;
  _delete_tasks : gmap Z nat;   (* channel id -> task handle *)
  tasks : list Task;            (* every task created so far, by handle *)
  calls : list api_call         (* platform requests, oldest first *)
}.

(** ** [str.format] with keyword arguments only

    The renderer calls [template.format(user=..., id=..., tag=...,
    counter=...)].  The scanner below follows CPython's formatter
    (MarkupIterator_next, parse_field, field_name_split, get_integer,
    output_markup, render_field): literal text with doubled braces,
    replacement fields [{name!conv:spec}], one level of fields nested in a
    format spec.  What needs the object model of Python (attribute and index
    access after the first name, [repr], [ascii], a non-empty format spec) is
    delegated to [PyBuiltins]. *)

Inductive PyObj (O : Type) :=
  | PyStr (s : string)
  | PyInt (n : Z)
  | PyOther (o : O).
Global Arguments PyStr {O} s.
Global Arguments PyInt {O} n.
Global Arguments PyOther {O} o.

Definition result_bind {A B} (r : result A) (f : A → result B) : result B :=
  match r with Ok a => f a | Raise e => Raise e end.

Definition result_map {A B} (f : A → B) (r : result A) : result B :=
  match r with Ok a => Ok (f a) | Raise e => Raise e end.

(** [try: body except Exception: handler] on an expression. *)
Definition try_except {A} (body : result A) (handler : exn → result A) : result A :=
  match body with Ok a => Ok a | Raise e => handler e end.

(** The largest index of the interpreter, on a 64-bit build. *)
Definition PY_SSIZE_T_MAX : Z := 2 ^ 63 - 1.

Record Field := {
  field_name : string;
  conversion : ascii;            (* NUL when absent *)
  format_spec : string;
  format_spec_needs_expanding : bool
}.

Definition is_brace (c : ascii) : bool :=
  (c =? "{")%char || (c =? "}")%char.

(** The scan for literal text: the text before the first brace, and the
    brace with what follows it. *)
Fixpoint scan_literal (s : string) : string * option (ascii * string) :=
  match s with
  | EmptyString => (EmptyString, None)
  | String c s' =>
      if is_brace c then (EmptyString, Some (c, s'))
      else let '(lit, r) := scan_literal s' in (String c lit, r)
  end.

(** The field-name loop of [parse_field]: returns the name, the delimiter
    that ended it and the rest.  After an opening square bracket everything
    up to the closing one is skipped. *)
Fixpoint parse_field_name (s : string) (in_index : bool)
  : result (string * ascii * string) :=
  let keep c r := result_map (λ '(n, d, rest), (String c n, d, rest)) r in
  match s with
  | EmptyString => Raise ValueError
  | String c s' =>
      if in_index then keep c (parse_field_name s' (negb (c =? "]")%char))
      else if (c =? "{")%char then Raise ValueError
      else if (c =? "[")%char then keep c (parse_field_name s' true)
      else if (c =? "}")%char || (c =? ":")%char || (c =? "!")%char
        then Ok (EmptyString, c, s')
      else keep c (parse_field_name s' false)
  end.

(** The format-spec loop of [parse_field]; [open] is the number of braces
    opened inside the spec and not yet closed ([count - 1]). *)
Fixpoint parse_format_spec (s : string) (open : nat)
  : result (string * bool * string) :=
  match s with
  | EmptyString => Raise ValueError
  | String c s' =>
      if (c =? "{")%char then
        result_map (λ '(sp, _, rest), (String c sp, true, rest))
          (parse_format_spec s' (S open))
      else if (c =? "}")%char then
        match open with
        | O => Ok (EmptyString, false, s')
        | S n => result_map (λ '(sp, e, rest), (String c sp, e, rest))
                   (parse_format_spec s' n)
        end
      else result_map (λ '(sp, e, rest), (String c sp, e, rest))
             (parse_format_spec s' open)
  end.

Definition NUL : ascii := Ascii.zero.

Definition parse_field (s : string) : result (Field * string) :=
  result_bind (parse_field_name s false) (λ '(name, c, rest),
    let with_spec conv r :=
      result_map (λ '(sp, e, rest'), (Build_Field name conv sp e, rest'))
        (parse_format_spec r O) in
    if (c =? "!")%char then
      match rest with
      | EmptyString => Raise ValueError
      | String conv EmptyString => with_spec conv EmptyString
      | String conv (String c2 rest2) =>
          if (c2 =? "}")%char then Ok (Build_Field name conv EmptyString false, rest2)
          else if negb (c2 =? ":")%char then Raise ValueError
          else with_spec conv rest2
      end
    else if (c =? ":")%char then with_spec NUL rest
    else Ok (Build_Field name NUL EmptyString false, rest)).

(** [MarkupIterator_next] on non-empty input: the literal text, the field
    that follows it if any, and the remaining input. *)
Definition MarkupIterator_next (s : string)
  : result (string * option Field * string) :=
  match scan_literal s with
  | (lit, None) => Ok (lit, None, EmptyString)
  | (lit, Some (c, rest)) =>
      match rest with
      | EmptyString => Raise ValueError
      | String c' rest' =>
          if (c =? c')%char then Ok (lit +:+ String c EmptyString, None, rest')
          else if (c =? "}")%char then Raise ValueError
          else result_map (λ '(f, r), (lit, Some f, r)) (parse_field rest)
      end
  end.

(** [field_name_split]: the first part of a field name ends at the first
    dot or opening square bracket. *)
Fixpoint field_name_split (s : string) : string * string :=
  match s with
  | EmptyString => (EmptyString, EmptyString)
  | String c s' =>
      if (c =? ".")%char || (c =? "[")%char then (EmptyString, s)
      else let '(first, rest) := field_name_split s' in (String c first, rest)
  end.

Definition digit_value (c : ascii) : option Z :=
  let n := Z.of_N (N_of_ascii c) in
  if (48 <=? n) && (n <=? 57) then Some (n - 48) else None.

Fixpoint get_integer_go (s : string) (accumulator : Z) : result (option Z) :=
  match s with
  | EmptyString => Ok (Some accumulator)
  | String c s' =>
      match digit_value c with
      | None => Ok None
      | Some digitval =>
          if accumulator >? (PY_SSIZE_T_MAX - digitval) `div` 10
          then Raise ValueError
          else get_integer_go s' (accumulator * 10 + digitval)
      end
  end.

(** [get_integer]: [None] stands for the C function's -1 without error. *)
Definition get_integer (s : string) : result (option Z) :=
  match s with
  | EmptyString => Ok None
  | _ => get_integer_go s 0
  end.

(** The part of Python's object model that formatting and the owner lookup
    rely on and that is not spelled out here.  [Other] stands for the
    objects that are neither [str] nor [int]; they only arise from attribute
    or index access. *)
Record PyBuiltins := {
  Other : Type;
  (* the [.attr] / [[index]] part of a field name, applied to the object *)
  py_getrest : PyObj Other → string → result (PyObj Other);
  py_repr : PyObj Other → result string;
  py_ascii : PyObj Other → result string;
  py_str_other : Other → result string;
  (* [format(obj, spec)] where [render_field] has no shortcut *)
  py_format : PyObj Other → string → result string;
  (* [int(s)] for a string, [None] when it raises ValueError *)
  py_int : string → option Z
}.

(** [int(s)] on the spellings [str] produces: an optional minus sign and
    decimal digits. *)
Fixpoint int_of_digits (s : string) (acc : Z) : option Z :=
  match s with
  | EmptyString => Some acc
  | String c s' =>
      match digit_value c with
      | Some d => int_of_digits s' (acc * 10 + d)
      | None => None
      end
  end.

Definition int_of_decimal (s : string) : option Z :=
  match s with
  | EmptyString => None
  | String c s' =>
      if (c =? "-")%char then
        match s' with
        | EmptyString => None
        | _ => Z.opp <$> int_of_digits s' 0
        end
      else int_of_digits s 0
  end.

(** An instance for the sample runs below, whose templates reach none of
    the delegated features (each of them raises here) and whose owner keys
    are written by [str]. *)
Definition plain_builtins : PyBuiltins :=
  {| Other := Empty_set;
     py_getrest := λ _ _, Raise AttributeError;
     py_repr := λ _, Raise TypeError;
     py_ascii := λ _, Raise TypeError;
     py_str_other := λ o, match o with end;
     py_format := λ _ _, Raise ValueError;
     py_int := int_of_decimal |}.

Section format.
Context (py : PyBuiltins).
Local Abbreviation obj := (PyObj (Other py)).

(** [str(o)] *)
Definition py_str (o : obj) : result string :=
  match o with
  | PyStr s => Ok s
  | PyInt n => Ok (str n)
  | PyOther x => py_str_other py x
  end.

(** [get_field_object] with no positional arguments: an empty or numeric
    first part indexes the empty tuple. *)
Definition get_field_object (kwargs : list (string * obj)) (name : string)
  : result obj :=
  let '(first, rest) := field_name_split name in
  result_bind (get_integer first) (λ first_idx,
    let using_numeric_index :=
      bool_decide (first = EmptyString) || bool_decide (is_Some first_idx) in
    result_bind
      (if using_numeric_index then Raise IndexError
       else match PyDict.get kwargs first with
            | Some o => Ok o
            | None => Raise KeyError
            end)
      (λ o, match rest with
            | EmptyString => Ok o
            | _ => py_getrest py o rest
            end)).

Definition do_conversion (o : obj) (conv : ascii) : result obj :=
  if (conv =? "r")%char then result_map PyStr (py_repr py o)
  else if (conv =? "s")%char then result_map PyStr (py_str o)
  else if (conv =? "a")%char then result_map PyStr (py_ascii py o)
  else Raise ValueError.

Definition render_field (o : obj) (spec : string) : result string :=
  match spec, o with
  | EmptyString, PyStr s => Ok s
  | EmptyString, PyInt n => Ok (str n)
  | _, _ => py_format py o spec
  end.

(** [output_markup]; [expand] is [build_string] one level deeper. *)
Definition output_markup (expand : string → result string)
    (kwargs : list (string * obj)) (f : Field) : result string :=
  result_bind (get_field_object kwargs (field_name f)) (λ fieldobj,
  result_bind
    (if (conversion f =? NUL)%char then Ok fieldobj
     else do_conversion fieldobj (conversion f)) (λ fieldobj,
  result_bind
    (if format_spec_needs_expanding f then expand (format_spec f)
     else Ok (format_spec f)) (λ actual_format_spec,
  render_field fieldobj actual_format_spec))).

(** [do_markup]: the loop over the markup iterator.  Each turn consumes at
    least one character, so [fuel = length s] turns are enough
    ([do_markup_fuel] below). *)
Fixpoint do_markup (expand : string → result string)
    (kwargs : list (string * obj)) (fuel : nat) (s : string) : result string :=
  match s, fuel with
  | EmptyString, _ => Ok EmptyString
  | _, O => Ok EmptyString
  | _, S fuel' =>
      result_bind (MarkupIterator_next s) (λ '(literal, field, rest),
      result_bind
        (match field with
         | Some f => output_markup expand kwargs f
         | None => Ok EmptyString
         end) (λ out,
      result_map (λ tail, literal +:+ out +:+ tail)
        (do_markup expand kwargs fuel' rest)))
  end.

(** [build_string] with its recursion limit. *)
Fixpoint build_string (recursion_depth : nat) (kwargs : list (string * obj))
    (input : string) : result string :=
  match recursion_depth with
  | O => Raise ValueError
  | S d => do_markup (build_string d kwargs) kwargs (String.length input) input
  end.

(** [template.format] applied to keyword arguments *)
Definition str_format (template : string) (kwargs : list (string * obj))
  : result string :=
  build_string 2 kwargs template.

(** [_render_channel_name(template, member, counter)] *)
Definition _render_channel_name (template : string) (member : Member)
    (counter : Z) : result string :=
  let tag := member_tag member in
  try_except
    (str_format template
       [("user", PyStr (display_name member)); ("id", PyInt (member_id member));
        ("tag", PyStr tag); ("counter", PyInt counter)]%string)
    (λ _, Ok (display_name member +:+ "'s channel")).
End format.

(** ** Coroutines of the cog: state passing with exceptions *)

Definition prog (A : Type) : Type := Cog → result A * Cog.

Global Instance prog_ret : MRet prog := λ A a s, (Ok a, s).

Global Instance prog_bind : MBind prog := λ A B f p s,
  match p s with
  | (Ok a, s') => f a s'
  | (Raise e, s') => (Raise e, s')
  end.

Definition raise {A} (e : exn) : prog A := λ s, (Raise e, s).
Definition lift {A} (r : result A) : prog A := λ s, (r, s).
Definition gets {A} (f : Cog → A) : prog A := λ s, (Ok (f s), s).
Definition modify (f : Cog → Cog) : prog unit := λ s, (Ok tt, f s).

(** [try: p except E: h], [catches] deciding [isinstance(e, E)]. *)
Definition try_catch {A} (p : prog A) (catches : exn → bool) (h : prog A)
  : prog A := λ s,
  match p s with
  | (Raise e, s') => if catches e then h s' else (Raise e, s')
  | r => r
  end.

(** [try: p finally: f] *)
Definition try_finally {A} (p : prog A) (f : prog unit) : prog A := λ s,
  let '(r, s') := p s in
  match f s' with
  | (Ok _, s'') => (r, s'')
  | (Raise e, s'') => (Raise e, s'')
  end.

(** State and final result of running a coroutine. *)
Definition exec {A} (p : prog A) (s : Cog) : Cog := (p s).2.
Definition eval {A} (p : prog A) (s : Cog) : result A := (p s).1.

(** A request to the platform whose answer is awaited: logged. *)
Definition post (c : api_call) : prog unit := λ s,
  (Ok tt,
   {| config := config s; _delete_tasks := _delete_tasks s;
      tasks := tasks s; calls := calls s ++ [c] |}).

(** A request to the platform: logged, then answered by [response]. *)
Definition call {A} (c : api_call) (response : result A) : prog A := λ s,
  (response,
   {| config := config s; _delete_tasks := _delete_tasks s;
      tasks := tasks s; calls := calls s ++ [c] |}).

Definition with_config (f : GuildConfig → GuildConfig) (s : Cog) : Cog :=
  {| config := f (config s); _delete_tasks := _delete_tasks s;
     tasks := tasks s; calls := calls s |}.

Definition with_delete_tasks (f : gmap Z nat → gmap Z nat) (s : Cog) : Cog :=
  {| config := config s; _delete_tasks := f (_delete_tasks s);
     tasks := tasks s; calls := calls s |}.

Definition with_tasks (f : list Task → list Task) (s : Cog) : Cog :=
  {| config := config s; _delete_tasks := _delete_tasks s;
     tasks := f (tasks s); calls := calls s |}.

Definition set_counter (v : option Z) (c : GuildConfig) : GuildConfig :=
  {| creation_channel_id := creation_channel_id c;
     name_template := name_template c; delete_delay := delete_delay c;
     temp_category_id := temp_category_id c;
     temp_channels := temp_channels c; counter := v;
     owner_channels := owner_channels c |}.

Definition set_temp_channels (v : list Z) (c : GuildConfig) : GuildConfig :=
  {| creation_channel_id := creation_channel_id c;
     name_template := name_template c; delete_delay := delete_delay c;
     temp_category_id := temp_category_id c;
     temp_channels := v; counter := counter c;
     owner_channels := owner_channels c |}.

Definition set_owner_channels (v : list (string * Z)) (c : GuildConfig)
  : GuildConfig :=
  {| creation_channel_id := creation_channel_id c;
     name_template := name_template c; delete_delay := delete_delay c;
     temp_category_id := temp_category_id c;
     temp_channels := temp_channels c; counter := counter c;
     owner_channels := v |}.

(** ** Guild settings store *)

Definition get_creation_channel_id : prog (option Z) :=
  gets (creation_channel_id ∘ config).

Definition get_name_template : prog string := gets (name_template ∘ config).

Definition get_delete_delay : prog Z := gets (delete_delay ∘ config).

Definition get_temp_category : prog (option Z) :=
  gets (temp_category_id ∘ config).

Definition get_temp_channels : prog (list Z) := gets (temp_channels ∘ config).

(** [get_next_counter] awaits the settings store twice, and holds no lock
    in between.  Up to the second [await]: the stored counter is read
    ([await conf.counter()]) and a missing value or one below 1 replaced
    by 1. *)
Definition get_next_counter_read : prog Z :=
  current ← gets (counter ∘ config);
  mret (match current with
        | None => 1
        | Some c => if c <? 1 then 1 else c
        end).

(** From the second [await] on: the successor of the value read is stored
    ([await conf.counter.set(current + 1)]) and the value read returned. *)
Definition get_next_counter_write (current : Z) : prog Z :=
  modify (with_config (set_counter (Some (current + 1))));;
  mret current.

(** [get_next_counter] with nothing else running between its two steps. *)
Definition get_next_counter : prog Z :=
  current ← get_next_counter_read;
  get_next_counter_write current.

(** [list.remove(x)] where [x] is known to occur: drops the first
    occurrence. *)
Fixpoint list_remove (x : Z) (l : list Z) : list Z :=
  match l with
  | [] => []
  | y :: l' => if decide (y = x) then l' else y :: list_remove x l'
  end.

Definition _add_temp_channel (channel_id : Z) : prog unit :=
  modify (with_config (λ c,
    let channels := temp_channels c in
    set_temp_channels
      (if bool_decide (channel_id ∉ channels) then channels ++ [channel_id]
       else channels) c)).

Definition _remove_temp_channel (channel_id : Z) : prog unit :=
  modify (with_config (λ c,
    let channels := temp_channels c in
    set_temp_channels
      (if bool_decide (channel_id ∈ channels) then list_remove channel_id channels
       else channels) c)).

Definition _set_owner_channel (user_id channel_id : Z) : prog unit :=
  modify (with_config (λ c,
    set_owner_channels (PyDict.set (owner_channels c) (str user_id) channel_id) c)).

Definition _get_owner_channel_id (guild : Guild) (user_id : Z)
  : prog (option Z) :=
  owners ← gets (owner_channels ∘ config);
  match PyDict.get owners (str user_id) with
  | None => mret None
  | Some chan_id =>
      let channel := get_channel guild chan_id in
      if negb (is_voice channel) then
        modify (with_config (λ c,
          set_owner_channels (PyDict.pop (owner_channels c) (str user_id)) c));;
        mret None
      else mret (Some chan_id)
  end.

(** The keys the comprehension of [_clear_owner_by_channel] collects. *)
Definition owners_of (owners : list (string * Z)) (channel_id : Z)
  : list string :=
  (filter (λ e, e.2 = channel_id) owners).*1.

Definition _clear_owner_by_channel (channel_id : Z) : prog unit :=
  modify (with_config (λ c,
    let owners := owner_channels c in
    let to_delete := owners_of owners channel_id in
    set_owner_channels (foldl PyDict.pop owners to_delete) c)).

(** ** Deletion timers *)

(** [asyncio.create_task(...)]: a new task, not yet run; its handle. *)
Definition create_task (channel_id : Z) : prog nat := λ s,
  (Ok (length (tasks s)),
   with_tasks (λ ts, ts ++ [{| task_channel := channel_id;
                               task_phase_of := NotStarted;
                               must_cancel := false |}]) s).

Definition set_phase (ph : task_phase) (t : Task) : Task :=
  {| task_channel := task_channel t; task_phase_of := ph;
     must_cancel := must_cancel t |}.

Definition request_cancel (t : Task) : Task :=
  {| task_channel := task_channel t; task_phase_of := task_phase_of t;
     must_cancel := true |}.

(** [task.cancel()] on a task that is not done: the next resumption of the
    task raises [CancelledError] inside it. *)
Definition task_cancel (h : nat) : prog unit :=
  modify (with_tasks (alter request_cancel h)).

Definition _schedule_delete_temp_channel (channel : Channel) : prog unit :=
  registry ← gets _delete_tasks;
  if bool_decide (is_Some (registry !! channel_id channel)) then mret tt
  else if negb (length (members (channel_info channel)) =? 0)%nat then mret tt
  else
    task ← create_task (channel_id channel);
    modify (with_delete_tasks <[channel_id channel := task]>).

(** [_delete_temp_channel_after_delay], first run of the coroutine up to its
    suspension in [asyncio.sleep]: [true] when it is suspended there,
    [false] when it returned before entering the [try].  The read of the
    delay before the [try] writes nothing, and a cancellation that arrives
    there ends the task as one that arrives before the first run does, with
    nothing of the [try] run; it is not a phase of its own. *)
Definition _delete_temp_channel_after_delay_start (now : ChannelInfo)
  : prog bool :=
  match channel_guild now with
  | None => mret false
  | Some _ => delay ← get_delete_delay; mret true
  end.

(** The body of the [try], from one suspension to the next.  Each piece
    returns the phase in which the coroutine is suspended again, or [None]
    when the body has come to its end.

    From the end of the sleep to [channel.delete]; [now] is the captured
    channel object as it is at that time. *)
Definition _delete_temp_channel_after_delay_wake (channel_id : Z)
    (now : ChannelInfo) : prog (option task_phase) :=
  match channel_guild now with
  | None => mret None
  | Some _ =>
      if (length (members now) =? 0)%nat then
        post (DeleteChannel channel_id);;
        mret (Some Deleting)
      else mret None
  end.

(** From the answer to [channel.delete], [delete_response], to the write of
    [_remove_temp_channel]. *)
Definition _delete_temp_channel_after_delay_deleted (channel_id : Z)
    (delete_response : result unit) : prog (option task_phase) :=
  try_catch (lift delete_response) is_NotFound (mret tt);;
  _remove_temp_channel channel_id;;
  mret (Some Untracking).

(** From the end of [_remove_temp_channel] to the write of
    [_clear_owner_by_channel]. *)
Definition _delete_temp_channel_after_delay_untracked (channel_id : Z)
  : prog (option task_phase) :=
  _clear_owner_by_channel channel_id;;
  mret (Some Purging).

(** From the end of [_clear_owner_by_channel] to the end of the [try]. *)
Definition _delete_temp_channel_after_delay_purged
  : prog (option task_phase) :=
  mret None.

(** The [finally] clause. *)
Definition _delete_temp_channel_after_delay_finally (channel_id : Z)
  : prog unit :=
  modify (with_delete_tasks (delete channel_id)).

(** [_delete_temp_channel_after_delay] when [CancelledError] is raised at
    the suspension the coroutine is in, inside the [try]: only the
    [finally] clause runs. *)
Definition _delete_temp_channel_after_delay_cancelled (channel_id : Z)
  : prog unit :=
  _delete_temp_channel_after_delay_finally channel_id.

(** One step of a coroutine inside [try: ... finally: ...].  The [finally]
    clause runs when control leaves the [try], by a return or by an
    exception, and not when the coroutine is suspended again.  The step
    gives the phase of the task afterwards: an exception that leaves the
    coroutine is kept in the task and not raised in the event loop. *)
Definition try_step (body : prog (option task_phase)) (finally : prog unit)
  : prog task_phase := λ s,
  match body s with
  | (Ok (Some ph), s') => (Ok ph, s')
  | (Ok None, s') =>
      match finally s' with
      | (Ok _, s'') => (Ok (Done Returned), s'')
      | (Raise e, s'') => (Ok (Done (Failed e)), s'')
      end
  | (Raise e, s') =>
      match finally s' with
      | (Ok _, s'') => (Ok (Done (Failed e)), s'')
      | (Raise e', s'') => (Ok (Done (Failed e')), s'')
      end
  end.

(** The event loop resumes task [h]: the task runs from the suspension it
    is in to the next one, or to its end.  A sleeping task that is not
    cancelled is resumed when its delay has elapsed; a task that waits for
    the platform is resumed with the platform's answer; a cancelled task is
    resumed with [CancelledError]. *)
Definition resume_task (h : nat) (now : ChannelInfo)
    (delete_response : result unit) : prog unit :=
  ts ← gets tasks;
  match ts !! h with
  | None => mret tt
  | Some t =>
      let finish ph := modify (with_tasks (alter (set_phase ph) h)) in
      let channel_id := task_channel t in
      let finally := _delete_temp_channel_after_delay_finally channel_id in
      match task_phase_of t, must_cancel t with
      | Done _, _ => mret tt
      | NotStarted, true => finish (Done WasCancelled)
      | NotStarted, false =>
          suspended ← _delete_temp_channel_after_delay_start now;
          finish (if suspended : bool then Sleeping else Done Returned)
      | _, true =>
          _delete_temp_channel_after_delay_cancelled channel_id;;
          finish (Done WasCancelled)
      | Sleeping, false =>
          ph ← try_step (_delete_temp_channel_after_delay_wake channel_id now)
                 finally;
          finish ph
      | Deleting, false =>
          ph ← try_step
                 (_delete_temp_channel_after_delay_deleted channel_id
                    delete_response)
                 finally;
          finish ph
      | Untracking, false =>
          ph ← try_step (_delete_temp_channel_after_delay_untracked channel_id)
                 finally;
          finish ph
      | Purging, false =>
          ph ← try_step _delete_temp_channel_after_delay_purged finally;
          finish ph
      end
  end.

Definition _cancel_delete_task (channel_id : Z) : prog unit :=
  registry ← gets _delete_tasks;
  let task := registry !! channel_id in
  modify (with_delete_tasks (delete channel_id));;
  match task with
  | Some h =>
      ts ← gets tasks;
      match ts !! h with
      | Some t => if negb (done_ t) then task_cancel h else mret tt
      | None => mret tt
      end
  | None => mret tt
  end.

(** ** Lobby join *)

(** [member.voice.channel] when it is a [discord.VoiceChannel]. *)
Definition voice_channel_of_member (m : Member) : option Channel :=
  match voice_channel m with
  | Some ch =>
      if bool_decide (kind (channel_info ch) = VoiceChannel) then Some ch
      else None
  | None => None
  end.

(** [other == channel] for channel objects: same class and same id;
    [other] may be absent. *)
Definition same_channel (other : option Channel) (channel : Channel) : bool :=
  match other with
  | Some o =>
      bool_decide (kind (channel_info o) = kind (channel_info channel))
      && bool_decide (channel_id o = channel_id channel)
  | None => false
  end.

(** [member.move_to(channel)] inside [try ... except discord.HTTPException:
    pass]. *)
Definition move_to (member : Member) (channel_id : Z)
    (response : result unit) : prog unit :=
  try_catch (call (MoveTo (member_id member) channel_id) response)
    is_HTTPException (mret tt).

(** The channel [guild.get_channel(cid)] when it is a voice channel. *)
Definition voice_channel_of (guild : Guild) (cid : Z) : option Channel :=
  let ch := get_channel guild cid in if is_voice ch then ch else None.

Definition category_channel_of (guild : Guild) (cid : Z) : option Channel :=
  let ch := get_channel guild cid in if is_category ch then ch else None.

(** [channel.category]: [guild.get_channel(channel.category_id)], [None]
    when the channel has no category or the cache does not hold it. *)
Definition channel_category (guild : Guild) (channel : Channel)
  : option Channel :=
  category_id (channel_info channel) ≫= get_channel guild.

(** The command context: [ctx.guild], [ctx.author] and whether the author
    is a [discord.Member]. *)
Record Ctx := {
  ctx_guild : option Guild;
  ctx_author : Member;
  author_is_member : bool
}.

Section handlers.
Context (py : PyBuiltins).

(** [_handle_creation_join(member, base_channel)]; [create_response] is
    the id of the channel the platform creates, or its error. *)
Definition _handle_creation_join (guild : Guild) (member : Member)
    (base_channel : Channel) (create_response : result Z)
    (move_response : result unit) : prog unit :=
  existing_id ← _get_owner_channel_id guild (member_id member);
  match existing_id ≫= voice_channel_of guild with
  | Some existing_channel =>
      _cancel_delete_task (channel_id existing_channel);;
      move_to member (channel_id existing_channel) move_response
  | None =>
      name_template ← get_name_template;
      counter ← get_next_counter;
      channel_name ← lift (_render_channel_name py name_template member counter);
      let overwrites :=
        PyDict.set (overwrites (channel_info base_channel))
          (member_id member) owner_overwrite in
      if negb (me_manage_channels guild) || negb (me_move_members guild)
      then mret tt
      else
        temp_category_id ← get_temp_category;
        let category :=
          match temp_category_id ≫= category_channel_of guild with
          | Some cat_obj => Some cat_obj
          | None => channel_category guild base_channel
          end in
        new_channel ←
          call (CreateVoiceChannel channel_name (channel_id <$> category)
                  overwrites)
            create_response;
        _add_temp_channel new_channel;;
        _set_owner_channel (member_id member) new_channel;;
        move_to member new_channel move_response
  end.

(** [on_voice_state_update(member, before, after)], [guild] being
    [member.guild] and [before], [after] the channels of the two voice
    states. *)
Definition on_voice_state_update (guild : option Guild) (member : Member)
    (before after : option Channel) (create_response : result Z)
    (move_response : result unit) : prog unit :=
  if bot member then mret tt
  else
    match guild with
    | None => mret tt
    | Some guild =>
        creation_channel_id ← get_creation_channel_id;
        match creation_channel_id with
        | None => mret tt
        | Some creation_channel_id =>
            temp_channels ← get_temp_channels;
            match before with
            | Some ch =>
                if bool_decide (channel_id ch ∈ temp_channels)
                   && (length (members (channel_info ch)) =? 0)%nat
                then _schedule_delete_temp_channel ch
                else mret tt
            | None => mret tt
            end;;
            match after with
            | Some ch =>
                if bool_decide (channel_id ch ∈ temp_channels)
                then _cancel_delete_task (channel_id ch)
                else mret tt
            | None => mret tt
            end;;
            match after with
            | Some ch =>
                if bool_decide (channel_id ch = creation_channel_id)
                then _handle_creation_join guild member ch
                       create_response move_response
                else mret tt
            | None => mret tt
            end
        end
    end.

(** ** Owner commands *)

(** [ctx.send(text, ...)]: a request like the others, answered by
    [response]. *)
Definition send (text : string) (response : result unit) : prog unit :=
  call (Send text) response.

(** [member.mention] *)
Definition mention (m : Member) : string := "<@" +:+ str (member_id m) +:+ ">".

(** The loop over [owners.items()] of [_get_owned_temp_channel_for_ctx]:
    the first entry for the channel whose key is an integer. *)
Fixpoint find_owner_id (owners : list (string * Z)) (channel_id : Z)
  : option Z :=
  match owners with
  | [] => None
  | (uid_str, cid) :: rest =>
      if bool_decide (cid = channel_id) then
        match py_int py uid_str with
        | Some owner_id => Some owner_id
        | None => find_owner_id rest channel_id
        end
      else find_owner_id rest channel_id
  end.

(** [_get_owned_temp_channel_for_ctx(ctx)]; [send_response] answers the
    [ctx.send] of the path taken, if it has one. *)
Definition _get_owned_temp_channel_for_ctx (ctx : Ctx)
    (send_response : result unit) : prog (option Channel) :=
  match ctx_guild ctx with
  | None => mret None
  | Some guild =>
      let author := ctx_author ctx in
      if negb (author_is_member ctx) then mret None
      else
        match voice_channel_of_member author with
        | None =>
            send "You must be connected to a temporary voice channel to use this command."
              send_response;;
            mret None
        | Some channel =>
            temp_channels ← get_temp_channels;
            if bool_decide (channel_id channel ∉ temp_channels) then
              send "This command can only be used inside a managed temporary voice channel."
                send_response;;
              mret None
            else
              owners ← gets (owner_channels ∘ config);
              let owner_id := find_owner_id owners (channel_id channel) in
              if bool_decide (owner_id ≠ Some (member_id author)) then
                send "You are not the owner of this temporary voice channel."
                  send_response;;
                mret None
              else mret (Some channel)
        end
  end.

(** [vch_owner_transfer(ctx, new_owner)]; [edit_response] is the
    platform's answer to [channel.edit], [send_response] its answer to the
    one [ctx.send] of the path taken. *)
Definition vch_owner_transfer (ctx : Ctx) (new_owner : Member)
    (edit_response send_response : result unit) : prog unit :=
  channel ← _get_owned_temp_channel_for_ctx ctx send_response;
  match channel with
  | None => mret tt
  | Some channel =>
      match ctx_guild ctx with
      | None => raise AssertionError
      | Some guild =>
          if bot new_owner then
            send "You cannot transfer ownership to a bot." send_response
          else if negb (same_channel (voice_channel new_owner) channel) then
            send "The target user must be in the same voice channel as you."
              send_response
          else
            let overwrites := overwrites (channel_info channel) in
            let overwrites :=
              if PyDict.mem overwrites (member_id (ctx_author ctx))
              then PyDict.pop overwrites (member_id (ctx_author ctx))
              else overwrites in
            let overwrites :=
              PyDict.set overwrites (member_id new_owner) owner_overwrite in
            name_template ← get_name_template;
            counter ← get_next_counter;
            new_name ← lift (_render_channel_name py name_template new_owner counter);
            edited ←
              try_catch
                (call (EditChannel (channel_id channel) new_name overwrites)
                   edit_response;;
                 mret true)
                is_HTTPException
                (send "Failed to update channel permissions or rename the channel."
                   send_response;;
                 mret false);
            if edited : bool then
              _clear_owner_by_channel (channel_id channel);;
              _set_owner_channel (member_id new_owner) (channel_id channel);;
              send ("Ownership of this temporary voice channel has been transferred to "
                    +:+ mention new_owner +:+ ".")
                send_response
            else mret tt
      end
  end.
End handlers.

(** ** Notions used in the statements *)

(** The value [get_next_counter] works with: a missing counter or one below
    1 counts as 1. *)
Definition normalise (c : option Z) : Z :=
  match c with
  | None => 1
  | Some c => if c <? 1 then 1 else c
  end.


(** Calls of [get_next_counter] that may overlap: the event loop runs one
    step of one call at a time, and [steps] names the call that takes each
    step.  The first step of a call is its read, the second its write, after
    which the call returns; [pending] holds the value read by each call that
    has not written yet.  The result lists the calls with the values they
    return, in the order in which they return. *)
Fixpoint interleaved_counters (steps : list nat) (pending : gmap nat Z)
  : prog (list (nat * Z)) :=
  match steps with
  | [] => mret []
  | i :: steps =>
      match pending !! i with
      | None =>
          current ← get_next_counter_read;
          interleaved_counters steps (<[i := current]> pending)
      | Some current =>
          v ← get_next_counter_write current;
          vs ← interleaved_counters steps (delete i pending);
          mret ((i, v) :: vs)
      end
  end.


(** What happens to the cog: a voice state update, the event loop resuming
    a deletion task, the transfer command. *)
Inductive event :=
  | VoiceStateUpdate (guild : option Guild) (member : Member)
      (before after : option Channel) (create_response : result Z)
      (move_response : result unit)
  | ResumeTask (h : nat) (now : ChannelInfo) (delete_response : result unit)
  | OwnerTransfer (ctx : Ctx) (new_owner : Member)
      (edit_response send_response : result unit).

Definition handle (py : PyBuiltins) (e : event) : prog unit :=
  match e with
  | VoiceStateUpdate guild member before after create_response move_response =>
      on_voice_state_update py guild member before after
        create_response move_response
  | ResumeTask h now delete_response => resume_task h now delete_response
  | OwnerTransfer ctx new_owner edit_response send_response =>
      vch_owner_transfer py ctx new_owner edit_response send_response
  end.

(** The state after a sequence of events; a handler that raises leaves the
    state it had reached. *)
Definition run (py : PyBuiltins) (es : list event) (s : Cog) : Cog :=
  foldl (λ s e, exec (handle py e) s) s es.

(** [p] keeps the property [I] of the state, whatever it returns. *)
Definition preserves {A} (I : Cog → Prop) (p : prog A) : Prop :=
  ∀ s, I s → I (p s).2.

(** The owner map is a dictionary in which no channel is the value of two
    entries. *)
Definition owners_inv (d : list (string * Z)) : Prop :=
  PyDict.wf d ∧ NoDup d.*2.



(** A property of the persisted settings, as a property of the state. *)
Definition config_inv (P : GuildConfig → Prop) : Cog → Prop :=
  λ s, P (config s).

(** The keyword arguments [_render_channel_name] passes to [str.format]. *)
Definition render_kwargs (py : PyBuiltins) (member : Member) (counter : Z)
  : list (string * PyObj (Other py)) :=
  [("user", PyStr (display_name member)); ("id", PyInt (member_id member));
   ("tag", PyStr (member_tag member)); ("counter", PyInt counter)]%string.

(** The name the renderer falls back to. *)
Definition fallback_name (member : Member) : string :=
  display_name member +:+ "'s channel".

Fixpoint string_forall (P : ascii → bool) (s : string) : bool :=
  match s with
  | EmptyString => true
  | String c s' => P c && string_forall P s'
  end.

(** Text without braces. *)
Definition no_brace (s : string) : bool :=
  string_forall (λ c, negb (is_brace c)) s.

(** A placeholder name without any character the field syntax gives a
    meaning to: braces, square brackets, dot, colon, exclamation mark. *)
Definition plain_name (s : string) : bool :=
  string_forall (λ c, negb (is_brace c || (c =? "[")%char || (c =? "]")%char
                           || (c =? ".")%char || (c =? ":")%char
                           || (c =? "!")%char)) s.

(** The four placeholders of a name template. *)
Definition placeholders : list string := ["user"; "id"; "tag"; "counter"]%string.

(** The event loop resumes task [h] several times, each time with the
    channel as it is then and the platform's answer to a delete request. *)
Definition resume_all (h : nat) (rs : list (ChannelInfo * result unit))
    (s : Cog) : Cog :=
  foldl (λ st r, exec (resume_task h r.1 r.2) st) s rs.



(** The settings after a channel has been untracked. *)
Definition untracked (cid : Z) (c : GuildConfig) : GuildConfig :=
  set_temp_channels
    (if bool_decide (cid ∈ temp_channels c)
     then list_remove cid (temp_channels c) else temp_channels c) c.

(** The settings after the entries of the owners of a channel are popped. *)
Definition purged (cid : Z) (c : GuildConfig) : GuildConfig :=
  set_owner_channels
    (foldl PyDict.pop (owner_channels c) (owners_of (owner_channels c) cid)) c.

(** The state in which task [h] is in phase [ph]. *)
Definition in_phase (h : nat) (ph : task_phase) (s : Cog) : Cog :=
  with_tasks (alter (set_phase ph) h) s.

(** The settings after a channel has been reclaimed: it is no longer
    tracked and the entries of its owners are popped. *)
Definition reclaimed (cid : Z) (c : GuildConfig) : GuildConfig :=
  let c1 :=
    set_temp_channels
      (if bool_decide (cid ∈ temp_channels c)
       then list_remove cid (temp_channels c) else temp_channels c) c in
  set_owner_channels
    (foldl PyDict.pop (owner_channels c1) (owners_of (owner_channels c1) cid)) c1.

(** The state with further requests in the platform log. *)
Definition logged (cs : list api_call) (s : Cog) : Cog :=
  {| config := config s; _delete_tasks := _delete_tasks s; tasks := tasks s;
     calls := calls s ++ cs |}.

(** ** Sample data *)

(** A guild with a category (channel 2), in it a lobby (channel 1) and one
    temporary channel (100), owned by member 42, in which members 42 and 43
    sit. *)
Definition category_info : ChannelInfo :=
  {| kind := CategoryChannel; channel_guild := Some 9; members := [];
     category_id := None; overwrites := [] |}.

Definition lobby_info : ChannelInfo :=
  {| kind := VoiceChannel; channel_guild := Some 9; members := [];
     category_id := Some 2; overwrites := [] |}.

Definition temp_info (ms : list Z) : ChannelInfo :=
  {| kind := VoiceChannel; channel_guild := Some 9; members := ms;
     category_id := Some 2; overwrites := [(42, owner_overwrite)] |}.

Definition lobby : Channel := {| channel_id := 1; channel_info := lobby_info |}.

Definition temp100_empty : Channel :=
  {| channel_id := 100; channel_info := temp_info [] |}.

Definition temp100 : Channel :=
  {| channel_id := 100; channel_info := temp_info [42; 43] |}.

Definition guild9 (manage move : bool) : Guild :=
  {| guild_channels :=
       <[1 := lobby_info]> (<[2 := category_info]> (<[100 := temp_info [42; 43]]> ∅));
     me_manage_channels := manage; me_move_members := move |}.

Definition ann : Member :=
  {| member_id := 42; display_name := "Ann"; member_tag := "ann#0001";
     bot := false; voice_channel := Some temp100 |}.

Definition bob : Member :=
  {| member_id := 43; display_name := "Bob"; member_tag := "bob#0002";
     bot := false; voice_channel := Some temp100 |}.

Definition carl : Member :=
  {| member_id := 44; display_name := "Carl"; member_tag := "carl#0003";
     bot := false; voice_channel := Some lobby |}.

Definition ctx_ann : Ctx :=
  {| ctx_guild := Some (guild9 true true); ctx_author := ann;
     author_is_member := true |}.

Definition config9 : GuildConfig :=
  {| creation_channel_id := Some 1;
     name_template := "{user} #{counter}";
     delete_delay := 10;
     temp_category_id := None;
     temp_channels := [100];
     counter := Some 5;
     owner_channels := [("42", 100)]%string |}.

(** [cog9] once channel 100 is empty and its deletion task is asleep. *)
Definition cog9_sleeping : Cog :=
  {| config := config9;
     _delete_tasks := {[100 := 0%nat]};
     tasks := [{| task_channel := 100; task_phase_of := Sleeping;
                  must_cancel := false |}];
     calls := [] |}.

Definition cog9 : Cog :=
  {| config := config9; _delete_tasks := ∅; tasks := []; calls := [] |}.

(** ** Commands: the settings mirror file and further requests

    The configuration commands (VCC/commands_mixin.py, [setupvch]) write the
    settings and a JSON file [<guild_id>.json]; the owner commands
    (VCC/VCOwnerCommand.py) send requests the lifecycle has no use for.  A
    file is modelled by what [json.load] makes of it; writing is taken to
    succeed. *)

Local Unset Elimination Schemes.
Inductive Json :=
  | JNull
  | JBool (b : bool)
  | JInt (n : Z)
  | JFloat (nonzero : bool)      (* a float, of which only truth is looked at *)
  | JStr (s : string)
  | JList (l : list Json)
  | JDict (d : list (string * Json)).
Local Set Elimination Schemes.

(** A file that exists: one [json.load] fails on, or one it parses. *)
Inductive JsonFile :=
  | Unreadable
  | Parsed (j : Json).

(** [bool(x)] for a loaded value. *)
Definition truthy (j : Json) : bool :=
  match j with
  | JNull => false
  | JBool b => b
  | JInt n => negb (n =? 0)
  | JFloat nonzero => nonzero
  | JStr s => negb (String.eqb s EmptyString)
  | JList l => match l with [] => false | _ => true end
  | JDict d => match d with [] => false | _ => true end
  end.

(** [x or {}] *)
Definition or_empty_dict (j : Json) : Json :=
  if truthy j then j else JDict [].

(** [x.update(entries)]: only a dict has the method. *)
Definition dict_update (j : Json) (entries : list (string * Json))
  : result (list (string * Json)) :=
  match j with
  | JDict d => Ok (foldl (λ d e, PyDict.set d e.1 e.2) d entries)
  | _ => Raise AttributeError
  end.

(** An optional id as a JSON value. *)
Definition json_of_id (o : option Z) : Json :=
  match o with Some n => JInt n | None => JNull end.

(** Everything a command can ask of the platform, in the order asked. *)
Inductive request :=
  | Platform (c : api_call)
  | EditUserLimit (cid limit : Z)
  | CreateInvite (cid max_age max_uses : Z) (unique : bool)
  | DirectMessage (uid : Z) (text : string).

Record World := {
  cog : Cog;
  files : gmap Z JsonFile;       (* guild id -> its JSON file, if any *)
  requests : list request
}.

Definition cmd (A : Type) : Type := World → result A * World.

Global Instance cmd_ret : MRet cmd := λ A a w, (Ok a, w).

Global Instance cmd_bind : MBind cmd := λ A B f p w,
  match p w with
  | (Ok a, w') => f a w'
  | (Raise e, w') => (Raise e, w')
  end.

(** A coroutine of the cog run inside a command: its platform requests are
    appended to the requests of the command. *)
Definition on_cog {A} (p : prog A) : cmd A := λ w,
  let '(r, c') := p (cog w) in
  (r, {| cog := c'; files := files w;
         requests := requests w
                     ++ (Platform <$> drop (length (calls (cog w))) (calls c')) |}).

Definition cmd_lift {A} (r : result A) : cmd A := λ w, (r, w).

(** A request outside the lifecycle's, answered by [response]. *)
Definition ask {A} (q : request) (response : result A) : cmd A := λ w,
  (response,
   {| cog := cog w; files := files w; requests := requests w ++ [q] |}).

(** [try: p except E: h] for commands. *)
Definition cmd_try_catch {A} (p : cmd A) (catches : exn → bool) (h : cmd A)
  : cmd A := λ w,
  match p w with
  | (Raise e, w') => if catches e then h w' else (Raise e, w')
  | r => r
  end.

Definition cmd_exec {A} (p : cmd A) (w : World) : World := (p w).2.
Definition cmd_eval {A} (p : cmd A) (w : World) : result A := (p w).1.

(** [isinstance(e, discord.Forbidden)] *)
Definition is_Forbidden (e : exn) : bool :=
  match e with Forbidden => true | _ => false end.

(** *** The JSON file of a guild *)

(** [_read_guild_json]: [JNull] is Python's [None]. *)
Definition _read_guild_json (guild_id : Z) : cmd Json := λ w,
  (Ok match files w !! guild_id with
      | None => JNull
      | Some Unreadable => JNull
      | Some (Parsed j) => j
      end, w).

Definition _write_guild_json (guild_id : Z) (data : list (string * Json))
  : cmd unit := λ w,
  (Ok tt,
   {| cog := cog w; files := <[guild_id := Parsed (JDict data)]> (files w);
      requests := requests w |}).

(** *** Setters of the settings store *)

Definition set_creation_channel_id (v : option Z) (c : GuildConfig)
  : GuildConfig :=
  {| creation_channel_id := v;
     name_template := name_template c; delete_delay := delete_delay c;
     temp_category_id := temp_category_id c;
     temp_channels := temp_channels c; counter := counter c;
     owner_channels := owner_channels c |}.

Definition set_name_template_field (v : string) (c : GuildConfig)
  : GuildConfig :=
  {| creation_channel_id := creation_channel_id c;
     name_template := v; delete_delay := delete_delay c;
     temp_category_id := temp_category_id c;
     temp_channels := temp_channels c; counter := counter c;
     owner_channels := owner_channels c |}.

Definition set_delete_delay_field (v : Z) (c : GuildConfig) : GuildConfig :=
  {| creation_channel_id := creation_channel_id c;
     name_template := name_template c; delete_delay := v;
     temp_category_id := temp_category_id c;
     temp_channels := temp_channels c; counter := counter c;
     owner_channels := owner_channels c |}.

Definition set_temp_category_id (v : option Z) (c : GuildConfig)
  : GuildConfig :=
  {| creation_channel_id := creation_channel_id c;
     name_template := name_template c; delete_delay := delete_delay c;
     temp_category_id := v;
     temp_channels := temp_channels c; counter := counter c;
     owner_channels := owner_channels c |}.

Definition set_creation_channel (channel_id : option Z) : prog unit :=
  modify (with_config (set_creation_channel_id channel_id)).

Definition set_name_template (template : string) : prog unit :=
  modify (with_config (set_name_template_field template)).

Definition set_delete_delay (delay : Z) : prog unit :=
  modify (with_config (set_delete_delay_field delay)).

Definition set_temp_category (category_id : option Z) : prog unit :=
  modify (with_config (set_temp_category_id category_id)).

(** *** Configuration commands *)

(** The context of a configuration command: [ctx.guild] with its id,
    [ctx.author], and the cached name of a channel ([channel.name]). *)
Record AdminCtx := {
  admin_guild : option Guild;
  admin_guild_id : Z;
  admin_author : Member;
  channel_name : Z → string
}.

(** A line break inside a message. *)
Definition nl : string := String (ascii_of_nat 10) EmptyString.

(** [channel.mention] *)
Definition channel_mention (channel_id : Z) : string :=
  "<#" +:+ str channel_id +:+ ">".

(** The five entries every command stores in the JSON file. *)
Definition db_entries (guild_id : Z) (creator : option Z) (template : string)
    (delay : Z) (category_id : option Z) : list (string * Json) :=
  [("guild_id", JInt guild_id);
   ("voicecreateroom_id", json_of_id creator);
   ("name_template", JStr template);
   ("delete_delay", JInt delay);
   ("temp_category_id", json_of_id category_id)]%string.

Section commands.
Context (py : PyBuiltins).

(** [setupvch(ctx, creator_room, delete_delay, category, name_template)];
    [category_arg] is the optional [category] argument.  Here and in the
    commands below [send_response] is the platform's answer to the
    [ctx.send] of the path taken. *)
Definition setupvch (ctx : AdminCtx) (creator_room : Channel) (delete_delay : Z)
    (category_arg : option Channel) (name_template : string)
    (send_response : result unit) : cmd unit :=
  match admin_guild ctx with
  | None => mret tt
  | Some guild =>
      let delete_delay := if delete_delay <? 3 then 3 else delete_delay in
      let target_category_id :=
        match category_arg with
        | Some category => Some (channel_id category)
        | None => category_id (channel_info creator_room)
        end in
      on_cog (set_creation_channel (Some (channel_id creator_room)));;
      on_cog (set_name_template name_template);;
      on_cog (set_delete_delay delete_delay);;
      on_cog (set_temp_category target_category_id);;
      let db_data :=
        db_entries (admin_guild_id ctx) (Some (channel_id creator_room))
          name_template delete_delay target_category_id in
      _write_guild_json (admin_guild_id ctx) db_data;;
      let temp_cat_text :=
        match target_category_id ≫= category_channel_of guild with
        | Some cat_obj => channel_name ctx (channel_id cat_obj)
        | None => "None"%string
        end in
      on_cog (send
        ("VoiceChannelHandling configured for this server." +:+ nl +:+
         "- Creation room: " +:+ channel_mention (channel_id creator_room) +:+ nl +:+
         "- Name template: `" +:+ name_template +:+ "`" +:+ nl +:+
         "- Delete delay: " +:+ str delete_delay +:+ " seconds" +:+ nl +:+
         "- Temp category: " +:+ temp_cat_text +:+ nl +:+
         "- JSON DB file: `" +:+ str (admin_guild_id ctx) +:+ ".json`")
        send_response)
  end.

(** The pattern shared by the [vch set...] commands: load the file or start
    from an empty dict, overwrite the five entries, write it back. *)
Definition update_guild_json (guild_id : Z) (entries : list (string * Json))
  : cmd unit :=
  loaded ← _read_guild_json guild_id;
  db_data ← cmd_lift (dict_update (or_empty_dict loaded) entries);
  _write_guild_json guild_id db_data.

(** [vch(ctx)]: show the settings. *)
Definition vch (ctx : AdminCtx) (send_response : result unit) : cmd unit :=
  match admin_guild ctx with
  | None => mret tt
  | Some guild =>
      creation_channel_id ← on_cog get_creation_channel_id;
      name_template ← on_cog get_name_template;
      delete_delay ← on_cog get_delete_delay;
      temp_category_id ← on_cog get_temp_category;
      let creation_channel := creation_channel_id ≫= voice_channel_of guild in
      let temp_category := temp_category_id ≫= category_channel_of guild in
      db_data ← _read_guild_json (admin_guild_id ctx);
      let has_json := match db_data with JNull => false | _ => true end in
      let description_lines :=
        [ "Creation room: " +:+
            match creation_channel with
            | Some ch => channel_mention (channel_id ch)
            | None => "Not set"
            end;
          "Name template: `" +:+ name_template +:+ "`";
          "Delete delay: " +:+ str delete_delay +:+ " seconds";
          "Temp category: " +:+
            match temp_category with
            | Some ch => channel_name ctx (channel_id ch)
            | None => "Not set"
            end;
          "JSON DB file: `" +:+ str (admin_guild_id ctx) +:+ ".json` (" +:+
            (if has_json then "present" else "missing") +:+ ")" ]%string in
      on_cog (send
        ("VoiceChannelHandling settings for this server:" +:+ nl +:+
         String.concat nl ((λ line, "- " +:+ line) <$> description_lines))
        send_response)
  end.

(** [vch_set_creator(ctx, creator_room)] *)
Definition vch_set_creator (ctx : AdminCtx) (creator_room : Channel)
    (send_response : result unit) : cmd unit :=
  match admin_guild ctx with
  | None => mret tt
  | Some guild =>
      on_cog (set_creation_channel (Some (channel_id creator_room)));;
      name_template ← on_cog get_name_template;
      delete_delay ← on_cog get_delete_delay;
      temp_category_id ← on_cog get_temp_category;
      update_guild_json (admin_guild_id ctx)
        (db_entries (admin_guild_id ctx) (Some (channel_id creator_room))
           name_template delete_delay temp_category_id);;
      on_cog (send ("Creation lobby channel set to " +:+
                    channel_mention (channel_id creator_room) +:+ ".")
                send_response)
  end.

(** The dry run of [vch_set_name]: the template formatted with the author
    and counter 1. *)
Definition dry_run (template : string) (author : Member) : result string :=
  let tag := member_tag author in
  str_format py template
    [("user", PyStr (display_name author)); ("id", PyInt (member_id author));
     ("tag", PyStr tag); ("counter", PyInt 1)]%string.

(** [vch_set_name(ctx, template)] *)
Definition vch_set_name (ctx : AdminCtx) (template : string)
    (send_response : result unit) : cmd unit :=
  match admin_guild ctx with
  | None => mret tt
  | Some guild =>
      match dry_run template (admin_author ctx) with
      | Raise _ =>
          on_cog (send "Template is invalid. You can use `{user}`, `{id}`, `{tag}`, and `{counter}` placeholders."
                    send_response)
      | Ok test_name =>
          on_cog (set_name_template template);;
          creation_channel_id ← on_cog get_creation_channel_id;
          delete_delay ← on_cog get_delete_delay;
          temp_category_id ← on_cog get_temp_category;
          update_guild_json (admin_guild_id ctx)
            (db_entries (admin_guild_id ctx) creation_channel_id
               template delete_delay temp_category_id);;
          on_cog (send ("Name template updated." +:+ nl +:+
                        "Example with you: `" +:+ test_name +:+ "`")
                    send_response)
      end
  end.

(** [vch_set_delay(ctx, seconds)] *)
Definition vch_set_delay (ctx : AdminCtx) (seconds : Z)
    (send_response : result unit) : cmd unit :=
  match admin_guild ctx with
  | None => mret tt
  | Some guild =>
      let seconds := if seconds <? 3 then 3 else seconds in
      on_cog (set_delete_delay seconds);;
      creation_channel_id ← on_cog get_creation_channel_id;
      name_template ← on_cog get_name_template;
      temp_category_id ← on_cog get_temp_category;
      update_guild_json (admin_guild_id ctx)
        (db_entries (admin_guild_id ctx) creation_channel_id
           name_template seconds temp_category_id);;
      on_cog (send ("Delete delay set to " +:+ str seconds +:+ " seconds.")
                send_response)
  end.

(** [vch_set_category(ctx, category)] *)
Definition vch_set_category (ctx : AdminCtx) (category_arg : option Channel)
    (send_response : result unit) : cmd unit :=
  match admin_guild ctx with
  | None => mret tt
  | Some guild =>
      target_category_id ←
        match category_arg with
        | Some category => mret (Some (channel_id category))
        | None =>
            creation_id ← on_cog get_creation_channel_id;
            let creation_channel := creation_id ≫= voice_channel_of guild in
            mret (creation_channel ≫= λ ch, category_id (channel_info ch))
        end;
      on_cog (set_temp_category target_category_id);;
      creation_channel_id ← on_cog get_creation_channel_id;
      name_template ← on_cog get_name_template;
      delete_delay ← on_cog get_delete_delay;
      update_guild_json (admin_guild_id ctx)
        (db_entries (admin_guild_id ctx) creation_channel_id
           name_template delete_delay target_category_id);;
      match target_category_id with
      | None =>
          on_cog (send "Temp channel category cleared. New temp channels will follow the creation lobby's category."
                    send_response)
      | Some target =>
          let cat_name :=
            match category_channel_of guild target with
            | Some cat_obj => channel_name ctx (channel_id cat_obj)
            | None => "Unknown"%string
            end in
          on_cog (send ("Temp channel category set to `" +:+ cat_name +:+ "`.")
                    send_response)
      end
  end.

(** *** Owner commands: limit and invite *)

(** [vch_owner_group(ctx)] *)
Definition vch_owner_group (send_response : result unit) : cmd unit :=
  on_cog (send
    ("Available owner commands:" +:+ nl +:+
     "- `/voicechannelhandling transfer <user>`" +:+ nl +:+
     "- `/voicechannelhandling limit <number>`" +:+ nl +:+
     "- `/voicechannelhandling invite [public]`")
    send_response).

(** [vch_owner_limit(ctx, limit)]; [edit_response] answers
    [channel.edit(user_limit=limit)]. *)
Definition vch_owner_limit (ctx : Ctx) (limit : Z)
    (edit_response send_response : result unit) : cmd unit :=
  channel ← on_cog (_get_owned_temp_channel_for_ctx py ctx send_response);
  match channel with
  | None => mret tt
  | Some channel =>
      let limit := if limit <? 0 then 0 else limit in
      let limit := if limit >? 99 then 99 else limit in
      edited ←
        cmd_try_catch
          (ask (EditUserLimit (channel_id channel) limit) edit_response;;
           mret true)
          is_HTTPException
          (on_cog (send "Failed to change the user limit for this channel."
                     send_response);;
           mret false);
      if edited : bool then
        let limit_text := if limit =? 0 then "unlimited"%string else str limit in
        on_cog (send ("User limit for this channel is now set to " +:+
                      limit_text +:+ ".")
                  send_response)
      else mret tt
  end.

(** [vch_owner_invite(ctx, public)]; [invite_response] is the url of the
    invite the platform creates, [dm_response] its answer to the direct
    message, [send_response] its answer to the first [ctx.send] of the
    path taken and [second_send_response] to the second: the message of the
    [except discord.Forbidden] clause is the second [ctx.send] when the
    direct message went through and the confirmation was refused. *)
Definition vch_owner_invite (ctx : Ctx) (public : option bool)
    (invite_response : result string)
    (dm_response send_response second_send_response : result unit)
  : cmd unit :=
  channel ← on_cog (_get_owned_temp_channel_for_ctx py ctx send_response);
  match channel with
  | None => mret tt
  | Some channel =>
      invite ←
        cmd_try_catch
          (url ← ask (CreateInvite (channel_id channel) 1800 0 true)
                   invite_response;
           mret (Some url))
          is_HTTPException
          (on_cog (send "Failed to create an invite for this channel."
                     send_response);;
           mret None);
      match invite with
      | None => mret tt
      | Some url =>
          if default false public then
            on_cog (send ("Invite link for this temporary voice channel (valid 30 minutes): "
                          +:+ url)
                      send_response)
          else
            cmd_try_catch
              (ask (DirectMessage (member_id (ctx_author ctx))
                      ("Here is your temporary voice channel invite (valid 30 minutes): "
                       +:+ url)) dm_response;;
               on_cog (send "I have sent you a DM with an invite link for this channel."
                         send_response))
              is_Forbidden
              (on_cog (send "I could not DM you the invite link. Please check your privacy settings."
                         (match dm_response with
                          | Raise _ => send_response
                          | Ok _ => second_send_response
                          end)))
      end
  end.
End commands.

(** ** Further notions used in the statements *)

(** What a coroutine returns when it ends with a [ctx.send] answered by
    [response] and would return [v] afterwards: [v] once the message is
    delivered, the exception of the platform otherwise. *)
Definition after_send {A} (response : result unit) (v : A) : result A :=
  match response with
  | Ok _ => Ok v
  | Raise e => Raise e
  end.

(** Every registry entry names a task that was created for that channel. *)
Definition registry_wf (s : Cog) : Prop :=
  ∀ cid h, _delete_tasks s !! cid = Some h →
           ∃ t, tasks s !! h = Some t ∧ task_channel t = cid.




(** Every key of the owner map is [str(n)] for a user id [n] that [int]
    gives back. *)
Definition keys_parse (py : PyBuiltins) (owners : list (string * Z)) : Prop :=
  ∀ k v, (k, v) ∈ owners → ∃ n, k = str n ∧ py_int py k = Some n.

(** What [_get_owned_temp_channel_for_ctx] accepts: the command comes from a
    guild member who sits in a tracked voice channel whose recorded owner is
    that member. *)
Definition accepts (py : PyBuiltins) (ctx : Ctx) (s : Cog) (ch : Channel) : Prop :=
  is_Some (ctx_guild ctx) ∧ author_is_member ctx = true ∧
  voice_channel_of_member (ctx_author ctx) = Some ch ∧
  channel_id ch ∈ temp_channels (config s) ∧
  find_owner_id py (owner_channels (config s)) (channel_id ch)
  = Some (member_id (ctx_author ctx)).

(** The configuration commands of the cog. *)
Inductive admin_command :=
  | Setup (creator_room : Channel) (delete_delay : Z)
      (category_arg : option Channel) (name_template : string)
  | ShowSettings
  | SetCreator (creator_room : Channel)
  | SetName (template : string)
  | SetDelay (seconds : Z)
  | SetCategory (category_arg : option Channel).

Definition admin (py : PyBuiltins) (ctx : AdminCtx) (c : admin_command)
    (send_response : result unit) : cmd unit :=
  match c with
  | Setup creator_room delete_delay category_arg name_template =>
      setupvch ctx creator_room delete_delay category_arg name_template
        send_response
  | ShowSettings => vch ctx send_response
  | SetCreator creator_room => vch_set_creator ctx creator_room send_response
  | SetName template => vch_set_name py ctx template send_response
  | SetDelay seconds => vch_set_delay ctx seconds send_response
  | SetCategory category_arg => vch_set_category ctx category_arg send_response
  end.

(** Everything that can happen to the cog: a configuration command, an
    event of the lifecycle (transfers included), an owner command. *)
Inductive action :=
  | Admin (ctx : AdminCtx) (c : admin_command) (send_response : result unit)
  | Lifecycle (e : event)
  | OwnerGroup (send_response : result unit)
  | OwnerLimit (ctx : Ctx) (limit : Z) (edit_response send_response : result unit)
  | OwnerInvite (ctx : Ctx) (public : option bool)
      (invite_response : result string)
      (dm_response send_response second_send_response : result unit).

Definition act (py : PyBuiltins) (a : action) : cmd unit :=
  match a with
  | Admin ctx c send_response => admin py ctx c send_response
  | Lifecycle e => on_cog (handle py e)
  | OwnerGroup send_response => vch_owner_group send_response
  | OwnerLimit ctx limit edit_response send_response =>
      vch_owner_limit py ctx limit edit_response send_response
  | OwnerInvite ctx public invite_response dm_response send_response
      second_send_response =>
      vch_owner_invite py ctx public invite_response dm_response send_response
        second_send_response
  end.

(** The world after a sequence of actions; one that raises leaves the world
    it had reached. *)
Definition play (py : PyBuiltins) (acts : list action) (w : World) : World :=
  foldl (λ w a, cmd_exec (act py a) w) w acts.

(** The four settings of a guild. *)
Definition settings (c : GuildConfig)
  : option Z * string * Z * option Z :=
  (creation_channel_id c, name_template c, delete_delay c, temp_category_id c).

(** What the lifecycle keeps: tracked channels, owners, counter, registry
    and tasks. *)
Definition lifecycle_state (c : Cog)
  : list Z * list (string * Z) * option Z * gmap Z nat * list Task :=
  (temp_channels (config c), owner_channels (config c), counter (config c),
   _delete_tasks c, tasks c).

(** What [_read_guild_json] returns for a guild. *)
Definition loaded (w : World) (guild_id : Z) : Json :=
  match cmd_eval (_read_guild_json guild_id) w with
  | Ok j => j
  | Raise _ => JNull
  end.

Definition is_dict (j : Json) : bool :=
  match j with JDict _ => true | _ => false end.

(** The entries of a loaded dict; none for anything else. *)
Definition entries_of (j : Json) : list (string * Json) :=
  match j with JDict d => d | _ => [] end.

(** The JSON entries agree with the settings of the guild. *)
Definition mirrors (guild_id : Z) (c : GuildConfig) (d : list (string * Json))
  : Prop :=
  PyDict.get d "guild_id"%string = Some (JInt guild_id) ∧
  PyDict.get d "voicecreateroom_id"%string
  = Some (json_of_id (creation_channel_id c)) ∧
  PyDict.get d "name_template"%string = Some (JStr (name_template c)) ∧
  PyDict.get d "delete_delay"%string = Some (JInt (delete_delay c)) ∧
  PyDict.get d "temp_category_id"%string
  = Some (json_of_id (temp_category_id c)).

(** The keys of the five entries. *)
Definition db_keys : list string :=
  ["guild_id"; "voicecreateroom_id"; "name_template"; "delete_delay";
   "temp_category_id"]%string.

(** A message of the bot in the channel of the command. *)
Definition is_message (q : request) : Prop := ∃ text, q = Platform (Send text).

Definition admin9 : AdminCtx :=
  {| admin_guild := Some (guild9 true true); admin_guild_id := 9;
     admin_author := ann; channel_name := λ _, "General"%string |}.

Definition world9 : World :=
  {| cog := cog9; files := ∅; requests := [] |}.

(** The outcome of a command that stores the settings [g'], writes the five
    entries to the JSON file of the guild ([overwrite]: without reading the
    file first) and answers [msg], the platform answering [send_response]
    to that message. *)
Definition outcome_of_store (guild_id : Z) (g' : GuildConfig) (msg : string)
    (send_response : result unit) (overwrite : bool) (w : World)
  : result unit * World :=
  let base := if overwrite then JDict []
              else or_empty_dict (loaded w guild_id) in
  match dict_update base
          (db_entries guild_id (creation_channel_id g') (name_template g')
             (delete_delay g') (temp_category_id g')) with
  | Ok d =>
      (send_response,
       {| cog := logged [Send msg] (with_config (λ _, g') (cog w));
          files := <[guild_id := Parsed (JDict d)]> (files w);
          requests := requests w ++ [Platform (Send msg)] |})
  | Raise e =>
      (Raise e,
       {| cog := with_config (λ _, g') (cog w); files := files w;
          requests := requests w |})
  end.

(** The category a command resolves: the one given, or else the category
    of the lobby when the lobby is a voice channel of the guild. *)
Definition category_choice (guild : Guild) (category_arg : option Channel)
    (lobby_id : option Z) : option Z :=
  match category_arg with
  | Some cat => Some (channel_id cat)
  | None => (lobby_id ≫= voice_channel_of guild)
              ≫= λ ch, category_id (channel_info ch)
  end.

(** Whether a configuration command stores settings: all but [vch] do, in
    a guild, [vch_set_name] when the dry run of the template succeeds. *)
Definition stores (py : PyBuiltins) (ctx : AdminCtx) (c : admin_command)
  : bool :=
  match admin_guild ctx, c with
  | None, _ => false
  | Some _, ShowSettings => false
  | Some _, SetName template =>
      match dry_run py template (admin_author ctx) with
      | Ok _ => true
      | Raise _ => false
      end
  | Some _, _ => true
  end.

(** [setupvch] writes the file without reading it. *)
Definition overwrites_file (c : admin_command) : bool :=
  match c with Setup _ _ _ _ => true | _ => false end.

(** A file the [vch set...] commands cannot update: what it holds is true
    and not a dict. *)
Definition foreign (j : Json) : bool := truthy j && negb (is_dict j).

(** The world without any JSON file. *)
Definition without_files (w : World) : World :=
  {| cog := cog w; files := ∅; requests := requests w |}.

(** A bot account. *)
Definition jukebox : Member :=
  {| member_id := 7; display_name := "Jukebox"; member_tag := "jukebox#0";
     bot := true; voice_channel := None |}.

(** * Properties *)

(** ** Dictionaries *)

Section dict_facts.
Context {K V : Type} `{EqDecision K}.
Implicit Types (d : list (K * V)) (k : K) (v : V).

Lemma get_None d k : PyDict.get d k = None ↔ k ∉ d.*1.
Proof.
  induction d as [|[k' v'] d IH]; csimpl.
  - split; [intros _; apply not_elem_of_nil | done].
  - rewrite not_elem_of_cons. destruct (decide (k' = k)) as [->|Hne].
    + split; [done | intros [? _]; done].
    + rewrite IH. split; [intros ?; split; [congruence | done] | intros [_ ?]; done].
Qed.

Lemma get_Some_elem d k v : PyDict.get d k = Some v → (k, v) ∈ d.
Proof.
  induction d as [|[k' v'] d IH]; csimpl; [done|].
  destruct (decide (k' = k)) as [->|Hne].
  - intros [= ->]. apply elem_of_cons; auto.
  - intros Hg. apply elem_of_cons; auto.
Qed.

Lemma elem_get d k v : PyDict.wf d → (k, v) ∈ d → PyDict.get d k = Some v.
Proof.
  unfold PyDict.wf. induction d as [|[k' v'] d IH]; csimpl.
  - intros _ Hin. by apply elem_of_nil in Hin.
  - rewrite NoDup_cons. intros [Hk Hnd] Hin.
    apply elem_of_cons in Hin as [[= -> ->]|Hin].
    + by rewrite decide_True.
    + destruct (decide (k' = k)) as [->|Hne]; [|by apply IH].
      exfalso. apply Hk. apply list_elem_of_fmap. by exists (k, v).
Qed.

Lemma get_set_eq d k v : PyDict.get (PyDict.set d k v) k = Some v.
Proof.
  induction d as [|[k' v'] d IH]; csimpl.
  - by rewrite decide_True.
  - destruct (decide (k' = k)) as [->|Hne]; csimpl.
    + by rewrite decide_True.
    + by rewrite decide_False.
Qed.

Lemma get_set_ne d k k' v :
  k ≠ k' → PyDict.get (PyDict.set d k v) k' = PyDict.get d k'.
Proof.
  intros Hne. induction d as [|[k0 v0] d IH]; csimpl.
  - by rewrite decide_False.
  - destruct (decide (k0 = k)) as [->|Hne0]; csimpl.
    + by rewrite !decide_False.
    + by rewrite IH.
Qed.



Lemma pop_subseteq d k : PyDict.pop d k ⊆ d.
Proof.
  induction d as [|[k0 v0] d IH]; csimpl; [done|].
  destruct (decide (k0 = k)).
  - intros x Hx. apply elem_of_cons; auto.
  - intros x Hx. apply elem_of_cons in Hx as [->|Hx].
    + apply elem_of_cons; auto.
    + apply elem_of_cons. right. by apply IH.
Qed.

Lemma keys_pop_sublist d k : (PyDict.pop d k).*1 `sublist_of` d.*1.
Proof.
  induction d as [|[k0 v0] d IH]; csimpl; [done|].
  destruct (decide (k0 = k)); csimpl.
  - by apply sublist_cons.
  - by apply sublist_skip.
Qed.

Lemma wf_pop d k : PyDict.wf d → PyDict.wf (PyDict.pop d k).
Proof.
  unfold PyDict.wf. intros Hnd.
  exact (sublist_NoDup _ _ Hnd (keys_pop_sublist d k)).
Qed.

Lemma pop_absent d k : k ∉ d.*1 → PyDict.pop d k = d.
Proof.
  induction d as [|[k0 v0] d IH]; csimpl; [done|].
  rewrite not_elem_of_cons. intros [Hne Hnin].
  rewrite decide_False; [|done]. by rewrite IH.
Qed.

Lemma get_pop_eq d k : PyDict.wf d → PyDict.get (PyDict.pop d k) k = None.
Proof.
  unfold PyDict.wf. induction d as [|[k0 v0] d IH]; csimpl; [done|].
  rewrite NoDup_cons. intros [Hk Hnd].
  destruct (decide (k0 = k)) as [->|Hne]; csimpl.
  - by apply get_None.
  - rewrite decide_False; [|done]. by apply IH.
Qed.

Lemma get_pop_ne d k k' :
  k ≠ k' → PyDict.get (PyDict.pop d k) k' = PyDict.get d k'.
Proof.
  intros Hne. induction d as [|[k0 v0] d IH]; csimpl; [done|].
  destruct (decide (k0 = k)) as [->|Hne0]; csimpl.
  - by rewrite decide_False.
  - by rewrite IH.
Qed.

Lemma foldl_pop_cons d k v (ks : list K) :
  k ∉ ks → foldl PyDict.pop ((k, v) :: d) ks = (k, v) :: foldl PyDict.pop d ks.
Proof.
  revert d. induction ks as [|k0 ks IH]; intros d Hnin; csimpl; [done|].
  apply not_elem_of_cons in Hnin as [Hne Hnin].
  rewrite decide_False; [|done]. by apply IH.
Qed.
End dict_facts.

(** ** Settings store *)

Ltac unfold_prog :=
  unfold exec, eval, mbind, prog_bind, mret, prog_ret, gets, modify, lift,
    raise, call, post, try_catch, try_finally in *.

Lemma bind_run {A B} (p : prog A) (f : A → prog B) s :
  (p ≫= f) s = match p s with
               | (Ok a, s') => f a s'
               | (Raise e, s') => (Raise e, s')
               end.
Proof. reflexivity. Qed.






(** ** Invariants of coroutines *)

Section preserves.
Context (I : Cog → Prop).

Lemma preserves_ret {A} (a : A) : preserves I (mret a).
Proof. intros s Hs. exact Hs. Qed.

Lemma preserves_raise {A} e : preserves I (raise (A:=A) e).
Proof. intros s Hs. exact Hs. Qed.

Lemma preserves_lift {A} (r : result A) : preserves I (lift r).
Proof. intros s Hs. exact Hs. Qed.

Lemma preserves_gets {A} (f : Cog → A) : preserves I (gets f).
Proof. intros s Hs. exact Hs. Qed.

Lemma preserves_bind {A B} (p : prog A) (f : A → prog B) :
  preserves I p → (∀ a, preserves I (f a)) → preserves I (p ≫= f).
Proof.
  intros Hp Hf s Hs. unfold mbind, prog_bind.
  specialize (Hp s Hs). destruct (p s) as [[a|e] s']; simpl in *.
  - by apply Hf.
  - done.
Qed.

Lemma preserves_try_catch {A} (p h : prog A) catches :
  preserves I p → preserves I h → preserves I (try_catch p catches h).
Proof.
  intros Hp Hh s Hs. unfold try_catch.
  specialize (Hp s Hs). destruct (p s) as [[a|e] s']; simpl in *; [done|].
  destruct (catches e); simpl; [by apply Hh | done].
Qed.

Lemma preserves_try_finally {A} (p : prog A) f :
  preserves I p → preserves I f → preserves I (try_finally p f).
Proof.
  intros Hp Hf s Hs. unfold try_finally.
  specialize (Hp s Hs). destruct (p s) as [r s']; simpl in *.
  specialize (Hf s' Hp). by destruct (f s') as [[[]|e] s''].
Qed.

Lemma preserves_try_step body finally :
  preserves I body → preserves I finally → preserves I (try_step body finally).
Proof.
  intros Hb Hf s Hs. unfold try_step.
  specialize (Hb s Hs). destruct (body s) as [[[ph|]|e] s']; simpl in *.
  - done.
  - specialize (Hf s' Hb). by destruct (finally s') as [[[]|e] s''].
  - specialize (Hf s' Hb). by destruct (finally s') as [[[]|e'] s''].
Qed.

Lemma preserves_modify f : (∀ s, I s → I (f s)) → preserves I (modify f).
Proof. intros Hf s Hs. by apply Hf. Qed.
End preserves.

Section config_inv.
Context (P : GuildConfig → Prop).

Lemma preserves_call {A} c (r : result A) : preserves (config_inv P) (call c r).
Proof. intros s Hs. exact Hs. Qed.

Lemma preserves_post c : preserves (config_inv P) (post c).
Proof. intros s Hs. exact Hs. Qed.

Lemma preserves_with_tasks f : preserves (config_inv P) (modify (with_tasks f)).
Proof. intros s Hs. exact Hs. Qed.

Lemma preserves_with_delete_tasks f :
  preserves (config_inv P) (modify (with_delete_tasks f)).
Proof. intros s Hs. exact Hs. Qed.

Lemma preserves_create_task cid : preserves (config_inv P) (create_task cid).
Proof. intros s Hs. exact Hs. Qed.

Lemma preserves_with_config f :
  (∀ c, P c → P (f c)) → preserves (config_inv P) (modify (with_config f)).
Proof. intros Hf s Hs. by apply Hf. Qed.
End config_inv.

(** Reduces [preserves (config_inv P) p], for a handler [p] of the cog, to
    the writes of the settings that [p] contains. *)
Ltac preserves_config_with atomic :=
  repeat first
    [ atomic
    | apply preserves_ret | apply preserves_raise | apply preserves_lift
    | apply preserves_gets | apply preserves_call | apply preserves_post
    | apply preserves_with_tasks | apply preserves_with_delete_tasks
    | apply preserves_create_task
    | apply preserves_bind; [|intros ?]
    | apply preserves_try_catch | apply preserves_try_finally
    | apply preserves_try_step
    | apply preserves_with_config
    | match goal with
      | |- preserves _ (match ?x with _ => _ end) => destruct x
      end
    | progress unfold handle, on_voice_state_update, _handle_creation_join,
        vch_owner_transfer, _get_owned_temp_channel_for_ctx, resume_task,
        _delete_temp_channel_after_delay_start,
        _delete_temp_channel_after_delay_wake,
        _delete_temp_channel_after_delay_deleted,
        _delete_temp_channel_after_delay_untracked,
        _delete_temp_channel_after_delay_purged,
        _delete_temp_channel_after_delay_finally,
        _delete_temp_channel_after_delay_cancelled,
        _schedule_delete_temp_channel, _cancel_delete_task, task_cancel,
        move_to, send, get_next_counter, get_next_counter_read,
        get_next_counter_write, get_name_template, get_delete_delay,
        get_temp_category, get_temp_channels, get_creation_channel_id,
        _get_owner_channel_id, _add_temp_channel, _remove_temp_channel,
        _set_owner_channel, _clear_owner_by_channel ].

Ltac preserves_config := preserves_config_with fail.

(** The same for any property of the state. *)
Lemma preserves_call_logged (I : Cog → Prop) {A} c (r : result A) :
  (∀ s, I s → I (logged [c] s)) → preserves I (call c r).
Proof. intros H s Hs. by apply H. Qed.

Lemma preserves_create_task_gen (I : Cog → Prop) cid :
  (∀ s, I s → I (exec (create_task cid) s)) → preserves I (create_task cid).
Proof. intros H s Hs. by apply H. Qed.

(** Reduces [preserves I p], for a handler [p], to its writes: [modify],
    [call] and [create_task]; [atomic] is tried first on every subgoal. *)
Ltac preserves_struct atomic :=
  repeat first
    [ atomic
    | apply preserves_ret | apply preserves_raise | apply preserves_lift
    | apply preserves_gets
    | apply preserves_bind; [|intros ?]
    | apply preserves_try_catch | apply preserves_try_finally
    | apply preserves_try_step
    | match goal with
      | |- preserves _ (match ?x with _ => _ end) => destruct x
      end
    | progress unfold handle, on_voice_state_update, _handle_creation_join,
        vch_owner_transfer, _get_owned_temp_channel_for_ctx, resume_task,
        _delete_temp_channel_after_delay_start,
        _delete_temp_channel_after_delay_wake,
        _delete_temp_channel_after_delay_deleted,
        _delete_temp_channel_after_delay_untracked,
        _delete_temp_channel_after_delay_purged,
        _delete_temp_channel_after_delay_finally,
        _delete_temp_channel_after_delay_cancelled,
        _cancel_delete_task, task_cancel,
        move_to, send, get_next_counter, get_next_counter_read,
        get_next_counter_write, get_name_template, get_delete_delay,
        get_temp_category, get_temp_channels, get_creation_channel_id,
        _get_owner_channel_id, _add_temp_channel, _remove_temp_channel,
        _set_owner_channel, _clear_owner_by_channel ].



(** ** The list of tracked channels *)

Lemma list_remove_sublist x (l : list Z) : list_remove x l `sublist_of` l.
Proof.
  induction l as [|y l IH]; simpl; [done|].
  destruct (decide (y = x)); [by apply sublist_cons | by apply sublist_skip].
Qed.

Lemma list_remove_NoDup x (l : list Z) : NoDup l → NoDup (list_remove x l).
Proof. intros Hnd. exact (sublist_NoDup _ _ Hnd (list_remove_sublist x l)). Qed.

Lemma list_remove_not_elem x (l : list Z) : NoDup l → x ∉ list_remove x l.
Proof.
  induction l as [|y l IH]; simpl; [intros _; apply not_elem_of_nil|].
  rewrite NoDup_cons. intros [Hy Hnd].
  destruct (decide (y = x)) as [->|Hne]; [done|].
  rewrite not_elem_of_cons. split; [congruence | by apply IH].
Qed.

Lemma add_temp_channel_NoDup cid c :
  NoDup (temp_channels c) →
  NoDup (if bool_decide (cid ∉ temp_channels c) then temp_channels c ++ [cid]
         else temp_channels c).
Proof.
  intros Hnd. case_bool_decide as Hin; [|done].
  apply NoDup_app. split_and!; [done | | apply NoDup_singleton].
  intros x Hx Hx'. apply list_elem_of_singleton in Hx'. by subst.
Qed.

Lemma remove_temp_channel_NoDup cid c :
  NoDup (temp_channels c) →
  NoDup (if bool_decide (cid ∈ temp_channels c)
         then list_remove cid (temp_channels c) else temp_channels c).
Proof. intros Hnd. case_bool_decide; [by apply list_remove_NoDup | done]. Qed.

Lemma handle_temp_channels_NoDup py e :
  preserves (config_inv (λ c, NoDup (temp_channels c))) (handle py e).
Proof.
  preserves_config; intros ? Hnd; simpl;
    first [ exact Hnd | by apply add_temp_channel_NoDup
          | by apply remove_temp_channel_NoDup ].
Qed.

Lemma run_preserves py (I : Cog → Prop) :
  (∀ e, preserves I (handle py e)) → ∀ es s, I s → I (run py es s).
Proof.
  intros Hstep es. unfold run.
  induction es as [|e es IH]; intros s Hs; simpl; [done|].
  apply IH. by apply Hstep.
Qed.

Lemma elem_of_list_remove x y (l : list Z) :
  NoDup l → x ∈ list_remove y l ↔ x ≠ y ∧ x ∈ l.
Proof.
  induction l as [|z l IH]; simpl.
  - intros _. split; [intros H; by apply elem_of_nil in H | intros [_ H]; done].
  - rewrite NoDup_cons. intros [Hz Hnd].
    destruct (decide (z = y)) as [->|Hne].
    + rewrite elem_of_cons. split.
      * intros Hx. split; [intros ->; done | by right].
      * intros [Hxy [?|?]]; done.
    + rewrite !elem_of_cons, IH by done. split.
      * intros [->|[? ?]]; [split; [done | by left] | split; [done | by right]].
      * intros [Hxy [->|?]]; [by left | by right].
Qed.

(** C10. [_add_temp_channel] appends a channel id only when it is absent and
    [_remove_temp_channel] removes one only when it is present; on a list
    without duplicates they are insertion into and removal from a set, and
    every handler of the cog keeps the list free of duplicates. *)
Theorem temp_channels_no_duplicates (py : PyBuiltins) (s : Cog) (cid : Z)
    (es : list event) :
  NoDup (temp_channels (config s)) →
  let l := temp_channels (config s) in
  let added := temp_channels (config (exec (_add_temp_channel cid) s)) in
  let removed := temp_channels (config (exec (_remove_temp_channel cid) s)) in
  added = (if decide (cid ∈ l) then l else l ++ [cid]) ∧
  removed = (if decide (cid ∈ l) then list_remove cid l else l) ∧
  NoDup added ∧ NoDup removed ∧
  (∀ x, x ∈ added ↔ x = cid ∨ x ∈ l) ∧
  (∀ x, x ∈ removed ↔ x ≠ cid ∧ x ∈ l) ∧
  NoDup (temp_channels (config (run py es s))).
Proof.
  intros Hnd l added removed.
  assert (Ha : added = if decide (cid ∈ l) then l else l ++ [cid]).
  { unfold added, exec, _add_temp_channel. simpl. fold l.
    case_bool_decide; destruct (decide (cid ∈ l)); done. }
  assert (Hr : removed = if decide (cid ∈ l) then list_remove cid l else l).
  { unfold removed, exec, _remove_temp_channel. simpl. fold l.
    case_bool_decide; destruct (decide (cid ∈ l)); done. }
  split_and!; [done | done | | | | |].
  - rewrite Ha. destruct (decide (cid ∈ l)); [done|].
    apply NoDup_app. split_and!; [done | | apply NoDup_singleton].
    intros x Hx Hx'. apply list_elem_of_singleton in Hx'. by subst.
  - rewrite Hr. destruct (decide (cid ∈ l)); [by apply list_remove_NoDup | done].
  - intros x. rewrite Ha. destruct (decide (cid ∈ l)) as [Hin|Hnin].
    + split; [by right | intros [->|?]; done].
    + rewrite elem_of_app, list_elem_of_singleton. tauto.
  - intros x. rewrite Hr. destruct (decide (cid ∈ l)) as [Hin|Hnin].
    + by apply elem_of_list_remove.
    + split; [intros Hx; split; [intros ->; done | done] | intros [_ ?]; done].
  - apply (run_preserves py (config_inv (λ c, NoDup (temp_channels c))));
      [apply handle_temp_channels_NoDup | exact Hnd].
Qed.

Lemma temp_channels_no_duplicates_witness :
  NoDup (temp_channels (config cog9)) ∧
  NoDup (temp_channels (config (run plain_builtins
    [VoiceStateUpdate (Some (guild9 true true)) carl None (Some lobby)
       (Ok 101) (Ok tt);
     ResumeTask 0 (temp_info []) (Ok tt)] cog9))).
Proof.
  assert (H : NoDup (temp_channels (config cog9))) by apply NoDup_singleton.
  split; [exact H|].
  destruct (temp_channels_no_duplicates plain_builtins cog9 101
    [VoiceStateUpdate (Some (guild9 true true)) carl None (Some lobby)
       (Ok 101) (Ok tt);
     ResumeTask 0 (temp_info []) (Ok tt)] H) as (_ & _ & _ & _ & _ & _ & Hrun).
  exact Hrun.
Defined.

(** ** The owner map *)

Lemma wf_foldl_pop {V} (d : list (string * V)) ks :
  PyDict.wf d → PyDict.wf (foldl PyDict.pop d ks).
Proof.
  revert d. induction ks as [|k ks IH]; intros d Hwf; simpl; [done|].
  apply IH. by apply wf_pop.
Qed.

Lemma owners_of_keys (d : list (string * Z)) c k :
  k ∈ owners_of d c → k ∈ d.*1.
Proof.
  unfold owners_of. intros Hk. apply list_elem_of_fmap in Hk as ([k' v] & -> & Hin).
  apply list_elem_of_filter in Hin as [_ Hin].
  apply list_elem_of_fmap. by exists (k', v).
Qed.

(** On a dictionary, popping the collected keys one by one removes exactly
    the entries whose value is the channel. *)
Lemma clear_owner_filter (d : list (string * Z)) c :
  PyDict.wf d →
  foldl PyDict.pop d (owners_of d c) = filter (λ e, e.2 ≠ c) d.
Proof.
  unfold PyDict.wf. induction d as [|[k v] d IH]; csimpl; [done|].
  rewrite NoDup_cons. intros [Hk Hnd]. unfold owners_of in *.
  rewrite !filter_cons. csimpl. destruct (decide (v = c)) as [->|Hne].
  - rewrite decide_False by (intros ?; done). csimpl.
    rewrite decide_True by done. by apply IH.
  - rewrite decide_True by done.
    rewrite foldl_pop_cons; [by rewrite IH|].
    intros Hin. apply Hk. by apply (owners_of_keys d c).
Qed.






Lemma get_filter_ne (d : list (string * Z)) c k :
  PyDict.get (filter (λ e, e.2 ≠ c) d) k ≠ Some c.
Proof.
  intros Hget. apply get_Some_elem in Hget.
  apply list_elem_of_filter in Hget as [Hne _]. done.
Qed.

Lemma get_filter_other (d : list (string * Z)) c k v :
  v ≠ c → PyDict.get d k = Some v →
  PyDict.get (filter (λ e, e.2 ≠ c) d) k = Some v.
Proof.
  intros Hv. induction d as [|[k0 v0] d IH]; csimpl; [done|].
  rewrite filter_cons. csimpl.
  destruct (decide (k0 = k)) as [->|Hne].
  - intros [= ->]. rewrite decide_True by done. csimpl. by rewrite decide_True.
  - intros Hget. destruct (decide (v0 ≠ c)); csimpl; [|by apply IH].
    rewrite decide_False by done. by apply IH.
Qed.

Lemma clear_owner_run s cid :
  PyDict.wf (owner_channels (config s)) →
  owner_channels (config (exec (_clear_owner_by_channel cid) s))
  = filter (λ e, e.2 ≠ cid) (owner_channels (config s)).
Proof. intros Hwf. unfold exec, _clear_owner_by_channel. simpl. by apply clear_owner_filter. Qed.


(** ** The renderer *)

Lemma scan_literal_shorter s lit c rest :
  scan_literal s = (lit, Some (c, rest)) → (String.length rest < String.length s)%nat.
Proof.
  revert lit. induction s as [|a s IH]; intros lit; simpl; [done|].
  destruct (is_brace a).
  - intros [= _ _ ->]. lia.
  - destruct (scan_literal s) as [lit' r] eqn:Hs. intros [= _ ->].
    specialize (IH _ eq_refl). lia.
Qed.

Lemma parse_field_name_shorter s b n d rest :
  parse_field_name s b = Ok (n, d, rest) → (String.length rest < String.length s)%nat.
Proof.
  revert b n d. induction s as [|a s IH]; intros b n d; simpl; [done|].
  assert (Hkeep : ∀ b', result_map (λ '(n, d, rest), (String a n, d, rest))
                     (parse_field_name s b') = Ok (n, d, rest) →
                   (String.length rest < S (String.length s))%nat).
  { intros b'. destruct (parse_field_name s b') as [[[n' d'] rest']|e] eqn:Hp;
      simpl; [|done]. intros [= _ _ ->]. specialize (IH _ _ _ Hp). lia. }
  destruct b; [apply Hkeep|].
  destruct (a =? "{")%char; [done|].
  destruct (a =? "[")%char; [apply Hkeep|].
  destruct ((a =? "}")%char || (a =? ":")%char || (a =? "!")%char); [|apply Hkeep].
  intros [= _ _ ->]. lia.
Qed.

Lemma parse_format_spec_shorter s o sp e rest :
  parse_format_spec s o = Ok (sp, e, rest) → (String.length rest < String.length s)%nat.
Proof.
  revert o sp e. induction s as [|a s IH]; intros o sp e; simpl; [done|].
  destruct (a =? "{")%char.
  { destruct (parse_format_spec s (S o)) as [[[sp' e'] rest']|x] eqn:Hp;
      simpl; [|done]. intros [= _ _ ->]. specialize (IH _ _ _ Hp). lia. }
  destruct (a =? "}")%char.
  { destruct o as [|o].
    - intros [= _ _ ->]. lia.
    - destruct (parse_format_spec s o) as [[[sp' e'] rest']|x] eqn:Hp;
        simpl; [|done]. intros [= _ _ ->]. specialize (IH _ _ _ Hp). lia. }
  destruct (parse_format_spec s o) as [[[sp' e'] rest']|x] eqn:Hp;
    simpl; [|done]. intros [= _ _ ->]. specialize (IH _ _ _ Hp). lia.
Qed.

Lemma parse_field_shorter s f rest :
  parse_field s = Ok (f, rest) → (String.length rest < String.length s)%nat.
Proof.
  unfold parse_field.
  destruct (parse_field_name s false) as [[[n d] r]|e] eqn:Hn; simpl; [|done].
  apply parse_field_name_shorter in Hn.
  assert (Hspec : ∀ conv r', (String.length r' ≤ String.length r)%nat →
            result_map (λ '(sp, e, rest'), (Build_Field n conv sp e, rest'))
              (parse_format_spec r' 0) = Ok (f, rest) →
            (String.length rest < String.length s)%nat).
  { intros conv r' Hr'.
    destruct (parse_format_spec r' 0) as [[[sp e] rest']|x] eqn:Hp; simpl; [|done].
    intros [= _ ->]. apply parse_format_spec_shorter in Hp. lia. }
  destruct (d =? "!")%char.
  { destruct r as [|conv [|c2 r2]]; [done | |].
    - simpl. done.
    - destruct (c2 =? "}")%char.
      + intros [= _ ->]. simpl in Hn. lia.
      + destruct (c2 =? ":")%char; simpl; [|done]. apply Hspec. simpl. lia. }
  destruct (d =? ":")%char.
  { apply Hspec. lia. }
  intros [= _ ->]. lia.
Qed.

Lemma MarkupIterator_next_shorter s lit f rest :
  s ≠ EmptyString → MarkupIterator_next s = Ok (lit, f, rest) →
  (String.length rest < String.length s)%nat.
Proof.
  intros Hs. unfold MarkupIterator_next.
  destruct (scan_literal s) as [lit' [[c r]|]] eqn:Hscan.
  - apply scan_literal_shorter in Hscan.
    destruct r as [|c' r']; [done|].
    destruct (c =? c')%char.
    { intros [= _ _ ->]. simpl in Hscan. lia. }
    destruct (c =? "}")%char; [done|].
    destruct (parse_field (String c' r')) as [[f' r'']|e] eqn:Hp; simpl; [|done].
    intros [= _ _ ->]. apply parse_field_shorter in Hp. lia.
  - intros [= _ _ <-]. destruct s; [done | simpl; lia].
Qed.

(** Any fuel of at least the length of the input gives the same result: the
    loop of [do_markup] ends by exhausting its input, not its fuel. *)
Lemma do_markup_fuel py expand kwargs fuel1 : ∀ fuel2 s,
  (String.length s ≤ fuel1)%nat → (String.length s ≤ fuel2)%nat →
  do_markup py expand kwargs fuel1 s = do_markup py expand kwargs fuel2 s.
Proof.
  induction fuel1 as [|fuel1 IH]; intros fuel2 s H1 H2.
  - destruct s; [by destruct fuel2 | simpl in H1; lia].
  - destruct s as [|a s]; [by destruct fuel2|].
    destruct fuel2 as [|fuel2]; [simpl in H2; lia|].
    cbn [do_markup].
    destruct (MarkupIterator_next (String a s)) as [[[lit f] rest]|e] eqn:Hnext;
      simpl; [|done].
    apply MarkupIterator_next_shorter in Hnext; [|done].
    rewrite (IH fuel2 rest); [done | simpl in *; lia | simpl in *; lia].
Qed.

Lemma plain_char a :
  negb (is_brace a || (a =? "[")%char || (a =? "]")%char || (a =? ".")%char
        || (a =? ":")%char || (a =? "!")%char) = true →
  (a =? "{")%char = false ∧ (a =? "}")%char = false ∧ (a =? "[")%char = false ∧
  (a =? ".")%char = false ∧ (a =? ":")%char = false ∧ (a =? "!")%char = false.
Proof.
  unfold is_brace. rewrite negb_true_iff, !orb_false_iff. tauto.
Qed.

Lemma scan_literal_app pre c rest :
  no_brace pre = true → is_brace c = true →
  scan_literal (pre +:+ String c rest) = (pre, Some (c, rest)).
Proof.
  intros Hpre Hc. induction pre as [|a pre IH]; simpl in *.
  - by rewrite Hc.
  - apply andb_true_iff in Hpre as [Ha Hpre]. apply negb_true_iff in Ha.
    rewrite Ha, IH by done. done.
Qed.

Lemma parse_field_name_plain name post :
  plain_name name = true →
  parse_field_name (name +:+ String "}" post) false = Ok (name, "}"%char, post).
Proof.
  induction name as [|a name IH]; simpl; [done|].
  intros Hname. apply andb_true_iff in Hname as [Ha Hname].
  apply plain_char in Ha as (-> & -> & -> & _ & -> & ->). simpl.
  by rewrite IH.
Qed.

Lemma parse_field_name_unclosed name :
  plain_name name = true → parse_field_name name false = Raise ValueError.
Proof.
  induction name as [|a name IH]; simpl; [done|].
  intros Hname. apply andb_true_iff in Hname as [Ha Hname].
  apply plain_char in Ha as (-> & -> & -> & _ & -> & ->). simpl.
  by rewrite IH.
Qed.

Lemma field_name_split_plain name :
  plain_name name = true → field_name_split name = (name, EmptyString).
Proof.
  induction name as [|a name IH]; simpl; [done|].
  intros Hname. apply andb_true_iff in Hname as [Ha Hname].
  apply plain_char in Ha as (_ & _ & -> & -> & _ & _). simpl.
  by rewrite IH.
Qed.

Lemma get_field_object_unknown py member counter name :
  plain_name name = true → name ∉ placeholders →
  ∃ e, get_field_object py (render_kwargs py member counter) name = Raise e.
Proof.
  intros Hname Hnin. unfold get_field_object.
  rewrite field_name_split_plain by done.
  assert (Hget : PyDict.get (render_kwargs py member counter) name = None).
  { apply get_None. exact Hnin. }
  rewrite Hget.
  destruct (get_integer name) as [idx|e]; cbn [result_bind]; [|by eexists].
  destruct (bool_decide (name = EmptyString) || bool_decide (is_Some idx));
    cbn [result_bind]; by eexists.
Qed.

Lemma do_markup_step py expand kwargs s :
  s ≠ EmptyString →
  do_markup py expand kwargs (String.length s) s =
  result_bind (MarkupIterator_next s) (λ '(literal, field, rest),
  result_bind
    (match field with
     | Some f => output_markup py expand kwargs f
     | None => Ok EmptyString
     end) (λ out,
  result_map (λ tail, literal +:+ out +:+ tail)
    (do_markup py expand kwargs (String.length rest) rest))).
Proof.
  intros Hs. destruct s as [|a s]; [done|]. cbn [String.length do_markup].
  destruct (MarkupIterator_next (String a s)) as [[[lit f] rest]|e] eqn:Hnext;
    simpl; [|done].
  apply MarkupIterator_next_shorter in Hnext; [|done].
  rewrite (do_markup_fuel py expand kwargs _ (String.length rest) rest);
    [done | simpl in *; lia | lia].
Qed.

Lemma append_nonempty pre c rest : pre +:+ String c rest ≠ EmptyString.
Proof. by destruct pre. Qed.

Lemma render_of_format py template member counter :
  _render_channel_name py template member counter =
  Ok (match str_format py template (render_kwargs py member counter) with
      | Ok name => name
      | Raise _ => fallback_name member
      end).
Proof.
  unfold _render_channel_name, try_except. fold (render_kwargs py member counter).
  by destruct (str_format _ _ _).
Qed.

Lemma render_raise py template member counter e :
  MarkupIterator_next template = Raise e → template ≠ EmptyString →
  _render_channel_name py template member counter = Ok (fallback_name member).
Proof.
  intros Hnext Hne. rewrite render_of_format.
  unfold str_format, build_string. rewrite do_markup_step by done.
  by rewrite Hnext.
Qed.

Lemma MarkupIterator_next_field pre name post :
  no_brace pre = true → plain_name name = true →
  MarkupIterator_next (pre +:+ String "{" (name +:+ String "}" post))
  = Ok (pre, Some (Build_Field name NUL EmptyString false), post).
Proof.
  intros Hpre Hname.
  assert (Hfield : parse_field (name +:+ String "}" post)
                   = Ok (Build_Field name NUL EmptyString false, post)).
  { unfold parse_field. by rewrite parse_field_name_plain. }
  unfold MarkupIterator_next. rewrite scan_literal_app by done.
  destruct name as [|a name].
  - change (EmptyString +:+ String "}" post) with (String "}" post) in *.
    cbv beta iota. change ("{" =? "}")%char with false. cbv beta iota.
    by rewrite Hfield.
  - change (String a name +:+ String "}" post)
      with (String a (name +:+ String "}" post)) in *.
    simpl in Hname. apply andb_true_iff in Hname as [Ha _].
    apply plain_char in Ha as (Hb & _).
    rewrite Ascii.eqb_sym in Hb. cbv beta iota. rewrite Hb.
    change ("{" =? "}")%char with false. cbv beta iota.
    by rewrite Hfield.
Qed.

(** A template with a placeholder that is none of the four, after text
    without braces, renders as the fallback name. *)
Lemma render_unknown_placeholder py member counter pre name post :
  no_brace pre = true → plain_name name = true → name ∉ placeholders →
  _render_channel_name py (pre +:+ String "{" (name +:+ String "}" post))
    member counter = Ok (fallback_name member).
Proof.
  intros Hpre Hname Hnin. rewrite render_of_format.
  unfold str_format, build_string.
  rewrite do_markup_step by apply append_nonempty.
  rewrite MarkupIterator_next_field by done.
  destruct (get_field_object_unknown py member counter name Hname Hnin) as [e He].
  cbn [result_bind]. unfold output_markup. cbn [field_name].
  by rewrite He.
Qed.

(** Malformed templates: a lone opening brace at the end, a lone closing
    brace, a field that is never closed. *)
Lemma render_lone_open py member counter pre :
  no_brace pre = true →
  _render_channel_name py (pre +:+ "{") member counter
  = Ok (fallback_name member).
Proof.
  intros Hpre. apply (render_raise _ _ _ _ ValueError); [|apply append_nonempty].
  unfold MarkupIterator_next. by rewrite scan_literal_app.
Qed.

Lemma render_lone_close py member counter pre c rest :
  no_brace pre = true → (c =? "}")%char = false →
  _render_channel_name py (pre +:+ String "}" (String c rest)) member counter
  = Ok (fallback_name member) ∧
  _render_channel_name py (pre +:+ "}") member counter
  = Ok (fallback_name member).
Proof.
  intros Hpre Hc. split.
  - apply (render_raise _ _ _ _ ValueError); [|apply append_nonempty].
    unfold MarkupIterator_next. rewrite scan_literal_app by done.
    rewrite Ascii.eqb_sym, Hc. done.
  - apply (render_raise _ _ _ _ ValueError); [|apply append_nonempty].
    unfold MarkupIterator_next. by rewrite scan_literal_app.
Qed.

Lemma render_unclosed_field py member counter pre name :
  no_brace pre = true → plain_name name = true →
  _render_channel_name py (pre +:+ String "{" name) member counter
  = Ok (fallback_name member).
Proof.
  intros Hpre Hname.
  apply (render_raise _ _ _ _ ValueError); [|apply append_nonempty].
  unfold MarkupIterator_next. rewrite scan_literal_app by done.
  destruct name as [|a name]; [done|].
  pose proof Hname as Hname'. simpl in Hname'.
  apply andb_true_iff in Hname' as [Ha _].
  apply plain_char in Ha as (Hb & _).
  rewrite Ascii.eqb_sym in Hb. rewrite Hb. simpl ("{" =? "}")%char.
  unfold parse_field. by rewrite parse_field_name_unclosed.
Qed.

(** C8. [_render_channel_name] never raises: it returns the formatted
    template when [str.format] succeeds and the member's display name followed
    by ['s channel] when it raises; an unknown placeholder and malformed
    syntax make it raise, hence give the fallback. *)
Theorem render_channel_name_never_raises (py : PyBuiltins) (template : string)
    (member : Member) (counter : Z) :
  (∃ name, _render_channel_name py template member counter = Ok name) ∧
  _render_channel_name py template member counter =
    Ok (match str_format py template (render_kwargs py member counter) with
        | Ok name => name
        | Raise _ => display_name member +:+ "'s channel"
        end) ∧
  (∀ pre name post,
     no_brace pre = true → plain_name name = true → name ∉ placeholders →
     _render_channel_name py (pre +:+ String "{" (name +:+ String "}" post))
       member counter = Ok (display_name member +:+ "'s channel")) ∧
  (∀ pre name,
     no_brace pre = true → plain_name name = true →
     _render_channel_name py (pre +:+ String "{" name) member counter
     = Ok (display_name member +:+ "'s channel")) ∧
  (∀ pre c rest,
     no_brace pre = true → (c =? "}")%char = false →
     _render_channel_name py (pre +:+ String "}" (String c rest)) member counter
     = Ok (display_name member +:+ "'s channel") ∧
     _render_channel_name py (pre +:+ "}") member counter
     = Ok (display_name member +:+ "'s channel")).
Proof.
  split_and!.
  - rewrite render_of_format. by eexists.
  - apply render_of_format.
  - intros. by apply render_unknown_placeholder.
  - intros. by apply render_unclosed_field.
  - intros. by apply render_lone_close.
Qed.

Lemma render_channel_name_never_raises_witness :
  no_brace "Room of " = true ∧ plain_name "nick" = true ∧
  ("nick"%string ∉ placeholders) ∧
  _render_channel_name plain_builtins "Room of {nick}!" ann 3
  = Ok "Ann's channel"%string.
Proof.
  assert (Hnin : "nick"%string ∉ placeholders).
  { unfold placeholders. rewrite !not_elem_of_cons.
    split_and!; [done | done | done | done | apply not_elem_of_nil]. }
  split_and!; [reflexivity | reflexivity | exact Hnin |].
  destruct (render_channel_name_never_raises plain_builtins "" ann 3)
    as (_ & _ & Hunknown & _).
  exact (Hunknown "Room of "%string "nick"%string "!"%string
           eq_refl eq_refl Hnin).
Defined.

Example render_default (py : PyBuiltins) (member : Member) (counter : Z) :
  _render_channel_name py "{user}'s channel" member counter
  = Ok (display_name member +:+ "'s channel").
Proof. reflexivity. Qed.

Example render_all :
  _render_channel_name plain_builtins
    "Table #{counter} for {user} ({tag}) {{{id}}}" ann 3
  = Ok "Table #3 for Ann (ann#0001) {42}"%string.
Proof. vm_compute. reflexivity. Qed.

Example render_positional :
  _render_channel_name plain_builtins "{} and {0}" ann 3
  = Ok "Ann's channel"%string.
Proof. vm_compute. reflexivity. Qed.

(** ** Deletion timers *)

Lemma schedule_registered s channel :
  is_Some (_delete_tasks s !! channel_id channel) →
  _schedule_delete_temp_channel channel s = (Ok tt, s).
Proof.
  intros Hreg. unfold _schedule_delete_temp_channel. unfold_prog. simpl.
  by rewrite bool_decide_eq_true_2.
Qed.

Lemma schedule_occupied s channel :
  members (channel_info channel) ≠ [] →
  _schedule_delete_temp_channel channel s = (Ok tt, s).
Proof.
  intros Hocc. unfold _schedule_delete_temp_channel. unfold_prog. simpl.
  case_bool_decide; [done|].
  destruct (members (channel_info channel)); done.
Qed.

Lemma schedule_fresh s channel :
  _delete_tasks s !! channel_id channel = None →
  members (channel_info channel) = [] →
  _schedule_delete_temp_channel channel s =
  (Ok tt,
   {| config := config s;
      _delete_tasks := <[channel_id channel := length (tasks s)]> (_delete_tasks s);
      tasks := tasks s ++ [{| task_channel := channel_id channel;
                              task_phase_of := NotStarted;
                              must_cancel := false |}];
      calls := calls s |}).
Proof.
  intros Hreg Hemp. unfold _schedule_delete_temp_channel. unfold_prog. simpl.
  rewrite bool_decide_eq_false_2 by (rewrite Hreg; by intros [? ?]).
  rewrite Hemp. reflexivity.
Qed.

(** C6. [_schedule_delete_temp_channel] changes nothing (registry, settings,
    tasks, platform log) when a timer is already registered for the channel
    or the channel has occupants; scheduling twice in a row is the same as
    scheduling once. *)
Theorem schedule_delete_idempotent (s : Cog) (channel : Channel) :
  (is_Some (_delete_tasks s !! channel_id channel) ∨
   members (channel_info channel) ≠ [] →
   _schedule_delete_temp_channel channel s = (Ok tt, s)) ∧
  exec (_schedule_delete_temp_channel channel)
    (exec (_schedule_delete_temp_channel channel) s)
  = exec (_schedule_delete_temp_channel channel) s.
Proof.
  split.
  - intros [Hreg|Hocc]; [by apply schedule_registered | by apply schedule_occupied].
  - unfold exec at 2 3.
    destruct (_delete_tasks s !! channel_id channel) as [h|] eqn:Hreg.
    + rewrite schedule_registered by (rewrite Hreg; by eexists). simpl.
      unfold exec. by rewrite schedule_registered by (rewrite Hreg; by eexists).
    + destruct (members (channel_info channel)) as [|m ms] eqn:Hm.
      * rewrite schedule_fresh by done. simpl.
        unfold exec. rewrite schedule_registered; [done|].
        simpl. rewrite lookup_insert_eq. by eexists.
      * rewrite schedule_occupied by (by rewrite Hm). simpl.
        unfold exec. by rewrite schedule_occupied by (by rewrite Hm).
Qed.

Lemma schedule_delete_idempotent_witness :
  members (channel_info temp100) ≠ [] ∧
  _schedule_delete_temp_channel temp100 cog9 = (Ok tt, cog9).
Proof.
  assert (H : members (channel_info temp100) ≠ []) by (simpl; congruence).
  split; [exact H|].
  exact (proj1 (schedule_delete_idempotent cog9 temp100) (or_intror H)).
Defined.

(** Resuming a task again and again. *)
Lemma lookup_new_task (ts : list Task) t : (ts ++ [t]) !! length ts = Some t.
Proof. by rewrite list_lookup_middle. Qed.


Lemma resume_not_started h now r s t :
  tasks s !! h = Some t → task_phase_of t = NotStarted → must_cancel t = false →
  resume_task h now r s =
  (Ok tt,
   with_tasks (alter (set_phase (match channel_guild now with
                                 | Some _ => Sleeping
                                 | None => Done Returned
                                 end)) h) s).
Proof.
  intros Ht Hph Hmc. unfold resume_task. unfold_prog. simpl. rewrite Ht.
  rewrite Hph, Hmc. unfold _delete_temp_channel_after_delay_start.
  by destruct (channel_guild now).
Qed.



Lemma cancel_registered s cid h t :
  _delete_tasks s !! cid = Some h → tasks s !! h = Some t →
  _cancel_delete_task cid s =
  (Ok tt,
   {| config := config s;
      _delete_tasks := delete cid (_delete_tasks s);
      tasks := if done_ t then tasks s else alter request_cancel h (tasks s);
      calls := calls s |}).
Proof.
  intros Hreg Ht. unfold _cancel_delete_task. unfold_prog. simpl.
  rewrite Hreg. simpl. rewrite Ht. by destruct (done_ t).
Qed.

(** Looks up a task in a state given by its updates. *)
Ltac task_lookup Ht :=
  cbn [in_phase with_tasks with_config with_delete_tasks logged tasks];
  rewrite ?list_lookup_alter_eq, Ht; reflexivity.

(** The steps of a task that is not cancelled. *)
Lemma resume_sleeping h now r s t :
  tasks s !! h = Some t → task_phase_of t = Sleeping → must_cancel t = false →
  resume_task h now r s =
  (Ok tt,
   match channel_guild now, members now with
   | Some _, [] =>
       in_phase h Deleting (logged [DeleteChannel (task_channel t)] s)
   | _, _ =>
       in_phase h (Done Returned)
         (with_delete_tasks (delete (task_channel t)) s)
   end).
Proof.
  intros Ht Hph Hmc. unfold resume_task. rewrite bind_run. unfold gets.
  rewrite Ht, Hph, Hmc. rewrite bind_run.
  unfold try_step, _delete_temp_channel_after_delay_wake,
    _delete_temp_channel_after_delay_finally.
  destruct (channel_guild now) as [g|]; [|reflexivity].
  destruct (members now) as [|m ms]; reflexivity.
Qed.

Lemma resume_deleting h now r s t :
  tasks s !! h = Some t → task_phase_of t = Deleting → must_cancel t = false →
  resume_task h now r s =
  (Ok tt,
   if match r with Ok _ => true | Raise e => is_NotFound e end
   then in_phase h Untracking (with_config (untracked (task_channel t)) s)
   else in_phase h (Done (match r with
                          | Ok _ => Returned
                          | Raise e => Failed e
                          end))
          (with_delete_tasks (delete (task_channel t)) s)).
Proof.
  intros Ht Hph Hmc. unfold resume_task. rewrite bind_run. unfold gets.
  rewrite Ht, Hph, Hmc. rewrite bind_run.
  unfold try_step, _delete_temp_channel_after_delay_deleted,
    _delete_temp_channel_after_delay_finally, _remove_temp_channel.
  unfold_prog. destruct r as [[]|e]; [reflexivity|].
  by destruct (is_NotFound e).
Qed.

Lemma resume_untracking h now r s t :
  tasks s !! h = Some t → task_phase_of t = Untracking → must_cancel t = false →
  resume_task h now r s =
  (Ok tt, in_phase h Purging (with_config (purged (task_channel t)) s)).
Proof.
  intros Ht Hph Hmc. unfold resume_task. rewrite bind_run. unfold gets.
  by rewrite Ht, Hph, Hmc.
Qed.

Lemma resume_purging h now r s t :
  tasks s !! h = Some t → task_phase_of t = Purging → must_cancel t = false →
  resume_task h now r s =
  (Ok tt,
   in_phase h (Done Returned) (with_delete_tasks (delete (task_channel t)) s)).
Proof.
  intros Ht Hph Hmc. unfold resume_task. rewrite bind_run. unfold gets.
  by rewrite Ht, Hph, Hmc.
Qed.


Lemma resume_done h now r s t :
  tasks s !! h = Some t → done_ t = true → resume_task h now r s = (Ok tt, s).
Proof.
  intros Ht Hdone. unfold resume_task. rewrite bind_run. unfold gets.
  rewrite Ht. unfold done_ in Hdone.
  destruct (task_phase_of t); try done; by destruct (must_cancel t).
Qed.

Lemma in_phase_lookup h ph s t :
  tasks s !! h = Some t → tasks (in_phase h ph s) !! h = Some (set_phase ph t).
Proof. intros Ht. unfold in_phase. simpl. by rewrite list_lookup_alter_eq, Ht. Qed.


Lemma reclaimed_untracked_purged cid c :
  reclaimed cid c = purged cid (untracked cid c).
Proof. reflexivity. Qed.

(** A sleeping task that finds its channel empty runs to its end in four
    steps when nothing else runs in between. *)
Lemma resume_all_fire h s t now r1 now2 r2 now3 r3 now4 r4 :
  tasks s !! h = Some t → task_phase_of t = Sleeping → must_cancel t = false →
  is_Some (channel_guild now) → members now = [] →
  r2 = Ok tt ∨ r2 = Raise NotFound →
  resume_all h [(now, r1); (now2, r2); (now3, r3); (now4, r4)] s
  = {| config := reclaimed (task_channel t) (config s);
       _delete_tasks := delete (task_channel t) (_delete_tasks s);
       tasks := alter (set_phase (Done Returned)) h (tasks s);
       calls := calls s ++ [DeleteChannel (task_channel t)] |}.
Proof.
  intros Ht Hph Hmc [g Hg] Hm Hr. unfold resume_all. cbn [foldl fst snd].
  unfold exec at 4. rewrite (resume_sleeping _ _ _ _ _ Ht Hph Hmc), Hg, Hm.
  cbn [snd].
  unfold exec at 3.
  erewrite resume_deleting; [|task_lookup Ht|reflexivity|exact Hmc].
  assert (Hok : match r2 with Ok _ => true | Raise e => is_NotFound e end = true)
    by (by destruct Hr as [-> | ->]).
  rewrite Hok. cbn [snd].
  unfold exec at 2.
  erewrite resume_untracking; [|task_lookup Ht|reflexivity|exact Hmc].
  cbn [snd].
  unfold exec.
  erewrite resume_purging; [|task_lookup Ht|reflexivity|exact Hmc].
  cbn [snd]. unfold in_phase, with_tasks, with_config, with_delete_tasks, logged.
  cbn [config _delete_tasks tasks calls set_phase task_channel].
  f_equal. rewrite !list_alter_alter_eq. apply list_alter_ext; [|done].
  intros t0 _. reflexivity.
Qed.

(** A sleeping task whose delete request the platform refuses. *)
Lemma resume_all_refused h s t now r1 now2 e :
  tasks s !! h = Some t → task_phase_of t = Sleeping → must_cancel t = false →
  is_Some (channel_guild now) → members now = [] → is_NotFound e = false →
  resume_all h [(now, r1); (now2, Raise e)] s
  = in_phase h (Done (Failed e))
      (with_delete_tasks (delete (task_channel t))
         (in_phase h Deleting (logged [DeleteChannel (task_channel t)] s))).
Proof.
  intros Ht Hph Hmc [g Hg] Hm He. unfold resume_all.
  cbn [foldl fst snd]. unfold exec at 2.
  rewrite (resume_sleeping _ _ _ _ _ Ht Hph Hmc), Hg, Hm. cbn [snd].
  unfold exec.
  erewrite resume_deleting; [|task_lookup Ht|reflexivity|exact Hmc].
  by rewrite He.
Qed.

(** A sleeping task that finds occupants ends at once. *)
Lemma resume_all_occupied h s t now r rest :
  tasks s !! h = Some t → task_phase_of t = Sleeping → must_cancel t = false →
  channel_guild now = None ∨ members now ≠ [] →
  resume_all h ((now, r) :: rest) s
  = in_phase h (Done Returned)
      (with_delete_tasks (delete (task_channel t)) s).
Proof.
  intros Ht Hph Hmc Hocc. unfold resume_all. cbn [foldl fst snd].
  unfold exec at 2. rewrite (resume_sleeping _ _ _ _ _ Ht Hph Hmc).
  set (s1 := in_phase h (Done Returned)
               (with_delete_tasks (delete (task_channel t)) s)).
  assert (Hs1 : match channel_guild now, members now with
                | Some _, [] =>
                    in_phase h Deleting
                      (logged [DeleteChannel (task_channel t)] s)
                | _, _ => s1
                end = s1).
  { destruct (channel_guild now); [|done].
    destruct (members now); [|done]. by destruct Hocc. }
  cbn [snd]. rewrite Hs1.
  assert (Hdone : ∃ t1, tasks s1 !! h = Some t1 ∧ done_ t1 = true).
  { eexists. split; [by apply in_phase_lookup|done]. }
  clearbody s1. clear Hs1.
  induction rest as [|[now' r'] rest IH]; cbn [foldl fst snd]; [done|].
  destruct Hdone as (t1 & Ht1 & Hd1).
  unfold exec at 2. by rewrite (resume_done _ _ _ _ _ Ht1 Hd1).
Qed.

Lemma reclaimed_temp_channels cid c x :
  NoDup (temp_channels c) →
  x ∈ temp_channels (reclaimed cid c) ↔ x ≠ cid ∧ x ∈ temp_channels c.
Proof.
  intros Hnd. unfold reclaimed. simpl. case_bool_decide as Hin.
  - by apply elem_of_list_remove.
  - split; [intros Hx; split; [intros ->; done | done] | intros [_ ?]; done].
Qed.

Lemma reclaimed_owner_channels cid c :
  PyDict.wf (owner_channels c) →
  owner_channels (reclaimed cid c) = filter (λ e, e.2 ≠ cid) (owner_channels c).
Proof. intros Hwf. unfold reclaimed. simpl. by apply clear_owner_filter. Qed.

(** C4. When the delay of a deletion task has elapsed it looks at the
    channel again.  If the channel is still empty it asks the platform to
    delete it, a [NotFound] answer counting as success, untracks the channel
    and drops every owner entry that points to it; if someone is in the
    channel it sends nothing and leaves the settings alone.  Either way the
    task ends, its registry entry is removed and no new task is created.
    The task is suspended while the platform deletes the channel and while
    the settings are written: [s'] is the state once it has been resumed
    from each of these suspensions, nothing else having run in between. *)
Theorem timer_fires_after_delay (s : Cog) (h : nat) (t : Task)
    (now : ChannelInfo) (delete_response : result unit)
    (now2 now3 now4 : ChannelInfo) (r1 r3 r4 : result unit) :
  tasks s !! h = Some t → task_phase_of t = Sleeping → must_cancel t = false →
  is_Some (channel_guild now) →
  delete_response = Ok tt ∨ delete_response = Raise NotFound →
  NoDup (temp_channels (config s)) → PyDict.wf (owner_channels (config s)) →
  let cid := task_channel t in
  let s' := resume_all h [(now, r1); (now2, delete_response); (now3, r3);
                          (now4, r4)] s in
  _delete_tasks s' = delete cid (_delete_tasks s) ∧
  _delete_tasks s' !! cid = None ∧
  length (tasks s') = length (tasks s) ∧
  (∃ t', tasks s' !! h = Some t' ∧ task_phase_of t' = Done Returned) ∧
  match members now with
  | [] =>
      calls s' = calls s ++ [DeleteChannel cid] ∧
      (cid ∉ temp_channels (config s')) ∧
      (∀ x, x ∈ temp_channels (config s') ↔
            x ≠ cid ∧ x ∈ temp_channels (config s)) ∧
      owner_channels (config s')
      = filter (λ e, e.2 ≠ cid) (owner_channels (config s)) ∧
      (∀ k, PyDict.get (owner_channels (config s')) k ≠ Some cid) ∧
      (∀ k v, v ≠ cid → PyDict.get (owner_channels (config s)) k = Some v →
              PyDict.get (owner_channels (config s')) k = Some v) ∧
      counter (config s') = counter (config s)
  | _ :: _ => calls s' = calls s ∧ config s' = config s
  end.
Proof.
  intros Ht Hph Hmc Hg Hr Hnd Hwf cid s'. unfold s'.
  destruct (members now) as [|m ms] eqn:Hm.
  - rewrite (resume_all_fire _ _ _ _ _ _ _ _ _ _ _ Ht Hph Hmc Hg Hm Hr).
    fold cid. simpl.
    split_and!.
    + done.
    + apply lookup_delete_eq.
    + by rewrite length_alter.
    + eexists. rewrite list_lookup_alter_eq, Ht. simpl. done.
    + done.
    + intros Hin. by apply reclaimed_temp_channels in Hin as [? _].
    + intros x. by apply reclaimed_temp_channels.
    + by apply reclaimed_owner_channels.
    + intros k. rewrite clear_owner_filter by done. apply get_filter_ne.
    + intros k v Hv Hget. rewrite clear_owner_filter by done.
      by apply get_filter_other.
    + done.
  - rewrite (resume_all_occupied _ _ _ _ _ _ Ht Hph Hmc)
      by (right; by rewrite Hm).
    fold cid. simpl.
    split_and!.
    + done.
    + apply lookup_delete_eq.
    + by rewrite length_alter.
    + eexists. rewrite list_lookup_alter_eq, Ht. simpl. done.
    + done.
    + done.
Qed.

Lemma timer_fires_after_delay_witness :
  tasks cog9_sleeping !! 0%nat
  = Some {| task_channel := 100; task_phase_of := Sleeping;
            must_cancel := false |} ∧
  is_Some (channel_guild (temp_info [])) ∧
  NoDup (temp_channels (config cog9_sleeping)) ∧
  PyDict.wf (owner_channels (config cog9_sleeping)) ∧
  calls (resume_all 0
           [(temp_info [], Ok tt); (temp_info [], Raise NotFound);
            (temp_info [], Ok tt); (temp_info [], Ok tt)] cog9_sleeping)
  = calls cog9_sleeping ++ [DeleteChannel 100].
Proof.
  assert (Hg : is_Some (channel_guild (temp_info []))) by (exists 9; reflexivity).
  assert (Hnd : NoDup (temp_channels (config cog9_sleeping)))
    by apply NoDup_singleton.
  assert (Hwf : PyDict.wf (owner_channels (config cog9_sleeping)))
    by apply NoDup_singleton.
  split; [reflexivity|]. split; [exact Hg|]. split; [exact Hnd|].
  split; [exact Hwf|].
  destruct (timer_fires_after_delay cog9_sleeping 0
              {| task_channel := 100; task_phase_of := Sleeping;
                 must_cancel := false |}
              (temp_info []) (Raise NotFound)
              (temp_info []) (temp_info []) (temp_info [])
              (Ok tt) (Ok tt) (Ok tt)
              eq_refl eq_refl eq_refl Hg (or_intror eq_refl) Hnd Hwf)
    as (_ & _ & _ & _ & Hcalls & _).
  exact Hcalls.
Defined.

Example sleeping_after_schedule :
  exec (resume_task 0 (temp_info []) (Ok tt))
    (exec (_schedule_delete_temp_channel temp100_empty) cog9) = cog9_sleeping.
Proof. vm_compute. reflexivity. Qed.

(** When the platform refuses the deletion with another error than
    [NotFound], the task ends with that error: the request was sent, the
    settings are as before and the registry entry is gone. *)
Remark timer_delete_refused (s : Cog) (h : nat) (t : Task) (now now2 : ChannelInfo)
    (r1 : result unit) (e : exn) :
  tasks s !! h = Some t → task_phase_of t = Sleeping → must_cancel t = false →
  is_Some (channel_guild now) → members now = [] → is_NotFound e = false →
  let s' := resume_all h [(now, r1); (now2, Raise e)] s in
  config s' = config s ∧
  calls s' = calls s ++ [DeleteChannel (task_channel t)] ∧
  _delete_tasks s' = delete (task_channel t) (_delete_tasks s) ∧
  tasks s' !! h = Some (set_phase (Done (Failed e)) t).
Proof.
  intros Ht Hph Hmc Hg Hm He s'. unfold s'.
  rewrite (resume_all_refused _ _ _ _ _ _ _ Ht Hph Hmc Hg Hm He). simpl.
  split_and!; [done | done | done |].
  by rewrite !list_lookup_alter_eq, Ht.
Qed.

(** ** Cancellation *)









(** C5, the claim as worded fails when an older task of the same channel
    is still to take note of its cancellation.  Task 0 is scheduled for
    channel 100, starts to sleep and is cancelled; task 1 is scheduled for
    the channel; task 0 is resumed, and its [finally] clause removes the
    registry entry, which names task 1.  Cancelling now does nothing: task
    1 is not flagged, and when its delay has elapsed with the channel empty
    it asks the platform to delete the channel. *)
Lemma cancel_misses_unregistered_task :
  let s1 := exec (_schedule_delete_temp_channel temp100_empty) cog9 in
  let s2 := exec (resume_task 0 (temp_info []) (Ok tt)) s1 in
  let s3 := exec (_cancel_delete_task 100) s2 in
  let s4 := exec (_schedule_delete_temp_channel temp100_empty) s3 in
  let s5 := exec (resume_task 0 (temp_info []) (Ok tt)) s4 in
  let s6 := exec (_cancel_delete_task 100) s5 in
  let s7 := resume_all 1 [(temp_info [], Ok tt); (temp_info [], Ok tt)] s6 in
  _delete_tasks s3 !! 100 = None ∧
  _delete_tasks s4 !! 100 = Some 1%nat ∧
  _delete_tasks s5 !! 100 = None ∧
  s6 = s5 ∧
  tasks s6 !! 1%nat = Some {| task_channel := 100; task_phase_of := NotStarted;
                              must_cancel := false |} ∧
  calls s6 = [] ∧
  calls s7 = [DeleteChannel 100].
Proof. vm_compute. done. Qed.

(** ** Lobby join *)

Lemma get_owner_channel_id_run guild uid s :
  _get_owner_channel_id guild uid s =
  match PyDict.get (owner_channels (config s)) (str uid) with
  | None => (Ok None, s)
  | Some chan_id =>
      if is_voice (get_channel guild chan_id) then (Ok (Some chan_id), s)
      else (Ok None,
            with_config (λ c, set_owner_channels
                                (PyDict.pop (owner_channels c) (str uid)) c) s)
  end.
Proof.
  unfold _get_owner_channel_id. unfold_prog. simpl.
  destruct (PyDict.get _ _) as [chan|]; [|done].
  by destruct (is_voice _).
Qed.


Lemma voice_channel_of_None guild cid :
  voice_channel_of guild cid = None → is_voice (get_channel guild cid) = false.
Proof.
  unfold voice_channel_of. destruct (is_voice (get_channel guild cid)) eqn:Hv;
    [|done].
  intros Hnone. rewrite Hnone in Hv. done.
Qed.

Lemma cancel_run cid s :
  _cancel_delete_task cid s =
  (Ok tt,
   {| config := config s;
      _delete_tasks := delete cid (_delete_tasks s);
      tasks := match _delete_tasks s !! cid with
               | Some h =>
                   match tasks s !! h with
                   | Some t => if done_ t then tasks s
                               else alter request_cancel h (tasks s)
                   | None => tasks s
                   end
               | None => tasks s
               end;
      calls := calls s |}).
Proof.
  unfold _cancel_delete_task. unfold_prog. simpl.
  destruct (_delete_tasks s !! cid) as [h|]; [|done]. simpl.
  destruct (tasks s !! h) as [t|]; [|done].
  by destruct (done_ t).
Qed.





(** C9, the claim as worded fails for a pending deletion that the registry
    no longer names.  Member 42 leaves channel 100 (task 0 is scheduled and
    starts to sleep), comes back through the lobby (task 0 is cancelled),
    leaves again (task 1 is scheduled), and only then task 0 takes note of
    its cancellation: its [finally] clause removes the entry of task 1,
    which starts to sleep.  When member 42 now joins the lobby the reuse
    path is taken, but task 1 is not cancelled, and when its delay has
    elapsed with the channel empty it asks the platform to delete the
    channel. *)
Lemma reuse_join_misses_unregistered_task :
  let guild := guild9 true true in
  let leave := VoiceStateUpdate (Some guild) ann (Some temp100_empty) None
                 (Ok 101) (Ok tt) in
  let join := VoiceStateUpdate (Some guild) ann None (Some lobby)
                (Ok 101) (Ok tt) in
  let s := run plain_builtins
             [leave; ResumeTask 0 (temp_info []) (Ok tt); join; leave;
              ResumeTask 0 (temp_info []) (Ok tt);
              ResumeTask 1 (temp_info []) (Ok tt)] cog9 in
  let s' := exec (_handle_creation_join plain_builtins guild ann lobby
                    (Ok 101) (Ok tt)) s in
  PyDict.get (owner_channels (config s)) (str (member_id ann)) = Some 100 ∧
  is_voice (get_channel guild 100) = true ∧
  tasks s !! 1%nat = Some {| task_channel := 100; task_phase_of := Sleeping;
                             must_cancel := false |} ∧
  _delete_tasks s !! 100 = None ∧
  calls s' = calls s ++ [MoveTo 42 100] ∧
  config s' = config s ∧
  tasks s' !! 1%nat = Some {| task_channel := 100; task_phase_of := Sleeping;
                              must_cancel := false |} ∧
  calls (exec (resume_task 1 (temp_info []) (Ok tt)) s')
  = calls s' ++ [DeleteChannel 100].
Proof. vm_compute. done. Qed.

Lemma handle_creation_join_no_permission py guild member base cr mr s :
  PyDict.get (owner_channels (config s)) (str (member_id member))
    ≫= voice_channel_of guild = None →
  me_manage_channels guild = false ∨ me_move_members guild = false →
  _handle_creation_join py guild member base cr mr s =
  (Ok tt,
   with_config (λ c,
     set_counter (Some (normalise (counter c) + 1))
       (set_owner_channels
          (PyDict.pop (owner_channels c) (str (member_id member))) c)) s).
Proof.
  intros Hnone Hperm. unfold _handle_creation_join.
  unfold mbind at 1. unfold prog_bind at 1.
  rewrite get_owner_channel_id_run.
  assert (Hif : negb (me_manage_channels guild) || negb (me_move_members guild)
                = true).
  { destruct Hperm as [-> | ->]; [done | by rewrite orb_true_r]. }
  destruct (PyDict.get (owner_channels (config s)) (str (member_id member)))
    as [chan|] eqn:Hget.
  - cbn [mbind option_bind] in Hnone.
    rewrite (voice_channel_of_None _ _ Hnone).
    cbn [mbind option_bind]. unfold_prog. simpl.
    rewrite render_of_format, Hif. reflexivity.
  - assert (Hpop : PyDict.pop (owner_channels (config s))
                     (str (member_id member)) = owner_channels (config s))
      by (by apply pop_absent, get_None).
    replace (with_config _ s)
      with (with_config (set_counter (Some (normalise (counter (config s)) + 1))) s).
    + cbn [mbind option_bind]. unfold_prog. simpl.
      by rewrite render_of_format, Hif.
    + unfold with_config, set_counter, set_owner_channels. cbn [config].
      rewrite Hpop. by destruct s as [[] ? ? ?].
Qed.

(** C2, as the code has it.  When the joining member has no owned channel to
    go back to and the bot lacks manage-channels or move-members, the handler
    returns without any request to the platform: no channel is created, and
    the tracked channels, the timer registry and the tasks are as before.
    The owner map is as before except for the entry of the member, which the
    lookup removes when it is stale. *)
Theorem lobby_join_without_permission (py : PyBuiltins) (s : Cog)
    (guild : Guild) (member : Member) (base_channel : Channel)
    (create_response : result Z) (move_response : result unit) :
  PyDict.get (owner_channels (config s)) (str (member_id member))
    ≫= voice_channel_of guild = None →
  me_manage_channels guild = false ∨ me_move_members guild = false →
  let s' := exec (_handle_creation_join py guild member base_channel
                    create_response move_response) s in
  eval (_handle_creation_join py guild member base_channel
          create_response move_response) s = Ok tt ∧
  calls s' = calls s ∧
  _delete_tasks s' = _delete_tasks s ∧
  tasks s' = tasks s ∧
  temp_channels (config s') = temp_channels (config s) ∧
  owner_channels (config s')
  = PyDict.pop (owner_channels (config s)) (str (member_id member)) ∧
  (∀ k, k ≠ str (member_id member) →
        PyDict.get (owner_channels (config s')) k
        = PyDict.get (owner_channels (config s)) k) ∧
  creation_channel_id (config s') = creation_channel_id (config s) ∧
  name_template (config s') = name_template (config s) ∧
  delete_delay (config s') = delete_delay (config s) ∧
  temp_category_id (config s') = temp_category_id (config s).
Proof.
  intros Hnone Hperm s'. unfold s', exec, eval.
  rewrite handle_creation_join_no_permission by done. simpl.
  split_and!; try done.
  intros k Hk. by apply get_pop_ne.
Qed.

Lemma lobby_join_without_permission_witness :
  PyDict.get (owner_channels (config cog9)) (str (member_id carl))
    ≫= voice_channel_of (guild9 false true) = None ∧
  (me_manage_channels (guild9 false true) = false ∨
   me_move_members (guild9 false true) = false) ∧
  calls (exec (_handle_creation_join plain_builtins (guild9 false true) carl
                 lobby (Ok 101) (Ok tt)) cog9) = calls cog9.
Proof.
  assert (H1 : PyDict.get (owner_channels (config cog9)) (str (member_id carl))
                 ≫= voice_channel_of (guild9 false true) = None)
    by (vm_compute; reflexivity).
  assert (H2 : me_manage_channels (guild9 false true) = false ∨
               me_move_members (guild9 false true) = false)
    by (left; reflexivity).
  split; [exact H1|]. split; [exact H2|].
  destruct (lobby_join_without_permission plain_builtins cog9
              (guild9 false true) carl lobby (Ok 101) (Ok tt) H1 H2)
    as (_ & Hcalls & _).
  exact Hcalls.
Defined.

(** On that path the counter has already been taken: [get_next_counter]
    runs before the permissions are looked at. *)
Remark lobby_join_without_permission_counter (py : PyBuiltins) (s : Cog)
    (guild : Guild) (member : Member) (base_channel : Channel)
    (create_response : result Z) (move_response : result unit) :
  PyDict.get (owner_channels (config s)) (str (member_id member))
    ≫= voice_channel_of guild = None →
  me_manage_channels guild = false ∨ me_move_members guild = false →
  counter (config (exec (_handle_creation_join py guild member base_channel
                           create_response move_response) s))
  = Some (normalise (counter (config s)) + 1).
Proof.
  intros Hnone Hperm. unfold exec.
  by rewrite handle_creation_join_no_permission.
Qed.

(** C2 as stated fails: member 44, who owns no channel, joins the lobby of a
    guild where the bot lacks manage-channels; nothing is created, but the
    stored counter goes from 5 to 6. *)
Lemma lobby_join_without_permission_changes_config :
  let s' := exec (_handle_creation_join plain_builtins (guild9 false true) carl
                    lobby (Ok 101) (Ok tt)) cog9 in
  PyDict.get (owner_channels (config cog9)) (str (member_id carl)) = None ∧
  me_manage_channels (guild9 false true) = false ∧
  calls s' = [] ∧
  counter (config cog9) = Some 5 ∧
  counter (config s') = Some 6 ∧
  config s' ≠ config cog9.
Proof.
  split_and!; try (vm_compute; reflexivity).
  intros Heq. apply (f_equal counter) in Heq. vm_compute in Heq. discriminate.
Qed.

(** ** Ownership transfer *)

Lemma owned_temp_channel_run py ctx sr s :
  ∃ r msgs,
    _get_owned_temp_channel_for_ctx py ctx sr s = (r, logged msgs s) ∧
    match r with
    | Ok (Some _) => is_Some (ctx_guild ctx)
    | _ => True
    end.
Proof.
  unfold _get_owned_temp_channel_for_ctx, send. unfold_prog.
  assert (Hid : s = logged [] s).
  { unfold logged. rewrite app_nil_r. by destruct s. }
  destruct (ctx_guild ctx) as [guild|].
  2:{ exists (Ok None), []. split; [by rewrite <- Hid | done]. }
  destruct (author_is_member ctx); simpl.
  2:{ exists (Ok None), []. split; [by rewrite <- Hid | done]. }
  destruct (voice_channel_of_member (ctx_author ctx)) as [channel|]; simpl.
  2:{ destruct sr as [[]|e]; [by eexists (Ok None), [_] | by eexists (Raise e), [_]]. }
  case_bool_decide; simpl.
  { destruct sr as [[]|e]; [by eexists (Ok None), [_] | by eexists (Raise e), [_]]. }
  case_bool_decide; simpl.
  { destruct sr as [[]|e]; [by eexists (Ok None), [_] | by eexists (Raise e), [_]]. }
  exists (Ok (Some channel)), []. split; [by rewrite <- Hid | by eexists].
Qed.

(** C1, as the code has it.  [vch_owner_transfer] takes the counter for the
    new name from [get_next_counter]: once the caller is found to own the
    channel and the target is a member, not a bot, sitting in it, the channel
    is renamed with the stored counter value (read as 1 when missing or below
    1) and the stored counter is left at that value plus one, whether or not
    the platform accepts the edit.  A transfer that is rejected before that
    leaves the settings as they were. *)
Theorem transfer_takes_next_counter (py : PyBuiltins) (s : Cog) (ctx : Ctx)
    (new_owner : Member) (edit_response send_response : result unit) :
  let s' := exec (vch_owner_transfer py ctx new_owner edit_response
                    send_response) s in
  let v := normalise (counter (config s)) in
  match eval (_get_owned_temp_channel_for_ctx py ctx send_response) s with
  | Ok (Some channel) =>
      if bot new_owner || negb (same_channel (voice_channel new_owner) channel)
      then config s' = config s
      else
        counter (config s') = Some (v + 1) ∧
        temp_channels (config s') = temp_channels (config s) ∧
        ∃ new_name ow,
          _render_channel_name py (name_template (config s)) new_owner v
          = Ok new_name ∧
          EditChannel (channel_id channel) new_name ow ∈ calls s'
  | _ => config s' = config s
  end.
Proof.
  intros s' v. unfold s', exec, eval, vch_owner_transfer.
  destruct (owned_temp_channel_run py ctx send_response s)
    as (r & msgs & Hrun & Hguild).
  rewrite bind_run, Hrun. cbn [fst snd].
  destruct r as [[channel|]|e0]; [|reflexivity|reflexivity].
  destruct (ctx_guild ctx) as [guild|].
  2:{ by destruct Hguild as [? ?]. }
  destruct (bot new_owner).
  { unfold send. unfold_prog. by destruct send_response. }
  cbn [orb].
  destruct (same_channel (voice_channel new_owner) channel).
  2:{ unfold send. unfold_prog. by destruct send_response. }
  cbn [negb]. unfold send. unfold_prog. simpl.
  rewrite render_of_format. fold v.
  set (new_name := match str_format py _ _ with Ok n => n | Raise _ => _ end).
  destruct edit_response as [[]|e]; simpl.
  - destruct send_response as [[]|e1]; simpl;
      (split_and!; [reflexivity | reflexivity|]; eexists new_name, _;
       split; [apply render_of_format|];
       rewrite !elem_of_app, !elem_of_cons; eauto 10).
  - destruct (is_HTTPException e); simpl.
    + destruct send_response as [[]|e1]; simpl;
        (split_and!; [reflexivity | reflexivity|]; eexists new_name, _;
         split; [apply render_of_format|];
         rewrite !elem_of_app, !elem_of_cons; eauto 10).
    + split_and!; [reflexivity | reflexivity|]. eexists new_name, _.
      split; [apply render_of_format|].
      rewrite !elem_of_app, !elem_of_cons. eauto 10.
Qed.

(** C1 as stated fails: member 42 owns channel 100 and transfers it to
    member 43, who sits in it; the channel is renamed with counter value 5
    and the stored counter goes from 5 to 6. *)
Lemma transfer_increments_counter :
  let s' := exec (vch_owner_transfer plain_builtins ctx_ann bob (Ok tt) (Ok tt))
              cog9 in
  counter (config cog9) = Some 5 ∧
  counter (config s') = Some 6 ∧
  counter (config s') ≠ counter (config cog9) ∧
  owner_channels (config s') = [("43", 100)]%string ∧
  calls s' =
    [EditChannel 100 "Bob #5" [(43, owner_overwrite)];
     Send "Ownership of this temporary voice channel has been transferred to <@43>."].
Proof.
  split_and!; try (vm_compute; reflexivity).
  vm_compute. discriminate.
Qed.

(** ** The counter *)



Lemma get_next_counter_read_run s :
  get_next_counter_read s = (Ok (normalise (counter (config s))), s).
Proof. reflexivity. Qed.







(** C7, the claim as worded fails for calls that overlap: with the counter
    at 5, two calls of which the second reads before the first has written
    both return 5, and the counter is left at 6. *)
Lemma overlapping_calls_share_a_value :
  eval (interleaved_counters [0; 1; 0; 1]%nat ∅) cog9
  = Ok [(0%nat, 5); (1%nat, 5)] ∧
  counter (config (exec (interleaved_counters [0; 1; 0; 1]%nat ∅) cog9))
  = Some 6 ∧
  ¬ NoDup ([(0%nat, 5); (1%nat, 5)].*2).
Proof.
  split_and!; [vm_compute; reflexivity..|].
  csimpl. intros H. apply NoDup_cons in H as [H _]. apply H. by left.
Qed.

(** ** The owner map along runs *)






Lemma schedule_config channel s :
  config (exec (_schedule_delete_temp_channel channel) s) = config s.
Proof.
  unfold exec, _schedule_delete_temp_channel. unfold_prog. simpl.
  case_bool_decide; [done|]. by destruct (negb _).
Qed.











Lemma config9_owners_wf : PyDict.wf (owner_channels (config cog9)).
Proof. apply NoDup_singleton. Defined.




(** ** Sample runs *)

(** Member 44 joins the lobby: channel 101 is created under the name the
    template gives, tracked, recorded as owned by 44, and 44 is moved in. *)
Example join_creates_channel :
  exec (on_voice_state_update plain_builtins (Some (guild9 true true)) carl
          None (Some lobby) (Ok 101) (Ok tt)) cog9
  = {| config :=
         set_owner_channels [("42", 100); ("44", 101)]%string
           (set_temp_channels [100; 101] (set_counter (Some 6) config9));
       _delete_tasks := ∅;
       tasks := [];
       calls := [CreateVoiceChannel "Carl #5" (Some 2) [(44, owner_overwrite)];
                 MoveTo 44 101] |}.
Proof. vm_compute. reflexivity. Qed.

(** The last member leaves channel 100, the delay elapses with the channel
    still empty: the channel is deleted and forgotten.  The task is resumed
    five times: to start, at the end of its sleep, with the answer to the
    delete request, and after each of the two writes of the settings. *)
Example leave_then_reclaim :
  run plain_builtins
    [VoiceStateUpdate (Some (guild9 true true)) ann (Some temp100_empty) None
       (Ok 101) (Ok tt);
     ResumeTask 0 (temp_info []) (Ok tt);
     ResumeTask 0 (temp_info []) (Ok tt);
     ResumeTask 0 (temp_info []) (Ok tt);
     ResumeTask 0 (temp_info []) (Ok tt);
     ResumeTask 0 (temp_info []) (Ok tt)] cog9
  = {| config := set_owner_channels [] (set_temp_channels [] config9);
       _delete_tasks := ∅;
       tasks := [{| task_channel := 100; task_phase_of := Done Returned;
                    must_cancel := false |}];
       calls := [DeleteChannel 100] |}.
Proof. vm_compute. reflexivity. Qed.

(** A cancelled task that takes note of its cancellation only after a new
    deletion has been scheduled for the same channel removes the registry
    entry of the new task, which stays alive. *)
Example late_cancellation_drops_newer_entry :
  let s1 := exec (_schedule_delete_temp_channel temp100_empty) cog9 in
  let s2 := exec (resume_task 0 (temp_info []) (Ok tt)) s1 in
  let s3 := exec (_cancel_delete_task 100) s2 in
  let s4 := exec (_schedule_delete_temp_channel temp100_empty) s3 in
  let s5 := exec (resume_task 0 (temp_info []) (Ok tt)) s4 in
  _delete_tasks s4 !! 100 = Some 1%nat ∧
  _delete_tasks s5 !! 100 = None ∧
  tasks s5 !! 1%nat = Some {| task_channel := 100; task_phase_of := NotStarted;
                              must_cancel := false |}.
Proof. vm_compute. done. Qed.

(** * Further properties *)

(** ** Voice state updates *)

Lemma voice_update_skip py s guild member before after cr mr :
  bot member = true ∨ guild = None ∨ creation_channel_id (config s) = None →
  on_voice_state_update py guild member before after cr mr s = (Ok tt, s).
Proof.
  intros H. unfold on_voice_state_update.
  destruct (bot member) eqn:Hbot; [done|].
  destruct guild as [g|]; [|done].
  destruct H as [H|[H|H]]; [done | done|].
  rewrite bind_run. unfold get_creation_channel_id, gets. cbn [compose].
  by rewrite H.
Qed.

(** X1. A voice state update of a bot, of a member without guild, or in a
    guild whose lobby is not configured changes nothing at all. *)
Theorem voice_update_ignored (py : PyBuiltins) (s : Cog) (guild : option Guild)
    (member : Member) (before after : option Channel)
    (create_response : result Z) (move_response : result unit) :
  bot member = true ∨ guild = None ∨ creation_channel_id (config s) = None →
  on_voice_state_update py guild member before after
    create_response move_response s = (Ok tt, s).
Proof. apply voice_update_skip. Qed.

Lemma voice_update_ignored_witness :
  bot jukebox = true ∧
  on_voice_state_update plain_builtins (Some (guild9 true true)) jukebox
    None (Some lobby) (Ok 101) (Ok tt) cog9 = (Ok tt, cog9).
Proof.
  split; [reflexivity|].
  exact (voice_update_ignored plain_builtins cog9 (Some (guild9 true true))
           jukebox None (Some lobby) (Ok 101) (Ok tt)
           (or_introl (eq_refl : bot jukebox = true))).
Defined.

Lemma schedule_ok channel s :
  _schedule_delete_temp_channel channel s
  = (Ok tt, exec (_schedule_delete_temp_channel channel) s).
Proof.
  unfold exec, _schedule_delete_temp_channel. unfold_prog. simpl.
  case_bool_decide; [done|]. by destruct (negb _).
Qed.

Lemma schedule_calls channel s :
  calls (exec (_schedule_delete_temp_channel channel) s) = calls s.
Proof.
  unfold exec, _schedule_delete_temp_channel. unfold_prog. simpl.
  case_bool_decide; [done|]. by destruct (negb _).
Qed.

Lemma cancel_ok cid s :
  _cancel_delete_task cid s = (Ok tt, exec (_cancel_delete_task cid) s).
Proof. unfold exec. by rewrite cancel_run. Qed.

(** A voice state update that is not ignored, step by step. *)
Lemma voice_update_run py guild member before after cr mr s creation :
  bot member = false → creation_channel_id (config s) = Some creation →
  on_voice_state_update py (Some guild) member before after cr mr s =
  let s1 := match before with
            | Some ch =>
                if bool_decide (channel_id ch ∈ temp_channels (config s))
                   && (length (members (channel_info ch)) =? 0)%nat
                then exec (_schedule_delete_temp_channel ch) s else s
            | None => s
            end in
  let s2 := match after with
            | Some ch =>
                if bool_decide (channel_id ch ∈ temp_channels (config s))
                then exec (_cancel_delete_task (channel_id ch)) s1 else s1
            | None => s1
            end in
  match after with
  | Some ch =>
      if bool_decide (channel_id ch = creation)
      then _handle_creation_join py guild member ch cr mr s2
      else (Ok tt, s2)
  | None => (Ok tt, s2)
  end.
Proof.
  intros Hbot Hc. unfold on_voice_state_update. rewrite Hbot.
  rewrite bind_run. unfold get_creation_channel_id at 1. unfold gets at 1.
  cbn [compose]. rewrite Hc.
  rewrite bind_run. unfold get_temp_channels at 1. unfold gets at 1.
  cbn [compose]. rewrite bind_run.
  assert (H1 : match before with
               | Some ch =>
                   if bool_decide (channel_id ch ∈ temp_channels (config s))
                      && (length (members (channel_info ch)) =? 0)%nat
                   then _schedule_delete_temp_channel ch else mret tt
               | None => mret tt
               end s
               = (Ok tt,
                  match before with
                  | Some ch =>
                      if bool_decide (channel_id ch ∈ temp_channels (config s))
                         && (length (members (channel_info ch)) =? 0)%nat
                      then exec (_schedule_delete_temp_channel ch) s else s
                  | None => s
                  end)).
  { destruct before as [ch|]; [|done].
    destruct (_ && _); [apply schedule_ok | done]. }
  rewrite H1. cbv zeta. rewrite bind_run.
  destruct after as [ch|]; [|done].
  destruct (bool_decide (channel_id ch ∈ temp_channels (config s))).
  - rewrite cancel_ok. by destruct (bool_decide (channel_id ch = creation)).
  - by destruct (bool_decide (channel_id ch = creation)).
Qed.

(** X2. A voice state update whose destination is not the lobby sends
    nothing to the platform and leaves the settings alone: moving between
    temporary channels never creates one. *)
Theorem voice_update_away_from_lobby (py : PyBuiltins) (s : Cog)
    (guild : option Guild) (member : Member) (before after : option Channel)
    (create_response : result Z) (move_response : result unit) :
  match after with
  | Some ch => creation_channel_id (config s) ≠ Some (channel_id ch)
  | None => True
  end →
  let s' := exec (on_voice_state_update py guild member before after
                    create_response move_response) s in
  eval (on_voice_state_update py guild member before after
          create_response move_response) s = Ok tt ∧
  config s' = config s ∧ calls s' = calls s.
Proof.
  intros Hafter s'. unfold s', exec, eval.
  destruct (bot member) eqn:Hbot.
  { by rewrite voice_update_skip by auto. }
  destruct guild as [g|].
  2:{ by rewrite voice_update_skip by auto. }
  destruct (creation_channel_id (config s)) as [creation|] eqn:Hc.
  2:{ by rewrite voice_update_skip by auto. }
  rewrite (voice_update_run _ _ _ _ _ _ _ _ creation) by done. cbv zeta.
  set (s1 := match before with Some _ => _ | None => _ end).
  assert (H1 : config s1 = config s ∧ calls s1 = calls s).
  { unfold s1. destruct before as [ch|]; [|done].
    destruct (_ && _); [|done].
    by rewrite schedule_config, schedule_calls. }
  destruct H1 as [Hc1 Hl1].
  destruct after as [ch|]; [|done].
  rewrite bool_decide_eq_false_2 by congruence.
  destruct (bool_decide (channel_id ch ∈ temp_channels (config s))).
  - cbn [fst snd]. unfold exec. rewrite cancel_run. simpl. done.
  - done.
Qed.

Lemma voice_update_away_from_lobby_witness :
  creation_channel_id (config cog9) ≠ Some (channel_id temp100) ∧
  config (exec (on_voice_state_update plain_builtins (Some (guild9 true true))
                  carl (Some lobby) (Some temp100) (Ok 101) (Ok tt)) cog9)
  = config cog9.
Proof.
  assert (H : creation_channel_id (config cog9) ≠ Some (channel_id temp100))
    by (simpl; congruence).
  split; [exact H|].
  destruct (voice_update_away_from_lobby plain_builtins cog9
              (Some (guild9 true true)) carl (Some lobby) (Some temp100)
              (Ok 101) (Ok tt) H) as (_ & Hconf & _).
  exact Hconf.
Defined.

(** X3. When a member leaves a channel and joins none, a deletion is
    scheduled exactly if the channel is tracked and now empty: then the
    registry holds an entry for it, a new task being created unless one was
    registered already; otherwise nothing changes.  Settings and platform
    log stay as they were. *)
Theorem leave_schedules_deletion (py : PyBuiltins) (s : Cog) (guild : Guild)
    (member : Member) (ch : Channel) (create_response : result Z)
    (move_response : result unit) (creation : Z) :
  bot member = false → creation_channel_id (config s) = Some creation →
  let s' := exec (on_voice_state_update py (Some guild) member (Some ch) None
                    create_response move_response) s in
  let cid := channel_id ch in
  (cid ∈ temp_channels (config s) → members (channel_info ch) = [] →
   is_Some (_delete_tasks s' !! cid) ∧
   (is_Some (_delete_tasks s !! cid) → s' = s) ∧
   (_delete_tasks s !! cid = None →
    _delete_tasks s' !! cid = Some (length (tasks s)) ∧
    tasks s' = tasks s ++ [{| task_channel := cid; task_phase_of := NotStarted;
                              must_cancel := false |}])) ∧
  (cid ∉ temp_channels (config s) ∨ members (channel_info ch) ≠ [] → s' = s) ∧
  config s' = config s ∧ calls s' = calls s.
Proof.
  intros Hbot Hc s' cid. unfold s', exec.
  rewrite (voice_update_run _ _ _ _ _ _ _ _ creation) by done. cbv zeta.
  cbn [snd]. fold cid. split_and!.
  - intros Hin Hemp. rewrite bool_decide_eq_true_2 by done. rewrite Hemp.
    cbn [length Nat.eqb andb]. unfold exec.
    destruct (_delete_tasks s !! cid) as [h|] eqn:Hreg.
    + rewrite schedule_registered by (fold cid; rewrite Hreg; by eexists).
      cbn [snd]. rewrite Hreg. split_and!; [by eexists | done | done].
    + rewrite schedule_fresh by done. cbn [snd _delete_tasks tasks]. fold cid.
      rewrite lookup_insert_eq.
      split_and!; [by eexists | by intros [? ?] | done].
  - intros [Hnin|Hocc].
    + by rewrite bool_decide_eq_false_2 by done.
    + destruct (members (channel_info ch)); [done|]. by rewrite andb_false_r.
  - destruct (_ && _); [apply schedule_config | done].
  - destruct (_ && _); [apply schedule_calls | done].
Qed.

Lemma leave_schedules_deletion_witness :
  bot ann = false ∧ creation_channel_id (config cog9) = Some 1 ∧
  config (exec (on_voice_state_update plain_builtins (Some (guild9 true true))
                  ann (Some temp100_empty) None (Ok 101) (Ok tt)) cog9)
  = config cog9.
Proof.
  split; [reflexivity|]. split; [reflexivity|].
  destruct (leave_schedules_deletion plain_builtins cog9 (guild9 true true) ann
              temp100_empty (Ok 101) (Ok tt) 1 eq_refl eq_refl)
    as (_ & _ & Hconf & _).
  exact Hconf.
Defined.

Lemma handle_creation_join_unregistered py guild member base cr mr k :
  preserves (λ s, _delete_tasks s !! k = None)
    (_handle_creation_join py guild member base cr mr).
Proof.
  preserves_struct fail;
    first [ apply preserves_call_logged; intros s Hs; exact Hs
          | apply preserves_modify; intros s Hs; simpl;
            first [ exact Hs
                  | rewrite lookup_delete; by case_decide ] ].
Qed.

Lemma handle_creation_join_flagged py guild member base cr mr h :
  preserves (λ s, ∃ t, tasks s !! h = Some t ∧ must_cancel t = true)
    (_handle_creation_join py guild member base cr mr).
Proof.
  preserves_struct fail;
    first [ apply preserves_call_logged; intros s Hs; exact Hs
          | apply preserves_modify; intros s Hs; simpl; try exact Hs ].
  destruct Hs as (t' & Ht' & Hmc).
  match goal with |- context [alter request_cancel ?i] =>
    destruct (decide (i = h)) as [->|Hne] end.
  - eexists. rewrite list_lookup_alter_eq, Ht'. done.
  - exists t'. by rewrite list_lookup_alter_ne.
Qed.

Lemma schedule_keeps channel s k h t :
  _delete_tasks s !! k = Some h → tasks s !! h = Some t →
  _delete_tasks (exec (_schedule_delete_temp_channel channel) s) !! k = Some h ∧
  tasks (exec (_schedule_delete_temp_channel channel) s) !! h = Some t.
Proof.
  intros Hreg Ht. unfold exec.
  destruct (_delete_tasks s !! channel_id channel) as [h'|] eqn:Hc.
  { rewrite schedule_registered by (rewrite Hc; by eexists). done. }
  destruct (members (channel_info channel)) as [|m ms] eqn:Hm.
  - rewrite schedule_fresh by done. cbn [snd _delete_tasks tasks].
    split.
    + rewrite lookup_insert_ne; [done|]. intros Heq. congruence.
    + by apply lookup_app_l_Some.
  - rewrite schedule_occupied by (by rewrite Hm). done.
Qed.

(** X4. When a member joins a tracked channel, a pending deletion of it is
    cancelled: afterwards the registry has no entry for the channel, and the
    task that was registered for it, if still running, is flagged so that it
    will not act. *)
Theorem join_cancels_deletion (py : PyBuiltins) (s : Cog) (guild : Guild)
    (member : Member) (before : option Channel) (ch : Channel)
    (create_response : result Z) (move_response : result unit)
    (creation : Z) :
  bot member = false → creation_channel_id (config s) = Some creation →
  channel_id ch ∈ temp_channels (config s) →
  let s' := exec (on_voice_state_update py (Some guild) member before (Some ch)
                    create_response move_response) s in
  _delete_tasks s' !! channel_id ch = None ∧
  (∀ h t, _delete_tasks s !! channel_id ch = Some h → tasks s !! h = Some t →
          done_ t = false →
          ∃ t', tasks s' !! h = Some t' ∧ must_cancel t' = true).
Proof.
  intros Hbot Hc Hin s'. unfold s', exec.
  rewrite (voice_update_run _ _ _ _ _ _ _ _ creation) by done. cbv zeta.
  rewrite (bool_decide_eq_true_2 _ Hin).
  set (s1 := match before with Some _ => _ | None => _ end).
  set (s2 := exec (_cancel_delete_task (channel_id ch)) s1).
  assert (Hreg2 : _delete_tasks s2 !! channel_id ch = None).
  { unfold s2, exec. rewrite cancel_run. apply lookup_delete_eq. }
  assert (Hflag : ∀ h t, _delete_tasks s !! channel_id ch = Some h →
            tasks s !! h = Some t → done_ t = false →
            ∃ t', tasks s2 !! h = Some t' ∧ must_cancel t' = true).
  { intros h t Hreg Ht Hdone.
    assert (H1 : _delete_tasks s1 !! channel_id ch = Some h ∧
                 tasks s1 !! h = Some t).
    { unfold s1. destruct before as [bch|]; [|done].
      destruct (_ && _); [by apply schedule_keeps | done]. }
    destruct H1 as [Hreg1 Ht1].
    unfold s2, exec. rewrite (cancel_registered s1 _ h t) by done.
    cbn [snd tasks]. rewrite Hdone. eexists.
    rewrite list_lookup_alter_eq, Ht1. done. }
  destruct (bool_decide (channel_id ch = creation)).
  - split.
    + by apply (handle_creation_join_unregistered py guild member ch
                  create_response move_response (channel_id ch) s2).
    + intros h t Hreg Ht Hdone.
      apply (handle_creation_join_flagged py guild member ch
               create_response move_response h s2).
      by apply (Hflag h t).
  - done.
Qed.

Lemma join_cancels_deletion_witness :
  bot ann = false ∧ creation_channel_id (config cog9_sleeping) = Some 1 ∧
  channel_id temp100 ∈ temp_channels (config cog9_sleeping) ∧
  _delete_tasks (exec (on_voice_state_update plain_builtins
                         (Some (guild9 true true)) ann None (Some temp100)
                         (Ok 101) (Ok tt)) cog9_sleeping) !! 100 = None.
Proof.
  assert (Hin : channel_id temp100 ∈ temp_channels (config cog9_sleeping))
    by (apply elem_of_cons; by left).
  split; [reflexivity|]. split; [reflexivity|]. split; [exact Hin|].
  exact (proj1 (join_cancels_deletion plain_builtins cog9_sleeping
                  (guild9 true true) ann None temp100 (Ok 101) (Ok tt) 1
                  eq_refl eq_refl Hin)).
Defined.

(** ** The timer registry *)

Lemma alter_keeps_channel f h (ts : list Task) i t :
  (∀ t, task_channel (f t) = task_channel t) → ts !! i = Some t →
  ∃ t', alter f h ts !! i = Some t' ∧ task_channel t' = task_channel t.
Proof.
  intros Hf Ht. destruct (decide (h = i)) as [->|Hne].
  - eexists. rewrite list_lookup_alter_eq, Ht. split; [done | apply Hf].
  - exists t. by rewrite list_lookup_alter_ne.
Qed.

Lemma registry_wf_alter f h s :
  (∀ t, task_channel (f t) = task_channel t) →
  registry_wf s → registry_wf (with_tasks (alter f h) s).
Proof.
  intros Hf Hwf cid i Hreg. destruct (Hwf cid i Hreg) as (t & Ht & Hch).
  destruct (alter_keeps_channel f h (tasks s) i t Hf Ht) as (t' & Ht' & Hch').
  exists t'. split; [done | congruence].
Qed.

Lemma registry_wf_delete k s :
  registry_wf s → registry_wf (with_delete_tasks (delete k) s).
Proof.
  intros Hwf cid i Hreg. simpl in Hreg.
  apply lookup_delete_Some in Hreg as [_ Hreg]. by apply Hwf.
Qed.

Lemma schedule_registry_wf channel :
  preserves registry_wf (_schedule_delete_temp_channel channel).
Proof.
  intros s Hwf.
  destruct (_delete_tasks s !! channel_id channel) as [h'|] eqn:Hc.
  { by rewrite schedule_registered by (rewrite Hc; by eexists). }
  destruct (members (channel_info channel)) as [|m ms] eqn:Hm.
  2:{ by rewrite schedule_occupied by (by rewrite Hm). }
  rewrite schedule_fresh by done. cbn [snd].
  intros cid i Hreg. cbn [_delete_tasks tasks] in *.
  destruct (decide (channel_id channel = cid)) as [<-|Hne].
  - rewrite lookup_insert_eq in Hreg. injection Hreg as <-.
    eexists. by rewrite lookup_new_task.
  - rewrite lookup_insert_ne in Hreg by done.
    destruct (Hwf cid i Hreg) as (t & Ht & Hch).
    exists t. split; [by apply lookup_app_l_Some | done].
Qed.

Lemma handle_registry_wf py e : preserves registry_wf (handle py e).
Proof.
  preserves_struct ltac:(apply schedule_registry_wf);
    first [ apply preserves_call_logged; intros s Hs; exact Hs
          | apply preserves_modify; intros s Hs;
            first [ exact Hs
                  | by apply registry_wf_delete
                  | by apply registry_wf_alter ] ].
Qed.

(** X5. Along every run of the cog, each entry of the timer registry names
    a task that was created for that very channel. *)
Theorem registry_names_tasks_of_channel (py : PyBuiltins) (es : list event)
    (s : Cog) :
  registry_wf s → registry_wf (run py es s).
Proof. apply run_preserves. apply handle_registry_wf. Qed.

Lemma cog9_registry_wf : registry_wf cog9.
Proof.
  intros cid h Hreg. exfalso.
  change ((∅ : gmap Z nat) !! cid = Some h) in Hreg.
  by rewrite lookup_empty in Hreg.
Defined.

Lemma registry_names_tasks_of_channel_witness :
  registry_wf cog9 ∧
  registry_wf (run plain_builtins
    [VoiceStateUpdate (Some (guild9 true true)) ann (Some temp100_empty) None
       (Ok 101) (Ok tt);
     ResumeTask 0 (temp_info []) (Ok tt)] cog9).
Proof.
  split; [exact cog9_registry_wf|].
  exact (registry_names_tasks_of_channel plain_builtins _ cog9 cog9_registry_wf).
Defined.

Lemma list_remove_subseteq x (l : list Z) : list_remove x l ⊆ l.
Proof. apply sublist_subseteq, list_remove_sublist. Qed.

Lemma foldl_pop_subseteq (d : list (string * Z)) ks :
  foldl PyDict.pop d ks ⊆ d.
Proof.
  revert d. induction ks as [|k ks IH]; intros d; simpl; [done|].
  intros x Hx. apply (pop_subseteq d k). by apply IH.
Qed.

Lemma reclaimed_shrinks cid c :
  temp_channels (reclaimed cid c) ⊆ temp_channels c ∧
  owner_channels (reclaimed cid c) ⊆ owner_channels c ∧
  counter (reclaimed cid c) = counter c.
Proof.
  unfold reclaimed. simpl. split_and!; [|apply foldl_pop_subseteq | done].
  case_bool_decide; [apply list_remove_subseteq | done].
Qed.




(** X7. [_get_owner_channel_id] heals the owner map: it returns the channel
    recorded for the user exactly when that channel is still a voice channel
    of the guild; otherwise it returns [None] and the user has no entry
    afterwards.  Entries of other users, tracked channels, counter, registry
    and platform log are untouched, and a second lookup returns the same
    answer without changing anything. *)
Theorem owner_lookup_self_heals (guild : Guild) (user_id : Z) (s : Cog) :
  PyDict.wf (owner_channels (config s)) →
  let r := eval (_get_owner_channel_id guild user_id) s in
  let s' := exec (_get_owner_channel_id guild user_id) s in
  let owners := owner_channels (config s) in
  let owners' := owner_channels (config s') in
  (∀ cid, r = Ok (Some cid) ↔
          PyDict.get owners (str user_id) = Some cid ∧
          is_voice (get_channel guild cid) = true) ∧
  (r = Ok (PyDict.get owners' (str user_id))) ∧
  (∀ cid, PyDict.get owners' (str user_id) = Some cid →
          is_voice (get_channel guild cid) = true) ∧
  (∀ k, k ≠ str user_id → PyDict.get owners' k = PyDict.get owners k) ∧
  temp_channels (config s') = temp_channels (config s) ∧
  counter (config s') = counter (config s) ∧
  calls s' = calls s ∧ _delete_tasks s' = _delete_tasks s ∧
  tasks s' = tasks s ∧
  _get_owner_channel_id guild user_id s' = (r, s').
Proof.
  intros Hwf r s' owners owners'.
  subst r s' owners owners'. unfold eval, exec.
  rewrite get_owner_channel_id_run.
  destruct (PyDict.get (owner_channels (config s)) (str user_id))
    as [chan|] eqn:Hget.
  - destruct (is_voice (get_channel guild chan)) eqn:Hv; cbn [fst snd].
    + rewrite Hget. split_and!; try done.
      * intros cid. split; [intros [= <-]; done | intros [[= <-] _]; done].
      * intros cid [= <-]. done.
      * rewrite get_owner_channel_id_run. by rewrite Hget, Hv.
    + cbn [config with_config owner_channels set_owner_channels].
      rewrite get_pop_eq by done.
      split_and!; try done.
      * intros cid. split; [done | intros [[= <-] Hv']; congruence].
      * intros k Hk. by apply get_pop_ne.
      * rewrite get_owner_channel_id_run.
        cbn [config with_config owner_channels set_owner_channels].
        by rewrite get_pop_eq by done.
  - cbn [fst snd]. rewrite Hget. split_and!; try done.
    + intros cid. split; [done | intros [? _]; done].
    + rewrite get_owner_channel_id_run. by rewrite Hget.
Qed.

Lemma owner_lookup_self_heals_witness :
  PyDict.wf (owner_channels (config cog9)) ∧
  eval (_get_owner_channel_id (guild9 true true) 42) cog9 = Ok (Some 100).
Proof.
  split; [exact config9_owners_wf|].
  destruct (owner_lookup_self_heals (guild9 true true) 42 cog9
              config9_owners_wf) as (Hiff & _).
  apply Hiff. split; vm_compute; reflexivity.
Defined.

(** ** Creating a channel *)

Lemma category_channel_of_id guild c ch :
  category_channel_of guild c = Some ch → channel_id ch = c.
Proof.
  unfold category_channel_of, get_channel.
  destruct (guild_channels guild !! c) as [i|]; simpl.
  - destruct (bool_decide _); [by intros [= <-] | done].
  - done.
Qed.

Lemma category_channel_of_is guild c :
  category_channel_of guild c = None ↔ is_category (get_channel guild c) = false.
Proof.
  unfold category_channel_of.
  destruct (is_category (get_channel guild c)) eqn:Hc; [|done].
  split; [|done]. intros Hn. rewrite Hn in Hc. done.
Qed.

Lemma channel_category_id guild ch c :
  channel_id <$> channel_category guild ch = Some c ↔
  category_id (channel_info ch) = Some c ∧ is_Some (guild_channels guild !! c).
Proof.
  unfold channel_category, get_channel.
  destruct (category_id (channel_info ch)) as [c0|]; cbn [mbind option_bind].
  - destruct (guild_channels guild !! c0) as [i|] eqn:Hi; csimpl.
    + split; [intros [= <-]; split; [done | by rewrite Hi] | by intros [[= ->] _]].
    + split; [done|]. intros [[= ->] [? H]]. by rewrite Hi in H.
  - split; [done | by intros [? _]].
Qed.

(** The lobby join once the owner lookup has found nothing to reuse and the
    bot has both permissions. *)
Lemma handle_creation_join_create py guild member base cr mr s :
  PyDict.get (owner_channels (config s)) (str (member_id member))
    ≫= voice_channel_of guild = None →
  me_manage_channels guild = true → me_move_members guild = true →
  let v := normalise (counter (config s)) in
  let name := match str_format py (name_template (config s))
                      (render_kwargs py member v) with
              | Ok n => n
              | Raise _ => fallback_name member
              end in
  let ow := PyDict.set (overwrites (channel_info base)) (member_id member)
              owner_overwrite in
  let cat := channel_id <$>
               match temp_category_id (config s) ≫= category_channel_of guild with
               | Some cat_obj => Some cat_obj
               | None => channel_category guild base
               end in
  let c1 := set_counter (Some (v + 1))
              (set_owner_channels
                 (PyDict.pop (owner_channels (config s))
                    (str (member_id member))) (config s)) in
  _handle_creation_join py guild member base cr mr s =
  match cr with
  | Raise e =>
      (Raise e,
       {| config := c1; _delete_tasks := _delete_tasks s; tasks := tasks s;
          calls := calls s ++ [CreateVoiceChannel name cat ow] |})
  | Ok new =>
      (match mr with
       | Ok _ => Ok tt
       | Raise e => if is_HTTPException e then Ok tt else Raise e
       end,
       {| config :=
            set_owner_channels
              (PyDict.set (owner_channels c1) (str (member_id member)) new)
              (set_temp_channels
                 (if bool_decide (new ∉ temp_channels c1)
                  then temp_channels c1 ++ [new] else temp_channels c1) c1);
          _delete_tasks := _delete_tasks s; tasks := tasks s;
          calls := (calls s ++ [CreateVoiceChannel name cat ow])
                   ++ [MoveTo (member_id member) new] |})
  end.
Proof.
  intros Hnone Hman Hmov v name ow cat c1.
  unfold _handle_creation_join. rewrite bind_run, get_owner_channel_id_run.
  assert (Hc1 : ∀ c0 : GuildConfig,
            (PyDict.get (owner_channels (config s)) (str (member_id member)) = None
             ∧ c0 = config s) ∨
            c0 = set_owner_channels
                   (PyDict.pop (owner_channels (config s))
                      (str (member_id member))) (config s) →
            set_counter (Some (v + 1)) c0 = c1).
  { intros c0 [[Hn ->]| ->]; [|done]. unfold c1.
    rewrite pop_absent by (by apply get_None).
    by destruct (config s). }
  destruct (PyDict.get (owner_channels (config s)) (str (member_id member)))
    as [chan|] eqn:Hget.
  - cbn [mbind option_bind] in Hnone.
    rewrite (voice_channel_of_None _ _ Hnone). cbn [negb mbind option_bind].
    unfold move_to. unfold_prog. simpl.
    rewrite render_of_format, Hman, Hmov. simpl.
    fold v name ow cat.
    destruct cr as [new|e]; simpl; [|done].
    destruct mr as [[]|e]; simpl; [done|].
    by destruct (is_HTTPException e).
  - specialize (Hc1 (config s) (or_introl (conj eq_refl eq_refl))).
    clearbody c1. subst c1.
    cbn [mbind option_bind]. unfold move_to. unfold_prog. simpl.
    rewrite render_of_format, Hman, Hmov. simpl.
    fold v name ow cat.
    destruct cr as [new|e]; simpl; [|done].
    destruct mr as [[]|e]; simpl; [done|].
    by destruct (is_HTTPException e).
Qed.

(** X8. A lobby join that creates a channel: with nothing to reuse, both
    permissions and the platform answering with the new channel, the handler
    asks for a voice channel named by the template with the stored counter,
    in the configured category when that is a category of the guild and
    otherwise in the category of the lobby as the guild cache resolves it
    (none when the lobby has no category or the cache does not hold it), with
    the lobby's overwrites plus the owner's grant; it tracks the new channel,
    records the member as its owner, leaves the counter one higher and moves
    the member in. *)
Theorem lobby_join_creates_channel (py : PyBuiltins) (s : Cog) (guild : Guild)
    (member : Member) (base_channel : Channel) (new : Z)
    (move_response : result unit) :
  PyDict.get (owner_channels (config s)) (str (member_id member))
    ≫= voice_channel_of guild = None →
  me_manage_channels guild = true → me_move_members guild = true →
  let s' := exec (_handle_creation_join py guild member base_channel
                    (Ok new) move_response) s in
  let v := normalise (counter (config s)) in
  let of_lobby := channel_id <$> channel_category guild base_channel in
  ∃ name cat ow,
    _render_channel_name py (name_template (config s)) member v = Ok name ∧
    calls s' = calls s ++ [CreateVoiceChannel name cat ow;
                           MoveTo (member_id member) new] ∧
    cat = match temp_category_id (config s) with
          | Some c => if is_category (get_channel guild c) then Some c
                      else of_lobby
          | None => of_lobby
          end ∧
    (∀ c, of_lobby = Some c ↔
          category_id (channel_info base_channel) = Some c ∧
          is_Some (guild_channels guild !! c)) ∧
    PyDict.get ow (member_id member) = Some owner_overwrite ∧
    (∀ k, k ≠ member_id member →
          PyDict.get ow k = PyDict.get (overwrites (channel_info base_channel)) k) ∧
    (∀ x, x ∈ temp_channels (config s') ↔ x = new ∨ x ∈ temp_channels (config s)) ∧
    PyDict.get (owner_channels (config s')) (str (member_id member)) = Some new ∧
    (∀ k, k ≠ str (member_id member) →
          PyDict.get (owner_channels (config s')) k
          = PyDict.get (owner_channels (config s)) k) ∧
    counter (config s') = Some (v + 1) ∧
    _delete_tasks s' = _delete_tasks s ∧ tasks s' = tasks s.
Proof.
  intros Hnone Hman Hmov s' v of_lobby. unfold s', exec.
  rewrite handle_creation_join_create by done. cbv zeta. cbn [snd].
  eexists _, _, _. split_and!.
  - apply render_of_format.
  - cbn [calls]. by rewrite <- app_assoc.
  - destruct (temp_category_id (config s)) as [c|]; cbn [mbind option_bind];
      [|done].
    destruct (category_channel_of guild c) as [ch|] eqn:Hcat.
    + cbn [fmap option_fmap option_map].
      rewrite (category_channel_of_id _ _ _ Hcat).
      destruct (is_category (get_channel guild c)) eqn:Hc; [done|].
      apply category_channel_of_is in Hc. congruence.
    + apply category_channel_of_is in Hcat. by rewrite Hcat.
  - intros c. apply channel_category_id.
  - apply get_set_eq.
  - intros k Hk. by apply get_set_ne.
  - intros x. cbn [config temp_channels set_owner_channels set_temp_channels
                   set_counter].
    case_bool_decide as Hin.
    + rewrite elem_of_app, list_elem_of_singleton. tauto.
    + split; [by right | intros [->|?]; done].
  - cbn [config owner_channels set_owner_channels]. apply get_set_eq.
  - intros k Hk.
    cbn [config owner_channels set_owner_channels set_temp_channels
         set_counter].
    rewrite get_set_ne by done. by apply get_pop_ne.
  - done.
  - done.
  - done.
Qed.

Lemma lobby_join_creates_channel_witness :
  PyDict.get (owner_channels (config cog9)) (str (member_id carl))
    ≫= voice_channel_of (guild9 true true) = None ∧
  me_manage_channels (guild9 true true) = true ∧
  me_move_members (guild9 true true) = true ∧
  ∃ name cat ow,
    calls (exec (_handle_creation_join plain_builtins (guild9 true true) carl
                   lobby (Ok 101) (Ok tt)) cog9)
    = calls cog9 ++ [CreateVoiceChannel name cat ow; MoveTo (member_id carl) 101].
Proof.
  assert (H1 : PyDict.get (owner_channels (config cog9)) (str (member_id carl))
                 ≫= voice_channel_of (guild9 true true) = None)
    by (vm_compute; reflexivity).
  split; [exact H1|]. split; [reflexivity|]. split; [reflexivity|].
  destruct (lobby_join_creates_channel plain_builtins cog9 (guild9 true true)
              carl lobby 101 (Ok tt) H1 eq_refl eq_refl)
    as (name & cat & ow & _ & Hcalls & _).
  exists name, cat, ow. exact Hcalls.
Defined.

(** X9. A lobby join whose creation request fails: the error leaves the
    handler, nobody is moved, and the tracked channels, the registry and
    the owner entries of other users are as before; the request was sent
    once and the counter is used up. *)
Theorem lobby_join_creation_fails (py : PyBuiltins) (s : Cog) (guild : Guild)
    (member : Member) (base_channel : Channel) (e : exn)
    (move_response : result unit) :
  PyDict.wf (owner_channels (config s)) →
  PyDict.get (owner_channels (config s)) (str (member_id member))
    ≫= voice_channel_of guild = None →
  me_manage_channels guild = true → me_move_members guild = true →
  let s' := exec (_handle_creation_join py guild member base_channel
                    (Raise e) move_response) s in
  eval (_handle_creation_join py guild member base_channel
          (Raise e) move_response) s = Raise e ∧
  (∃ name cat ow, calls s' = calls s ++ [CreateVoiceChannel name cat ow]) ∧
  temp_channels (config s') = temp_channels (config s) ∧
  PyDict.get (owner_channels (config s')) (str (member_id member)) = None ∧
  (∀ k, k ≠ str (member_id member) →
        PyDict.get (owner_channels (config s')) k
        = PyDict.get (owner_channels (config s)) k) ∧
  counter (config s') = Some (normalise (counter (config s)) + 1) ∧
  _delete_tasks s' = _delete_tasks s ∧ tasks s' = tasks s.
Proof.
  intros Hwf Hnone Hman Hmov s'. unfold s', exec, eval.
  rewrite handle_creation_join_create by done. cbv zeta. cbn [fst snd].
  split_and!; try done.
  - by eexists _, _, _.
  - cbn [config owner_channels set_owner_channels set_counter].
    by apply get_pop_eq.
  - intros k Hk. by apply get_pop_ne.
Qed.

Lemma lobby_join_creation_fails_witness :
  PyDict.wf (owner_channels (config cog9)) ∧
  PyDict.get (owner_channels (config cog9)) (str (member_id carl))
    ≫= voice_channel_of (guild9 true true) = None ∧
  me_manage_channels (guild9 true true) = true ∧
  me_move_members (guild9 true true) = true ∧
  eval (_handle_creation_join plain_builtins (guild9 true true) carl lobby
          (Raise Forbidden) (Ok tt)) cog9 = Raise Forbidden.
Proof.
  assert (H1 : PyDict.get (owner_channels (config cog9)) (str (member_id carl))
                 ≫= voice_channel_of (guild9 true true) = None)
    by (vm_compute; reflexivity).
  split; [exact config9_owners_wf|].
  split; [exact H1|]. split; [reflexivity|]. split; [reflexivity|].
  exact (proj1 (lobby_join_creation_fails plain_builtins cog9 (guild9 true true)
                  carl lobby Forbidden (Ok tt) config9_owners_wf H1
                  eq_refl eq_refl)).
Defined.

(** ** Who owns a channel *)

Lemma str_inj n m : str n = str m → n = m.
Proof. unfold str. apply (inj pretty). Qed.

Lemma owners_inv_tail k v (d : list (string * Z)) :
  owners_inv ((k, v) :: d) →
  owners_inv d ∧ (k ∉ d.*1) ∧ (v ∉ d.*2).
Proof.
  unfold owners_inv, PyDict.wf. csimpl. rewrite !NoDup_cons. tauto.
Qed.

Lemma keys_parse_tail py e (d : list (string * Z)) :
  keys_parse py (e :: d) → keys_parse py d.
Proof. intros H k v Hin. apply (H k v). apply elem_of_cons. by right. Qed.

Lemma recorded_owner_agrees py (owners : list (string * Z)) channel_id user_id :
  owners_inv owners → keys_parse py owners →
  find_owner_id py owners channel_id = Some user_id ↔
  PyDict.get owners (str user_id) = Some channel_id.
Proof.
  induction owners as [|[k0 v0] d IH]; intros Hinv Hparse; simpl; [done|].
  destruct (owners_inv_tail _ _ _ Hinv) as (Hinv' & Hk & Hv).
  pose proof (keys_parse_tail _ _ _ Hparse) as Hparse'.
  destruct (Hparse k0 v0) as (n & -> & Hint); [apply elem_of_cons; by left|].
  specialize (IH Hinv' Hparse').
  case_bool_decide as Hcid.
  - subst v0. rewrite Hint. destruct (decide (str n = str user_id)) as [Heq|Hne].
    + apply str_inj in Heq. subst. done.
    + split.
      * intros [= ->]. done.
      * intros Hget. exfalso. apply Hv. apply get_Some_elem in Hget.
        apply list_elem_of_fmap. by exists (str user_id, channel_id).
  - destruct (decide (str n = str user_id)) as [Heq|Hne].
    + split.
      * intros Hfind. apply IH in Hfind. exfalso. apply Hk.
        apply get_Some_elem in Hfind. rewrite Heq.
        apply list_elem_of_fmap. by exists (str user_id, channel_id).
      * intros [= ->]. done.
    + done.
Qed.

(** X10. On an owner map as the cog writes it (a dictionary with one entry
    per channel at most, keyed by [str(user_id)]), the loop of the ownership
    check finds a user as the owner of a channel exactly when the map sends
    that user to the channel. *)
Theorem recorded_owner_is_map_owner (py : PyBuiltins)
    (owners : list (string * Z)) (channel_id user_id : Z) :
  owners_inv owners → keys_parse py owners →
  find_owner_id py owners channel_id = Some user_id ↔
  PyDict.get owners (str user_id) = Some channel_id.
Proof. apply recorded_owner_agrees. Qed.

Lemma config9_owners_inv : owners_inv (owner_channels (config cog9)).
Proof. split; apply NoDup_singleton. Defined.

Lemma config9_keys_parse : keys_parse plain_builtins (owner_channels (config cog9)).
Proof.
  intros k v Hin. apply list_elem_of_singleton in Hin. injection Hin as -> ->.
  exists 42. split; vm_compute; reflexivity.
Defined.

Lemma recorded_owner_is_map_owner_witness :
  owners_inv (owner_channels (config cog9)) ∧
  keys_parse plain_builtins (owner_channels (config cog9)) ∧
  find_owner_id plain_builtins (owner_channels (config cog9)) 100 = Some 42.
Proof.
  split; [exact config9_owners_inv|]. split; [exact config9_keys_parse|].
  apply (recorded_owner_is_map_owner plain_builtins _ 100 42
           config9_owners_inv config9_keys_parse).
  vm_compute. reflexivity.
Defined.

Lemma logged_nil s : logged [] s = s.
Proof. unfold logged. rewrite app_nil_r. by destruct s. Qed.

Lemma owned_temp_channel_cases py ctx sr s :
  ∃ r msgs,
    _get_owned_temp_channel_for_ctx py ctx sr s = (r, logged msgs s) ∧
    match r with
    | Ok (Some ch) => msgs = [] ∧ accepts py ctx s ch
    | _ => ((r = Ok None ∧ msgs = []) ∨
            (r = after_send sr None ∧ ∃ text, msgs = [Send text])) ∧
           ∀ ch, ¬ accepts py ctx s ch
    end.
Proof.
  assert (Hcase : ∀ (r : result (option Channel)) msgs,
    ((r = Ok None ∧ msgs = []) ∨
     (r = after_send sr None ∧ ∃ text, msgs = [Send text])) →
    (∀ ch, ¬ accepts py ctx s ch) →
    match r with
    | Ok (Some ch) => msgs = [] ∧ accepts py ctx s ch
    | _ => ((r = Ok None ∧ msgs = []) ∨
            (r = after_send sr None ∧ ∃ text, msgs = [Send text])) ∧
           ∀ ch, ¬ accepts py ctx s ch
    end).
  { intros r msgs Hr Hno. destruct r as [[ch|]|e]; [|done..].
    destruct Hr as [[[=] _]|[Hr _]]; by destruct sr. }
  unfold _get_owned_temp_channel_for_ctx, send. unfold_prog.
  destruct (ctx_guild ctx) as [guild|] eqn:Hguild.
  2:{ exists (Ok None), []. rewrite logged_nil. split; [done|].
      apply (Hcase (Ok None) []); [by left|].
      unfold accepts. rewrite Hguild. intros ch ([? ?] & _). done. }
  destruct (author_is_member ctx) eqn:Hmember; simpl.
  2:{ exists (Ok None), []. rewrite logged_nil. split; [done|].
      apply (Hcase (Ok None) []); [by left|].
      unfold accepts. rewrite Hmember. intros ch (_ & ? & _). done. }
  destruct (voice_channel_of_member (ctx_author ctx)) as [channel|] eqn:Hvoice;
    simpl.
  2:{ eexists (after_send sr None), [_]. split; [by destruct sr as [[]|]|].
      apply (Hcase (after_send sr None) [_]); [right; split; [done|by eexists]|].
      unfold accepts. rewrite Hvoice. intros ch (_ & _ & ? & _). done. }
  case_bool_decide as Htemp; simpl.
  { eexists (after_send sr None), [_]. split; [by destruct sr as [[]|]|].
    apply (Hcase (after_send sr None) [_]); [right; split; [done|by eexists]|].
    unfold accepts. rewrite Hvoice. intros ch (_ & _ & [= <-] & ? & _). done. }
  case_bool_decide as Hown; simpl.
  { eexists (after_send sr None), [_]. split; [by destruct sr as [[]|]|].
    apply (Hcase (after_send sr None) [_]); [right; split; [done|by eexists]|].
    unfold accepts. rewrite Hvoice. intros ch (_ & _ & [= <-] & _ & ?). done. }
  exists (Ok (Some channel)), []. rewrite logged_nil.
  unfold accepts. rewrite Hguild. split_and!; done.
Qed.

Lemma owned_temp_channel_accepted py ctx sr s ch :
  eval (_get_owned_temp_channel_for_ctx py ctx sr) s = Ok (Some ch) →
  _get_owned_temp_channel_for_ctx py ctx sr s = (Ok (Some ch), s) ∧
  accepts py ctx s ch.
Proof.
  unfold eval.
  destruct (owned_temp_channel_cases py ctx sr s) as (r & msgs & Hrun & Hr).
  rewrite Hrun. cbn [fst]. intros ->. destruct Hr as [-> Hacc].
  by rewrite logged_nil.
Qed.


(** ** Transfers, step by step *)

Lemma transfer_run py ctx new_owner edit_response sr ch s :
  eval (_get_owned_temp_channel_for_ctx py ctx sr) s = Ok (Some ch) →
  bot new_owner = false → same_channel (voice_channel new_owner) ch = true →
  let author := member_id (ctx_author ctx) in
  let v := normalise (counter (config s)) in
  let name := match str_format py (name_template (config s))
                      (render_kwargs py new_owner v) with
              | Ok n => n
              | Raise _ => fallback_name new_owner
              end in
  let ow0 := overwrites (channel_info ch) in
  let ow := PyDict.set (if PyDict.mem ow0 author then PyDict.pop ow0 author
                        else ow0) (member_id new_owner) owner_overwrite in
  let edit := EditChannel (channel_id ch) name ow in
  let counted := set_counter (Some (v + 1)) in
  let handed := λ c,
    set_owner_channels
      (PyDict.set (foldl PyDict.pop (owner_channels c)
                     (owners_of (owner_channels c) (channel_id ch)))
         (str (member_id new_owner)) (channel_id ch)) c in
  vch_owner_transfer py ctx new_owner edit_response sr s =
  match edit_response with
  | Ok _ =>
      (sr,
       logged [edit;
               Send ("Ownership of this temporary voice channel has been transferred to "
                     +:+ mention new_owner +:+ ".")]
         (with_config (handed ∘ counted) s))
  | Raise e =>
      if is_HTTPException e
      then (sr,
            logged [edit;
                    Send "Failed to update channel permissions or rename the channel."]
              (with_config counted s))
      else (Raise e, logged [edit] (with_config counted s))
  end.
Proof.
  intros Hcheck Hbot Hsame. cbn zeta.
  destruct (owned_temp_channel_accepted _ _ _ _ _ Hcheck) as [Hrun Hacc].
  unfold vch_owner_transfer. rewrite bind_run, Hrun.
  destruct Hacc as ([guild Hguild] & _). rewrite Hguild, Hbot, Hsame.
  cbn [negb]. unfold send. unfold_prog. simpl.
  rewrite render_of_format.
  destruct edit_response as [[]|e]; simpl.
  - unfold logged, with_config. simpl. by rewrite <- app_assoc.
  - destruct (is_HTTPException e); simpl.
    + unfold logged, with_config. destruct sr as [[]|e']; simpl;
        by rewrite <- app_assoc.
    + reflexivity.
Qed.

Lemma find_owner_after_set py (d : list (string * Z)) k c n :
  (∀ k', k' ≠ k → PyDict.get d k' ≠ Some c) → PyDict.wf d →
  py_int py k = Some n →
  find_owner_id py (PyDict.set d k c) c = Some n.
Proof.
  intros Hfree Hwf Hint. induction d as [|[k0 v0] d IH]; csimpl.
  - rewrite bool_decide_true by done. by rewrite Hint.
  - unfold PyDict.wf in Hwf. csimpl in Hwf. apply NoDup_cons in Hwf as [Hk0 Hnd].
    destruct (decide (k0 = k)) as [->|Hne]; csimpl.
    + rewrite bool_decide_true by done. by rewrite Hint.
    + rewrite bool_decide_false.
      * apply IH; [|done]. intros k' Hk' Hget.
        apply (Hfree k' Hk'). csimpl. rewrite decide_False; [done|].
        intros ->. apply Hk0. apply get_Some_elem in Hget.
        apply list_elem_of_fmap. by exists (k', c).
      * intros ->. apply (Hfree k0 Hne). csimpl. by rewrite decide_True.
Qed.

(** X12. A transfer whose edit the platform accepts: the channel is edited
    once, with the overwrite of the caller removed and the owner overwrite
    granted to the new owner; afterwards the owner map sends the new owner to
    the channel and nobody else, every other pairing with another channel is
    kept, and the tracked list, the registry and the tasks are as before.
    The command ends with the confirmation message: it returns when the
    platform delivers that message and raises the platform's exception when
    it does not, the settings being written in both cases. *)
Theorem transfer_moves_ownership (py : PyBuiltins) (s : Cog) (ctx : Ctx)
    (new_owner : Member) (ch : Channel) (send_response : result unit) :
  eval (_get_owned_temp_channel_for_ctx py ctx send_response) s = Ok (Some ch) →
  bot new_owner = false → same_channel (voice_channel new_owner) ch = true →
  PyDict.wf (owner_channels (config s)) →
  PyDict.wf (overwrites (channel_info ch)) →
  let s' := exec (vch_owner_transfer py ctx new_owner (Ok tt) send_response) s in
  let o := owner_channels (config s) in
  let o' := owner_channels (config s') in
  let k := str (member_id new_owner) in
  eval (vch_owner_transfer py ctx new_owner (Ok tt) send_response) s
  = send_response ∧
  PyDict.get o' k = Some (channel_id ch) ∧
  (∀ k', k' ≠ k → PyDict.get o' k' ≠ Some (channel_id ch)) ∧
  (∀ k' c, k' ≠ k → c ≠ channel_id ch →
           PyDict.get o' k' = Some c ↔ PyDict.get o k' = Some c) ∧
  (∃ name ow text,
     calls s' = calls s ++ [EditChannel (channel_id ch) name ow; Send text] ∧
     PyDict.get ow (member_id new_owner) = Some owner_overwrite ∧
     (member_id (ctx_author ctx) ≠ member_id new_owner →
      PyDict.get ow (member_id (ctx_author ctx)) = None) ∧
     (∀ m, m ≠ member_id new_owner → m ≠ member_id (ctx_author ctx) →
           PyDict.get ow m = PyDict.get (overwrites (channel_info ch)) m)) ∧
  temp_channels (config s') = temp_channels (config s) ∧
  _delete_tasks s' = _delete_tasks s ∧ tasks s' = tasks s.
Proof.
  intros Hcheck Hbot Hsame Hwf Hwfo. cbn zeta. unfold exec, eval.
  rewrite (transfer_run _ _ _ _ _ _ _ Hcheck Hbot Hsame). cbn [fst snd].
  unfold logged, with_config. cbn [config calls _delete_tasks tasks compose].
  cbn [owner_channels set_owner_channels set_counter temp_channels].
  rewrite (clear_owner_filter _ _ Hwf).
  split_and!; try reflexivity.
  - apply get_set_eq.
  - intros k' Hne. rewrite get_set_ne by done. apply get_filter_ne.
  - intros k' c Hne Hc. rewrite get_set_ne by done. split.
    + intros Hget. apply get_Some_elem in Hget.
      apply list_elem_of_filter in Hget as [_ Hin]. by apply elem_get.
    + intros Hget. by apply get_filter_other.
  - eexists _, _, _. split; [reflexivity|]. split_and!.
    + apply get_set_eq.
    + intros Hne. rewrite get_set_ne by done. unfold PyDict.mem.
      case_bool_decide as Hmem.
      * by apply get_pop_eq.
      * destruct (PyDict.get _ _) eqn:Hget; [|done].
        exfalso. apply Hmem. by eexists.
    + intros m Hm Hm'. rewrite get_set_ne by done.
      destruct (PyDict.mem _ _); [|done]. by rewrite get_pop_ne.
Qed.

Lemma cog9_accepts_ann sr :
  eval (_get_owned_temp_channel_for_ctx plain_builtins ctx_ann sr) cog9
  = Ok (Some temp100).
Proof. vm_compute. reflexivity. Defined.

Lemma temp100_overwrites_wf : PyDict.wf (overwrites (channel_info temp100)).
Proof. vm_compute. repeat constructor; set_solver. Defined.

Lemma config9_owners_dict : PyDict.wf (owner_channels (config cog9)).
Proof. apply NoDup_singleton. Defined.

Lemma transfer_moves_ownership_witness :
  PyDict.get
    (owner_channels
       (config (exec (vch_owner_transfer plain_builtins ctx_ann bob (Ok tt)
                        (Raise Forbidden)) cog9)))
    "43" = Some 100.
Proof.
  exact (proj1 (proj2 (transfer_moves_ownership plain_builtins cog9 ctx_ann bob
                         temp100 (Raise Forbidden)
                         (cog9_accepts_ann (Raise Forbidden)) eq_refl eq_refl
                         config9_owners_dict temp100_overwrites_wf))).
Defined.





Lemma owned_temp_channel_iff py ctx sr s ch :
  eval (_get_owned_temp_channel_for_ctx py ctx sr) s = Ok (Some ch) ↔
  accepts py ctx s ch.
Proof.
  split; [intros H; by apply (owned_temp_channel_accepted _ _ sr)|].
  intros Hacc. unfold eval.
  destruct (owned_temp_channel_cases py ctx sr s) as (r & msgs & Hrun & Hr).
  rewrite Hrun. cbn [fst]. destruct r as [[ch0|]|e].
  - destruct Hr as [_ Hacc0]. destruct Hacc as (_ & _ & H1 & _).
    destruct Hacc0 as (_ & _ & H2 & _). congruence.
  - destruct Hr as [_ Hno]. by destruct (Hno ch).
  - destruct Hr as [_ Hno]. by destruct (Hno ch).
Qed.

(** X15. After a transfer whose edit the platform accepted, the owner
    commands answer to the new owner and to nobody else: of the members
    sitting in the channel, the ownership check accepts exactly the new
    owner, whatever the platform answers to the messages of the two
    commands. *)
Theorem transfer_hands_over_commands (py : PyBuiltins) (s : Cog) (ctx : Ctx)
    (new_owner : Member) (ch : Channel) (ctx' : Ctx) (ch' : Channel)
    (send_response send_response' : result unit) :
  eval (_get_owned_temp_channel_for_ctx py ctx send_response) s = Ok (Some ch) →
  bot new_owner = false → same_channel (voice_channel new_owner) ch = true →
  PyDict.wf (owner_channels (config s)) →
  py_int py (str (member_id new_owner)) = Some (member_id new_owner) →
  is_Some (ctx_guild ctx') → author_is_member ctx' = true →
  voice_channel_of_member (ctx_author ctx') = Some ch' →
  channel_id ch' = channel_id ch →
  let s' := exec (vch_owner_transfer py ctx new_owner (Ok tt) send_response) s in
  eval (_get_owned_temp_channel_for_ctx py ctx' send_response') s'
  = Ok (Some ch') ↔
  member_id (ctx_author ctx') = member_id new_owner.
Proof.
  intros Hcheck Hbot Hsame Hwf Hint Hguild Hmember Hvoice Hid. cbn zeta.
  rewrite owned_temp_channel_iff. unfold exec.
  rewrite (transfer_run _ _ _ _ _ _ _ Hcheck Hbot Hsame). cbn [snd].
  apply owned_temp_channel_iff in Hcheck. destruct Hcheck as (_ & _ & _ & Htemp & _).
  unfold accepts, logged, with_config.
  cbn [config compose owner_channels set_owner_channels set_counter temp_channels].
  rewrite Hid.
  rewrite (find_owner_after_set py _ _ _ (member_id new_owner)); cycle 1.
  - intros k' _. rewrite (clear_owner_filter _ _ Hwf). apply get_filter_ne.
  - by apply wf_foldl_pop.
  - done.
  - split.
    + intros (_ & _ & _ & _ & [= ->]). done.
    + intros ->. done.
Qed.

Lemma transfer_hands_over_commands_witness :
  eval (_get_owned_temp_channel_for_ctx plain_builtins
          {| ctx_guild := Some (guild9 true true); ctx_author := bob;
             author_is_member := true |} (Ok tt))
       (exec (vch_owner_transfer plain_builtins ctx_ann bob (Ok tt)
                (Raise Forbidden)) cog9)
  = Ok (Some temp100).
Proof.
  refine (proj2 (transfer_hands_over_commands plain_builtins cog9 ctx_ann bob
                   temp100 {| ctx_guild := Some (guild9 true true);
                              ctx_author := bob; author_is_member := true |}
                   temp100 (Raise Forbidden) (Ok tt)
                   (cog9_accepts_ann (Raise Forbidden)) eq_refl eq_refl
                   config9_owners_dict
                   eq_refl _ eq_refl eq_refl eq_refl) eq_refl).
  by eexists.
Defined.

(** ** Owned channels are tracked *)


Section owned_tracked_or.
Context (E : Z → Prop).






End owned_tracked_or.





















(** The owner of channel 100 leaves it; the task that reclaims the channel
    has untracked it when the owner joins the lobby and is moved back, which
    cancels the task: the owner entry stays, and the channel it names is no
    longer tracked. *)
Example cancelled_reclaim_leaves_owner_entry :
  let s' := run plain_builtins
    [VoiceStateUpdate (Some (guild9 true true)) ann (Some temp100_empty) None
       (Ok 101) (Ok tt);
     ResumeTask 0 (temp_info []) (Ok tt);
     ResumeTask 0 (temp_info []) (Ok tt);
     ResumeTask 0 (temp_info []) (Ok tt);
     VoiceStateUpdate (Some (guild9 true true)) ann None (Some lobby)
       (Ok 101) (Ok tt);
     ResumeTask 0 (temp_info []) (Ok tt)] cog9 in
  owner_channels (config s') = [("42", 100)]%string ∧
  temp_channels (config s') = [] ∧
  calls s' = [DeleteChannel 100; MoveTo 42 100] ∧
  tasks s' = [{| task_channel := 100; task_phase_of := Done WasCancelled;
                 must_cancel := true |}].
Proof. vm_compute. done. Qed.

(** ** Commands, step by step *)

Lemma cmd_bind_run {A B} (p : cmd A) (f : A → cmd B) w :
  (p ≫= f) w = match p w with
               | (Ok a, w') => f a w'
               | (Raise e, w') => (Raise e, w')
               end.
Proof. reflexivity. Qed.

Lemma on_cog_logged {A} (p : prog A) w r c' msgs :
  p (cog w) = (r, c') → calls c' = calls (cog w) ++ msgs →
  on_cog p w = (r, {| cog := c'; files := files w;
                      requests := requests w ++ (Platform <$> msgs) |}).
Proof.
  intros Hp Hcalls. unfold on_cog. rewrite Hp, Hcalls.
  by rewrite drop_app_length.
Qed.

Lemma on_cog_gets {A} (f : Cog → A) w : on_cog (gets f) w = (Ok (f (cog w)), w).
Proof.
  rewrite (on_cog_logged _ _ (Ok (f (cog w))) (cog w) []);
    [|done|by rewrite app_nil_r].
  csimpl. rewrite app_nil_r. by destruct w.
Qed.

Lemma on_cog_modify_config f w :
  on_cog (modify (with_config f)) w
  = (Ok tt, {| cog := with_config f (cog w); files := files w;
               requests := requests w |}).
Proof.
  rewrite (on_cog_logged _ _ (Ok tt) (with_config f (cog w)) []);
    [|done|by rewrite app_nil_r].
  csimpl. by rewrite app_nil_r.
Qed.

Lemma on_cog_send text sr w :
  on_cog (send text sr) w
  = (sr, {| cog := logged [Send text] (cog w); files := files w;
            requests := requests w ++ [Platform (Send text)] |}).
Proof. by rewrite (on_cog_logged _ _ sr (logged [Send text] (cog w)) [Send text]). Qed.

Lemma update_guild_json_run guild_id entries w :
  update_guild_json guild_id entries w =
  match dict_update (or_empty_dict (loaded w guild_id)) entries with
  | Ok d => (Ok tt, {| cog := cog w;
                       files := <[guild_id := Parsed (JDict d)]> (files w);
                       requests := requests w |})
  | Raise e => (Raise e, w)
  end.
Proof.
  unfold update_guild_json, loaded, cmd_eval, _read_guild_json.
  rewrite cmd_bind_run. cbn [fst]. rewrite cmd_bind_run. unfold cmd_lift.
  by destruct (dict_update _ _).
Qed.

Ltac cmd_step :=
  rewrite cmd_bind_run;
  first [ rewrite on_cog_gets | rewrite on_cog_modify_config
        | rewrite on_cog_send | rewrite update_guild_json_run ];
  cbv beta iota.

Lemma vch_set_creator_run ctx creator_room sr guild w :
  admin_guild ctx = Some guild →
  ∃ msg,
    vch_set_creator ctx creator_room sr w =
    outcome_of_store (admin_guild_id ctx)
      (set_creation_channel_id (Some (channel_id creator_room)) (config (cog w)))
      msg sr false w.
Proof.
  intros Hg. eexists. unfold vch_set_creator. rewrite Hg.
  unfold set_creation_channel, get_name_template, get_delete_delay,
    get_temp_category.
  cbv zeta. repeat cmd_step.
  unfold outcome_of_store, loaded, cmd_eval, _read_guild_json. cbn [fst files cog].
  destruct (dict_update _ _); [|reflexivity].
  cbv beta iota. rewrite on_cog_send. reflexivity.
Qed.

Lemma vch_set_delay_run ctx seconds sr guild w :
  admin_guild ctx = Some guild →
  ∃ msg,
    vch_set_delay ctx seconds sr w =
    outcome_of_store (admin_guild_id ctx)
      (set_delete_delay_field (if seconds <? 3 then 3 else seconds)
         (config (cog w)))
      msg sr false w.
Proof.
  intros Hg. eexists. unfold vch_set_delay. rewrite Hg.
  unfold set_delete_delay, get_creation_channel_id, get_name_template,
    get_temp_category.
  cbv zeta. repeat cmd_step.
  unfold outcome_of_store, loaded, cmd_eval, _read_guild_json. cbn [fst files cog].
  destruct (dict_update _ _); [|reflexivity].
  cbv beta iota. rewrite on_cog_send. reflexivity.
Qed.

Lemma vch_set_name_run py ctx template sr guild w :
  admin_guild ctx = Some guild →
  vch_set_name py ctx template sr w =
  match dry_run py template (admin_author ctx) with
  | Raise _ =>
      let msg := "Template is invalid. You can use `{user}`, `{id}`, `{tag}`, and `{counter}` placeholders."%string in
      (sr, {| cog := logged [Send msg] (cog w); files := files w;
              requests := requests w ++ [Platform (Send msg)] |})
  | Ok test_name =>
      outcome_of_store (admin_guild_id ctx)
        (set_name_template_field template (config (cog w)))
        ("Name template updated." +:+ nl +:+
         "Example with you: `" +:+ test_name +:+ "`") sr false w
  end.
Proof.
  intros Hg. unfold vch_set_name. rewrite Hg.
  destruct (dry_run py template (admin_author ctx)) as [test_name|e].
  2:{ cbv zeta. by rewrite on_cog_send. }
  unfold set_name_template, get_creation_channel_id, get_delete_delay,
    get_temp_category.
  repeat cmd_step.
  unfold outcome_of_store, loaded, cmd_eval, _read_guild_json. cbn [fst files cog].
  destruct (dict_update _ _); [|reflexivity].
  cbv beta iota. rewrite on_cog_send. reflexivity.
Qed.

Lemma vch_set_category_run ctx category_arg sr guild w :
  admin_guild ctx = Some guild →
  ∃ msg,
    vch_set_category ctx category_arg sr w =
    outcome_of_store (admin_guild_id ctx)
      (set_temp_category_id
         (category_choice guild category_arg
            (creation_channel_id (config (cog w))))
         (config (cog w)))
      msg sr false w.
Proof.
  intros Hg. unfold vch_set_category. rewrite Hg.
  unfold set_temp_category, get_creation_channel_id, get_name_template,
    get_delete_delay.
  set (target := category_choice guild category_arg
                   (creation_channel_id (config (cog w)))).
  assert (Htarget :
    match category_arg with
    | Some cat => mret (Some (channel_id cat))
    | None =>
        creation_id ← on_cog (gets (creation_channel_id ∘ config));
        mret ((creation_id ≫= voice_channel_of guild)
                ≫= λ ch, category_id (channel_info ch))
    end w = (Ok target, w)).
  { unfold target, category_choice. destruct category_arg; [done|].
    by rewrite cmd_bind_run, on_cog_gets. }
  rewrite cmd_bind_run, Htarget. cbv beta iota.
  repeat cmd_step.
  unfold outcome_of_store, loaded, cmd_eval, _read_guild_json. cbn [fst files cog].
  destruct target as [t|].
  - eexists. destruct (dict_update _ _); [|reflexivity].
    cbv beta iota. rewrite on_cog_send. reflexivity.
  - eexists. destruct (dict_update _ _); [|reflexivity].
    cbv beta iota. rewrite on_cog_send. reflexivity.
Qed.

Lemma setupvch_run ctx creator_room delay category_arg template sr guild w :
  admin_guild ctx = Some guild →
  ∃ msg,
    setupvch ctx creator_room delay category_arg template sr w =
    outcome_of_store (admin_guild_id ctx)
      (set_temp_category_id
         (match category_arg with
          | Some cat => Some (channel_id cat)
          | None => category_id (channel_info creator_room)
          end)
         (set_delete_delay_field (if delay <? 3 then 3 else delay)
            (set_name_template_field template
               (set_creation_channel_id (Some (channel_id creator_room))
                  (config (cog w))))))
      msg sr true w.
Proof.
  intros Hg. eexists. unfold setupvch. rewrite Hg.
  unfold set_creation_channel, set_name_template, set_delete_delay,
    set_temp_category.
  cbv zeta. repeat cmd_step. rewrite cmd_bind_run.
  unfold _write_guild_json at 1. cbv beta iota. rewrite on_cog_send.
  reflexivity.
Qed.

Lemma vch_run ctx sr guild w :
  admin_guild ctx = Some guild →
  ∃ msg, vch ctx sr w =
         (sr, {| cog := logged [Send msg] (cog w); files := files w;
                 requests := requests w ++ [Platform (Send msg)] |}).
Proof.
  intros Hg. eexists. unfold vch. rewrite Hg.
  unfold get_creation_channel_id, get_name_template, get_delete_delay,
    get_temp_category.
  repeat cmd_step. rewrite cmd_bind_run. unfold _read_guild_json at 1.
  cbv beta iota zeta. rewrite on_cog_send. reflexivity.
Qed.

(** ** Owner commands: limit and invite *)

Lemma on_cog_check py ctx sr w :
  ∃ r msgs,
    on_cog (_get_owned_temp_channel_for_ctx py ctx sr) w
    = (r, {| cog := logged msgs (cog w); files := files w;
             requests := requests w ++ (Platform <$> msgs) |}) ∧
    eval (_get_owned_temp_channel_for_ctx py ctx sr) (cog w) = r ∧
    match r with
    | Ok (Some ch) => msgs = [] ∧ accepts py ctx (cog w) ch
    | _ => ((r = Ok None ∧ msgs = []) ∨
            (r = after_send sr None ∧ ∃ text, msgs = [Send text])) ∧
           ∀ ch, ¬ accepts py ctx (cog w) ch
    end.
Proof.
  destruct (owned_temp_channel_cases py ctx sr (cog w)) as (r & msgs & Hrun & Hr).
  exists r, msgs. split_and!; [|unfold eval; by rewrite Hrun|done].
  by apply on_cog_logged.
Qed.

Lemma world_logged_nil w :
  {| cog := logged [] (cog w); files := files w;
     requests := requests w ++ (Platform <$> []) |} = w.
Proof. rewrite logged_nil. csimpl. rewrite app_nil_r. by destruct w. Qed.




Lemma vch_owner_limit_quiet py ctx limit edit_response sr w :
  let w' := cmd_exec (vch_owner_limit py ctx limit edit_response sr) w in
  (∃ msgs, cog w' = logged msgs (cog w)) ∧ files w' = files w.
Proof.
  cbv zeta. unfold cmd_exec, vch_owner_limit.
  destruct (on_cog_check py ctx sr w) as (r & msgs & Hrun & Heval & Hr).
  rewrite cmd_bind_run, Hrun. destruct r as [[ch|]|e0].
  - destruct Hr as [-> _]. rewrite world_logged_nil.
    unfold cmd_try_catch, ask, mbind, cmd_bind, mret, cmd_ret.
    destruct edit_response as [[]|e]; cbv beta iota.
    + rewrite on_cog_send. split; [by eexists|done].
    + destruct (is_HTTPException e); cbv beta iota.
      * rewrite on_cog_send. destruct sr as [[]|e']; cbv beta iota;
          (split; [by eexists|done]).
      * split; [|done]. exists []. by rewrite logged_nil.
  - split; [by eexists|done].
  - split; [by eexists|done].
Qed.


Lemma vch_owner_invite_quiet py ctx public invite_response dm_response sr sr2 w :
  let w' := cmd_exec (vch_owner_invite py ctx public invite_response
                        dm_response sr sr2) w in
  (∃ msgs, cog w' = logged msgs (cog w)) ∧ files w' = files w.
Proof.
  cbv zeta. unfold cmd_exec, vch_owner_invite.
  destruct (on_cog_check py ctx sr w) as (r & msgs & Hrun & Heval & Hr).
  rewrite cmd_bind_run, Hrun. destruct r as [[ch|]|e0].
  - destruct Hr as [-> _]. rewrite world_logged_nil.
    assert (Hnil : ∃ msgs, cog w = logged msgs (cog w))
      by (exists []; by rewrite logged_nil).
    unfold cmd_try_catch, ask, mbind, cmd_bind, mret, cmd_ret.
    destruct invite_response as [url|e]; cbv beta iota.
    + destruct (default false public); cbv beta iota.
      * rewrite on_cog_send. split; [by eexists|done].
      * destruct dm_response as [[]|e]; cbv beta iota.
        -- rewrite on_cog_send. destruct sr as [[]|e']; cbv beta iota.
           ++ split; [by eexists|done].
           ++ destruct (is_Forbidden e'); cbv beta iota.
              ** rewrite on_cog_send. cbn [snd cog files].
                 split; [|done]. eexists [_; _]. unfold logged. cbn.
                 by rewrite <- app_assoc.
              ** split; [by eexists|done].
        -- destruct (is_Forbidden e); cbv beta iota.
           ++ rewrite on_cog_send. split; [by eexists|done].
           ++ done.
    + destruct (is_HTTPException e); cbv beta iota.
      * rewrite on_cog_send. destruct sr as [[]|e']; cbv beta iota;
          (split; [by eexists|done]).
      * done.
  - split; [by eexists|done].
  - split; [by eexists|done].
Qed.

(** ** Settings and lifecycle state are kept apart *)

Lemma handle_settings py e x :
  preserves (config_inv (λ c, settings c = x)) (handle py e).
Proof. preserves_config; intros ? Hx; exact Hx. Qed.

(** X19. The lifecycle never touches a setting: along every run of voice
    state updates, task resumptions and transfers, the lobby, the name
    template, the delete delay and the category are what they were. *)
Theorem events_keep_settings (py : PyBuiltins) (es : list event) (s : Cog) :
  settings (config (run py es s)) = settings (config s).
Proof.
  apply (run_preserves py (config_inv (λ c, settings c = settings (config s))));
    [intros e; apply handle_settings | reflexivity].
Qed.

Lemma logged_lifecycle msgs s : lifecycle_state (logged msgs s) = lifecycle_state s.
Proof. reflexivity. Qed.

Lemma dict_update_cases (j : Json) entries :
  (is_dict j = true ∧
   dict_update j entries
   = Ok (foldl (λ d e, PyDict.set d e.1 e.2) (entries_of j) entries)) ∨
  (is_dict j = false ∧ dict_update j entries = Raise AttributeError).
Proof. destruct j; simpl; auto. Qed.

Lemma outcome_of_store_cases guild_id g' msg sr overwrite w :
  let base := if overwrite : bool then JDict []
              else or_empty_dict (loaded w guild_id) in
  let d := foldl (λ d e, PyDict.set d e.1 e.2) (entries_of base)
             (db_entries guild_id (creation_channel_id g') (name_template g')
                (delete_delay g') (temp_category_id g')) in
  (is_dict base = true ∧
   outcome_of_store guild_id g' msg sr overwrite w =
   (sr,
    {| cog := logged [Send msg] (with_config (λ _, g') (cog w));
       files := <[guild_id := Parsed (JDict d)]> (files w);
       requests := requests w ++ [Platform (Send msg)] |})) ∨
  (is_dict base = false ∧ overwrite = false ∧
   outcome_of_store guild_id g' msg sr overwrite w =
   (Raise AttributeError,
    {| cog := with_config (λ _, g') (cog w); files := files w;
       requests := requests w |})).
Proof.
  cbv zeta. unfold outcome_of_store.
  destruct (dict_update_cases
              (if overwrite then JDict [] else or_empty_dict (loaded w guild_id))
              (db_entries guild_id (creation_channel_id g') (name_template g')
                 (delete_delay g') (temp_category_id g'))) as [[Hd ->]|[Hd ->]].
  - by left.
  - right. by destruct overwrite.
Qed.

(** What a configuration command does, in one of three shapes. *)
Lemma admin_summary py ctx c sr w :
  admin py ctx c sr w = (Ok tt, w) ∨
  (∃ msg,
     admin py ctx c sr w =
     (sr, {| cog := logged [Send msg] (cog w); files := files w;
             requests := requests w ++ [Platform (Send msg)] |})) ∨
  (∃ g' msg overwrite,
     admin py ctx c sr w
     = outcome_of_store (admin_guild_id ctx) g' msg sr overwrite w ∧
     temp_channels g' = temp_channels (config (cog w)) ∧
     owner_channels g' = owner_channels (config (cog w)) ∧
     counter g' = counter (config (cog w)) ∧
     (3 ≤ delete_delay (config (cog w)) → 3 ≤ delete_delay g')).
Proof.
  destruct (admin_guild ctx) as [guild|] eqn:Hg.
  2:{ left. destruct c; simpl;
        unfold setupvch, vch, vch_set_creator, vch_set_name, vch_set_delay,
          vch_set_category; by rewrite Hg. }
  right. destruct c as [room delay cat tmpl| |room|tmpl|seconds|cat]; cbn [admin].
  - right. destruct (setupvch_run ctx room delay cat tmpl sr guild w Hg) as [msg ->].
    eexists _, msg, true. split_and!; try reflexivity.
    intros _. simpl. destruct (Z.ltb_spec delay 3); lia.
  - left. by apply (vch_run ctx sr guild).
  - right. destruct (vch_set_creator_run ctx room sr guild w Hg) as [msg ->].
    eexists _, msg, false. split_and!; try reflexivity. done.
  - rewrite (vch_set_name_run py ctx tmpl sr guild w Hg).
    destruct (dry_run py tmpl (admin_author ctx)) as [test_name|e].
    + right. eexists _, _, false. split_and!; try reflexivity. done.
    + left. by eexists.
  - right. destruct (vch_set_delay_run ctx seconds sr guild w Hg) as [msg ->].
    eexists _, msg, false. split_and!; try reflexivity.
    intros _. simpl. destruct (Z.ltb_spec seconds 3); lia.
  - right. destruct (vch_set_category_run ctx cat sr guild w Hg) as [msg ->].
    eexists _, msg, false. split_and!; try reflexivity. done.
Qed.

Lemma admin_footprint py ctx c sr w :
  let w' := cmd_exec (admin py ctx c sr) w in
  lifecycle_state (cog w') = lifecycle_state (cog w) ∧
  (∀ g, g ≠ admin_guild_id ctx → files w' !! g = files w !! g) ∧
  (requests w' = requests w ∨
   ∃ text, requests w' = requests w ++ [Platform (Send text)]) ∧
  (3 ≤ delete_delay (config (cog w)) → 3 ≤ delete_delay (config (cog w'))).
Proof.
  cbv zeta. unfold cmd_exec.
  destruct (admin_summary py ctx c sr w)
    as [->|[[msg ->]|(g' & msg & ov & -> & Ht & Ho & Hc & Hd)]]; cbn [snd].
  - split_and!; try done. by left.
  - cbn [cog files requests]. split_and!; try done. right. by eexists.
  - destruct (outcome_of_store_cases (admin_guild_id ctx) g' msg sr ov w)
      as [[_ ->]|(_ & _ & ->)]; cbn [snd cog files requests].
    + split_and!.
      * unfold lifecycle_state. simpl. by rewrite Ht, Ho, Hc.
      * intros g Hne. by rewrite lookup_insert_ne.
      * right. by eexists.
      * done.
    + split_and!.
      * unfold lifecycle_state. simpl. by rewrite Ht, Ho, Hc.
      * done.
      * by left.
      * done.
Qed.

(** X20. A configuration command never touches what the lifecycle keeps
    (tracked channels, owners, counter, registry, tasks), leaves the files of
    the other guilds alone, and sends nothing to the platform but one message
    at most, whatever the platform answers to that message. *)
Theorem admin_commands_keep_lifecycle (py : PyBuiltins) (ctx : AdminCtx)
    (c : admin_command) (send_response : result unit) (w : World) :
  let w' := cmd_exec (admin py ctx c send_response) w in
  lifecycle_state (cog w') = lifecycle_state (cog w) ∧
  (∀ g, g ≠ admin_guild_id ctx → files w' !! g = files w !! g) ∧
  (requests w' = requests w ∨
   ∃ text, requests w' = requests w ++ [Platform (Send text)]).
Proof.
  cbv zeta.
  destruct (admin_footprint py ctx c send_response w) as (H1 & H2 & H3 & _).
  done.
Qed.

(** ** The JSON file mirrors the settings *)

Lemma admin_stored py ctx c :
  stores py ctx c = true →
  ∃ f : GuildConfig → GuildConfig,
    ∀ sr w, ∃ msg,
      admin py ctx c sr w
      = outcome_of_store (admin_guild_id ctx) (f (config (cog w))) msg sr
          (overwrites_file c) w.
Proof.
  unfold stores. destruct (admin_guild ctx) as [guild|] eqn:Hg; [|done].
  destruct c as [room delay cat tmpl| |room|tmpl|seconds|cat]; cbn [admin overwrites_file].
  - intros _.
    exists (λ g, set_temp_category_id
                   (match cat with
                    | Some cat => Some (channel_id cat)
                    | None => category_id (channel_info room)
                    end)
                   (set_delete_delay_field (if delay <? 3 then 3 else delay)
                      (set_name_template_field tmpl
                         (set_creation_channel_id (Some (channel_id room)) g)))).
    intros sr w. apply (setupvch_run ctx room delay cat tmpl sr guild w Hg).
  - done.
  - intros _. exists (set_creation_channel_id (Some (channel_id room))).
    intros sr w. apply (vch_set_creator_run ctx room sr guild w Hg).
  - intros Hdry. exists (set_name_template_field tmpl). intros sr w.
    rewrite (vch_set_name_run py ctx tmpl sr guild w Hg).
    destruct (dry_run py tmpl (admin_author ctx)) as [test_name|e]; [|done].
    eexists. reflexivity.
  - intros _.
    exists (set_delete_delay_field (if seconds <? 3 then 3 else seconds)).
    intros sr w. apply (vch_set_delay_run ctx seconds sr guild w Hg).
  - intros _.
    exists (λ g, set_temp_category_id
                   (category_choice guild cat (creation_channel_id g)) g).
    intros sr w. apply (vch_set_category_run ctx cat sr guild w Hg).
Qed.

Lemma entries_of_or_empty j : entries_of (or_empty_dict j) = entries_of j.
Proof.
  unfold or_empty_dict. destruct (truthy j) eqn:Ht; [done|].
  destruct j as [| | | | | |d]; try done. by destruct d.
Qed.

Lemma is_dict_or_empty j : is_dict (or_empty_dict j) = negb (foreign j).
Proof.
  unfold or_empty_dict, foreign. destruct (truthy j) eqn:Ht; [|done].
  simpl. by destruct (is_dict j).
Qed.

Lemma db_entries_mirror guild_id g (d0 : list (string * Json)) :
  let d := foldl (λ d e, PyDict.set d e.1 e.2) d0
             (db_entries guild_id (creation_channel_id g) (name_template g)
                (delete_delay g) (temp_category_id g)) in
  mirrors guild_id g d ∧
  ∀ k, k ∉ db_keys → PyDict.get d k = PyDict.get d0 k.
Proof.
  cbv zeta. unfold db_entries, mirrors. cbn [foldl fst snd]. split_and!.
  - rewrite !get_set_ne by done. apply get_set_eq.
  - rewrite !get_set_ne by done. apply get_set_eq.
  - rewrite !get_set_ne by done. apply get_set_eq.
  - rewrite !get_set_ne by done. apply get_set_eq.
  - apply get_set_eq.
  - intros k Hk. unfold db_keys in Hk.
    rewrite !not_elem_of_cons in Hk. destruct Hk as (H1 & H2 & H3 & H4 & H5 & _).
    by rewrite !get_set_ne by done.
Qed.

(** X21. After a configuration command that stores settings, the JSON file
    of the guild holds a dict whose five entries agree with the settings as
    they now are; every other key the file had is kept with its value, except
    by [setupvch], which starts the file afresh.  This needs the file, if
    there is one that [vch set...] reads, to hold a dict or something false.
    The command then ends with its message: it returns when the platform
    delivers the message and raises the platform's exception when it does
    not, the settings and the file being written in both cases. *)
Theorem admin_command_mirrors_settings (py : PyBuiltins) (ctx : AdminCtx)
    (c : admin_command) (send_response : result unit) (w : World) :
  stores py ctx c = true →
  (overwrites_file c = false → foreign (loaded w (admin_guild_id ctx)) = false) →
  let w' := cmd_exec (admin py ctx c send_response) w in
  let guild_id := admin_guild_id ctx in
  cmd_eval (admin py ctx c send_response) w = send_response ∧
  ∃ d, loaded w' guild_id = JDict d ∧
       mirrors guild_id (config (cog w')) d ∧
       ∀ k, k ∉ db_keys →
            PyDict.get d k =
            if overwrites_file c then None
            else PyDict.get (entries_of (loaded w guild_id)) k.
Proof.
  intros Hstores Hfile. cbv zeta. unfold cmd_exec, cmd_eval.
  destruct (admin_stored py ctx c Hstores) as [f Hf].
  destruct (Hf send_response w) as [msg ->].
  destruct (outcome_of_store_cases (admin_guild_id ctx) (f (config (cog w))) msg
              send_response (overwrites_file c) w) as [[_ ->]|(Hd & Hov & _)].
  - cbn [fst snd]. split; [done|]. eexists. split_and!.
    + unfold loaded, cmd_eval, _read_guild_json. cbn [fst files].
      by rewrite lookup_insert_eq.
    + apply db_entries_mirror.
    + intros k Hk. cbn [cog]. rewrite (proj2 (db_entries_mirror _ _ _) k Hk).
      destruct (overwrites_file c); [done|]. by rewrite entries_of_or_empty.
  - rewrite Hov, is_dict_or_empty, (Hfile Hov) in Hd. done.
Qed.

Lemma admin_command_mirrors_settings_witness :
  ∃ d, loaded (cmd_exec (admin plain_builtins admin9 (SetDelay 1)
                           (Raise HTTPException)) world9) 9
       = JDict d ∧
       PyDict.get d "delete_delay"%string = Some (JInt 3).
Proof.
  destruct (admin_command_mirrors_settings plain_builtins admin9 (SetDelay 1)
              (Raise HTTPException) world9 eq_refl (λ _, eq_refl))
    as (_ & d & Hd & Hm & _).
  exists d. split; [exact Hd|]. exact (proj1 (proj2 (proj2 (proj2 Hm)))).
Defined.

(** X22. When the file of the guild holds something true that is not a
    dict, a [vch set...] command that stores settings fails with an
    [AttributeError]: the settings have been stored all the same (they are
    those the command stores when there is no file), the file is left as it
    was, and nothing is said.  The same command with no file reaches its
    message and ends as the sending of that message does. *)
Theorem set_command_on_foreign_file (py : PyBuiltins) (ctx : AdminCtx)
    (c : admin_command) (send_response : result unit) (w : World) :
  stores py ctx c = true → overwrites_file c = false →
  foreign (loaded w (admin_guild_id ctx)) = true →
  let w' := cmd_exec (admin py ctx c send_response) w in
  cmd_eval (admin py ctx c send_response) w = Raise AttributeError ∧
  config (cog w')
  = config (cog (cmd_exec (admin py ctx c send_response) (without_files w))) ∧
  cmd_eval (admin py ctx c send_response) (without_files w) = send_response ∧
  files w' = files w ∧ requests w' = requests w.
Proof.
  intros Hstores Hov Hforeign. cbv zeta. unfold cmd_exec, cmd_eval.
  destruct (admin_stored py ctx c Hstores) as [f Hf].
  destruct (Hf send_response w) as [msg ->].
  destruct (Hf send_response (without_files w)) as [msg0 ->].
  rewrite Hov.
  destruct (outcome_of_store_cases (admin_guild_id ctx) (f (config (cog w))) msg
              send_response false w) as [[Hd _]|(_ & _ & ->)].
  { rewrite is_dict_or_empty, Hforeign in Hd. done. }
  destruct (outcome_of_store_cases (admin_guild_id ctx)
              (f (config (cog (without_files w)))) msg0 send_response false
              (without_files w))
    as [[_ ->]|(Hd & _)].
  - done.
  - rewrite is_dict_or_empty in Hd. unfold loaded, cmd_eval, _read_guild_json in Hd.
    cbn [fst files without_files] in Hd. by rewrite lookup_empty in Hd.
Qed.

Lemma set_command_on_foreign_file_witness :
  cmd_eval (admin plain_builtins admin9 (SetDelay 1) (Ok tt))
    {| cog := cog9; files := {[ 9 := Parsed (JList [JInt 1]) ]}; requests := [] |}
  = Raise AttributeError.
Proof.
  exact (proj1 (set_command_on_foreign_file plain_builtins admin9 (SetDelay 1)
                  (Ok tt)
                  {| cog := cog9; files := {[ 9 := Parsed (JList [JInt 1]) ]};
                     requests := [] |} eq_refl eq_refl eq_refl)).
Defined.

(** ** The delete delay *)

Lemma on_cog_cog {A} (p : prog A) w : cog (cmd_exec (on_cog p) w) = exec p (cog w).
Proof. unfold cmd_exec, on_cog, exec. by destruct (p (cog w)). Qed.

Lemma act_delay py a w :
  3 ≤ delete_delay (config (cog w)) →
  3 ≤ delete_delay (config (cog (cmd_exec (act py a) w))).
Proof.
  intros H.
  destruct a as [ctx c sr|e|sr|ctx limit r sr|ctx public ir dr sr sr2];
    cbn [act].
  - by apply admin_footprint.
  - rewrite on_cog_cog.
    pose proof (handle_settings py e (settings (config (cog w))) (cog w) eq_refl) as Hs.
    unfold config_inv, settings, exec in *. by injection Hs as _ _ -> _.
  - unfold vch_owner_group, cmd_exec. by rewrite on_cog_send.
  - destruct (vch_owner_limit_quiet py ctx limit r sr w) as [[msgs ->] _]. done.
  - destruct (vch_owner_invite_quiet py ctx public ir dr sr sr2 w)
      as [[msgs ->] _]. done.
Qed.

(** X23. A stored delete delay of at least 3 seconds stays at least 3
    seconds whatever happens: configuration commands (which raise a smaller
    value to 3), events of the lifecycle and owner commands, in any order and
    with any answers of the platform. *)
Theorem delete_delay_stays_at_least_three (py : PyBuiltins)
    (acts : list action) (w : World) :
  3 ≤ delete_delay (config (cog w)) →
  3 ≤ delete_delay (config (cog (play py acts w))).
Proof.
  revert w. unfold play.
  induction acts as [|a acts IH]; intros w H; simpl; [done|].
  apply IH. by apply act_delay.
Qed.

Lemma delete_delay_stays_at_least_three_witness :
  3 ≤ delete_delay
        (config (cog (play plain_builtins
                        [Admin admin9 (SetDelay (-5)) (Ok tt);
                         Lifecycle (OwnerTransfer ctx_ann bob (Ok tt)
                                      (Raise Forbidden));
                         OwnerLimit ctx_ann 120 (Ok tt) (Ok tt)]
                        world9))).
Proof.
  apply (delete_delay_stays_at_least_three plain_builtins _ world9).
  simpl. lia.
Defined.

(** ** Validating a name template *)

Lemma scan_literal_no_brace s :
  no_brace s = true → scan_literal s = (s, None).
Proof.
  induction s as [|a s IH]; simpl; [done|].
  intros H. apply andb_true_iff in H as [Ha Hs]. apply negb_true_iff in Ha.
  by rewrite Ha, IH.
Qed.

Lemma append_empty s : s +:+ EmptyString = s.
Proof.
  induction s as [|a s IH]; [done|].
  change (String a (s +:+ EmptyString) = String a s). by rewrite IH.
Qed.

Lemma format_no_brace py s kwargs :
  no_brace s = true → str_format py s kwargs = Ok s.
Proof.
  intros H. unfold str_format, build_string.
  destruct (decide (s = EmptyString)) as [->|Hne]; [done|].
  rewrite do_markup_step by done. unfold MarkupIterator_next.
  rewrite scan_literal_no_brace by done. cbn [result_bind].
  cbn [String.length do_markup result_map].
  change (EmptyString +:+ EmptyString) with EmptyString.
  by rewrite append_empty.
Qed.

Lemma format_unknown_placeholder py member counter pre name post :
  no_brace pre = true → plain_name name = true → name ∉ placeholders →
  ∃ e, str_format py (pre +:+ String "{" (name +:+ String "}" post))
         (render_kwargs py member counter) = Raise e.
Proof.
  intros Hpre Hname Hnin. unfold str_format, build_string.
  rewrite do_markup_step by apply append_nonempty.
  rewrite MarkupIterator_next_field by done.
  destruct (get_field_object_unknown py member counter name Hname Hnin) as [e He].
  cbn [result_bind]. unfold output_markup. cbn [field_name].
  rewrite He. by eexists.
Qed.

(** X24. [vch_set_name] accepts a template exactly when formatting it for
    the caller with counter 1 succeeds, that is, when the renderer would not
    fall back to the default name for the caller.  A rejected template
    changes neither the settings nor the file and is answered by the error
    message, the command ending as the sending of that message does.  An
    accepted one becomes the name template; unless the file of the guild
    holds something true that is not a dict, the command then shows the name
    the renderer gives the caller and ends as the sending of that message
    does, and a command that returns has shown that name.  Text without
    braces is accepted; a placeholder that is none of the four is
    rejected. *)
Theorem set_name_validates_by_dry_run (py : PyBuiltins) (ctx : AdminCtx)
    (template : string) (send_response : result unit) (w : World) :
  is_Some (admin_guild ctx) →
  let author := admin_author ctx in
  let w' := cmd_exec (vch_set_name py ctx template send_response) w in
  let r := cmd_eval (vch_set_name py ctx template send_response) w in
  match str_format py template (render_kwargs py author 1) with
  | Raise _ =>
      r = send_response ∧
      config (cog w') = config (cog w) ∧ files w' = files w ∧
      requests w' = requests w ++
        [Platform (Send "Template is invalid. You can use `{user}`, `{id}`, `{tag}`, and `{counter}` placeholders.")]
  | Ok name =>
      let shown :=
        requests w' = requests w ++
          [Platform (Send ("Name template updated." +:+ nl +:+
                           "Example with you: `" +:+ name +:+ "`"))] in
      name_template (config (cog w')) = template ∧
      _render_channel_name py template author 1 = Ok name ∧
      (r = Ok tt → shown) ∧
      (foreign (loaded w (admin_guild_id ctx)) = false →
       r = send_response ∧ shown)
  end ∧
  (no_brace template = true → name_template (config (cog w')) = template) ∧
  (∀ pre name post,
     no_brace pre = true → plain_name name = true → name ∉ placeholders →
     template = pre +:+ String "{" (name +:+ String "}" post) →
     config (cog w') = config (cog w)).
Proof.
  intros [guild Hg]. cbv zeta. unfold cmd_exec, cmd_eval.
  rewrite (vch_set_name_run py ctx template send_response guild w Hg).
  unfold dry_run. fold (render_kwargs py (admin_author ctx) 1).
  assert (Hstore : ∀ name msg,
    let o := outcome_of_store (admin_guild_id ctx)
               (set_name_template_field template (config (cog w))) msg
               send_response false w in
    name_template (config (cog o.2)) = template ∧
    (o.1 = Ok tt → requests o.2 = requests w ++ [Platform (Send msg)]) ∧
    (foreign (loaded w (admin_guild_id ctx)) = false →
     o.1 = send_response ∧
     requests o.2 = requests w ++ [Platform (Send msg)]) ∧
    (str_format py template (render_kwargs py (admin_author ctx) 1) = Ok name →
     _render_channel_name py template (admin_author ctx) 1 = Ok name)).
  { intros name msg. cbv zeta.
    destruct (outcome_of_store_cases (admin_guild_id ctx)
                (set_name_template_field template (config (cog w))) msg
                send_response false w)
      as [[_ ->]|(Hd & _ & ->)]; cbn [fst snd cog requests logged config with_config].
    - split_and!; [done..|]. intros Hf. by rewrite render_of_format, Hf.
    - split_and!; [done|done| |].
      + intros Hfor. rewrite is_dict_or_empty, Hfor in Hd. done.
      + intros Hf. by rewrite render_of_format, Hf. }
  split_and!.
  - destruct (str_format py template _) as [name|e] eqn:Hf; [|done].
    destruct (Hstore name ("Name template updated." +:+ nl +:+
                           "Example with you: `" +:+ name +:+ "`")%string)
      as (H1 & H2 & H3 & H4).
    split_and!; [exact H1 | by apply H4 | exact H2 | exact H3].
  - intros Hnb. rewrite format_no_brace by done. by apply (Hstore template).
  - intros pre name post Hpre Hname Hnin ->.
    destruct (format_unknown_placeholder py (admin_author ctx) 1 pre name post
                Hpre Hname Hnin) as [e ->]. done.
Qed.

Lemma set_name_validates_by_dry_run_witness :
  config (cog (cmd_exec (vch_set_name plain_builtins admin9 "{nobody}"
                           (Raise HTTPException)) world9))
  = config (cog world9).
Proof.
  refine (proj2 (proj2 (set_name_validates_by_dry_run plain_builtins admin9
                          "{nobody}" (Raise HTTPException) world9 _))
            EmptyString "nobody"%string EmptyString eq_refl eq_refl _ eq_refl).
  - by eexists.
  - unfold placeholders. rewrite !not_elem_of_cons. split_and!; try done.
    apply not_elem_of_nil.
Defined.

(** ** Where new channels go *)

(** X25. [vch_set_category] stores the category given or, without one, the
    category the lobby has at that moment (none when no lobby is set, when it
    is not a voice channel of the guild, or when it has no category).  The
    next channel created for a member is placed in the stored category as
    long as it is a category of the guild, whatever category the lobby has
    by then; with no stored category, or one that is gone, it is placed in
    the category of the lobby the member joined, as the guild cache resolves
    it: in none when the cache does not hold that category. *)
Theorem set_category_places_new_channels (py : PyBuiltins) (ctx : AdminCtx)
    (category_arg : option Channel) (guild : Guild) (w : World)
    (guild' : Guild) (member : Member) (base : Channel)
    (create_response : result Z) (move_response send_response : result unit) :
  admin_guild ctx = Some guild →
  PyDict.get (owner_channels (config (cog w))) (str (member_id member))
    ≫= voice_channel_of guild' = None →
  me_manage_channels guild' = true → me_move_members guild' = true →
  let s' := cog (cmd_exec (vch_set_category ctx category_arg send_response) w) in
  let s'' := exec (_handle_creation_join py guild' member base
                     create_response move_response) s' in
  let target := category_choice guild category_arg
                  (creation_channel_id (config (cog w))) in
  let of_lobby := channel_id <$> channel_category guild' base in
  temp_category_id (config s') = target ∧
  (∀ c, of_lobby = Some c ↔
        category_id (channel_info base) = Some c ∧
        is_Some (guild_channels guild' !! c)) ∧
  ∃ name placed ow rest,
    calls s'' = calls s' ++ CreateVoiceChannel name placed ow :: rest ∧
    placed = match target with
             | Some c => if is_category (get_channel guild' c) then Some c
                         else of_lobby
             | None => of_lobby
             end.
Proof.
  intros Hg Hnone Hman Hmov. cbv zeta.
  set (target := category_choice guild category_arg
                   (creation_channel_id (config (cog w)))).
  assert (Hs' : ∃ msgs,
    cog (cmd_exec (vch_set_category ctx category_arg send_response) w)
    = logged msgs (with_config (set_temp_category_id target) (cog w))).
  { unfold cmd_exec.
    destruct (vch_set_category_run ctx category_arg send_response guild w Hg)
      as [msg ->].
    fold target.
    destruct (outcome_of_store_cases (admin_guild_id ctx)
                (set_temp_category_id target (config (cog w))) msg
                send_response false w)
      as [[_ ->]|(_ & _ & ->)]; cbn [snd cog].
    - by eexists.
    - exists []. by rewrite logged_nil. }
  destruct Hs' as [msgs ->]. split; [done|].
  split; [intros c; apply channel_category_id|].
  unfold exec. rewrite handle_creation_join_create by done.
  cbn [logged with_config config temp_category_id set_temp_category_id calls].
  assert (Hplaced :
    channel_id <$>
      match target ≫= category_channel_of guild' with
      | Some cat_obj => Some cat_obj
      | None => channel_category guild' base
      end
    = match target with
      | Some c => if is_category (get_channel guild' c) then Some c
                  else channel_id <$> channel_category guild' base
      | None => channel_id <$> channel_category guild' base
      end).
  { destruct target as [c|]; [|done]. cbn [mbind option_bind].
    destruct (category_channel_of guild' c) as [cat_obj|] eqn:Hcat.
    - cbn [fmap option_fmap option_map].
      rewrite (category_channel_of_id _ _ _ Hcat).
      destruct (is_category (get_channel guild' c)) eqn:Hc; [done|].
      apply category_channel_of_is in Hc. congruence.
    - apply category_channel_of_is in Hcat. by rewrite Hcat. }
  rewrite Hplaced.
  destruct create_response as [new|e]; cbn [snd calls].
  - eexists _, _, _, [_]. split; [|reflexivity]. by rewrite <- app_assoc.
  - eexists _, _, _, []. split; reflexivity.
Qed.

Lemma set_category_places_new_channels_witness :
  temp_category_id
    (config (cog (cmd_exec (vch_set_category admin9 None (Ok tt)) world9)))
  = Some 2.
Proof.
  exact (proj1 (set_category_places_new_channels plain_builtins admin9 None
                  (guild9 true true) world9 (guild9 true true) carl lobby
                  (Ok 101) (Ok tt) (Ok tt) eq_refl eq_refl eq_refl eq_refl)).
Defined.

(** ** The life of a temporary channel *)

Lemma join_from_nowhere_run py guild member base new mr s :
  bot member = false →
  creation_channel_id (config s) = Some (channel_id base) →
  channel_id base ∉ temp_channels (config s) →
  PyDict.get (owner_channels (config s)) (str (member_id member)) = None →
  me_manage_channels guild = true → me_move_members guild = true →
  ∃ name cat ow,
    exec (on_voice_state_update py (Some guild) member None (Some base)
            (Ok new) mr) s =
    let c1 := set_counter (Some (normalise (counter (config s)) + 1))
                (set_owner_channels
                   (PyDict.pop (owner_channels (config s))
                      (str (member_id member))) (config s)) in
    {| config :=
         set_owner_channels
           (PyDict.set (owner_channels c1) (str (member_id member)) new)
           (set_temp_channels
              (if bool_decide (new ∉ temp_channels c1)
               then temp_channels c1 ++ [new] else temp_channels c1) c1);
       _delete_tasks := _delete_tasks s; tasks := tasks s;
       calls := (calls s ++ [CreateVoiceChannel name cat ow])
                ++ [MoveTo (member_id member) new] |}.
Proof.
  intros Hbot Hc Hbase Hown Hman Hmov. eexists _, _, _. unfold exec.
  rewrite (voice_update_run _ _ _ _ _ _ _ _ (channel_id base)) by done.
  cbv zeta. rewrite (bool_decide_eq_false_2 _ Hbase).
  rewrite bool_decide_eq_true_2 by done.
  rewrite handle_creation_join_create; [|by rewrite Hown|done|done].
  reflexivity.
Qed.

Lemma leave_empty_run py guild member ch cr mr creation s :
  bot member = false → creation_channel_id (config s) = Some creation →
  channel_id ch ∈ temp_channels (config s) → members (channel_info ch) = [] →
  _delete_tasks s !! channel_id ch = None →
  exec (on_voice_state_update py (Some guild) member (Some ch) None cr mr) s =
  {| config := config s;
     _delete_tasks := <[channel_id ch := length (tasks s)]> (_delete_tasks s);
     tasks := tasks s ++ [{| task_channel := channel_id ch;
                             task_phase_of := NotStarted;
                             must_cancel := false |}];
     calls := calls s |}.
Proof.
  intros Hbot Hc Hin Hemp Hreg. unfold exec.
  rewrite (voice_update_run _ _ _ _ _ _ _ _ creation) by done. cbv zeta.
  cbn [snd]. rewrite bool_decide_eq_true_2 by done. rewrite Hemp.
  cbn [length Nat.eqb andb]. unfold exec. by rewrite schedule_fresh.
Qed.

Lemma resume_fire_run h s t now r1 now2 r2 now3 r3 now4 r4 :
  tasks s !! h = Some t → task_phase_of t = Sleeping → must_cancel t = false →
  is_Some (channel_guild now) → members now = [] →
  r2 = Ok tt ∨ r2 = Raise NotFound →
  exec (resume_task h now4 r4)
    (exec (resume_task h now3 r3)
       (exec (resume_task h now2 r2) (exec (resume_task h now r1) s))) =
  {| config := reclaimed (task_channel t) (config s);
     _delete_tasks := delete (task_channel t) (_delete_tasks s);
     tasks := alter (set_phase (Done Returned)) h (tasks s);
     calls := calls s ++ [DeleteChannel (task_channel t)] |}.
Proof.
  intros Ht Hph Hmc Hg Hm Hr.
  exact (resume_all_fire h s t now r1 now2 r2 now3 r3 now4 r4
           Ht Hph Hmc Hg Hm Hr).
Qed.

Lemma resume_start_run h now r s t :
  tasks s !! h = Some t → task_phase_of t = NotStarted → must_cancel t = false →
  exec (resume_task h now r) s =
  with_tasks (alter (set_phase (match channel_guild now with
                                | Some _ => Sleeping
                                | None => Done Returned
                                end)) h) s.
Proof. intros Ht Hph Hmc. unfold exec. by rewrite (resume_not_started _ _ _ _ t). Qed.

Lemma list_remove_last x (l : list Z) : x ∉ l → list_remove x (l ++ [x]) = l.
Proof.
  induction l as [|y l IH]; simpl.
  - intros _. by rewrite decide_True.
  - rewrite not_elem_of_cons. intros [Hne Hnin].
    rewrite decide_False by done. by rewrite IH.
Qed.

Lemma set_absent {V} (d : list (string * V)) k v :
  PyDict.get d k = None → PyDict.set d k v = d ++ [(k, v)].
Proof.
  induction d as [|[k0 v0] d IH]; csimpl; [done|].
  destruct (decide (k0 = k)); [done|]. intros H. by rewrite IH.
Qed.

Lemma filter_values_absent (d : list (string * Z)) c :
  c ∉ d.*2 → filter (λ e, e.2 ≠ c) d = d.
Proof.
  induction d as [|[k0 v0] d IH]; csimpl; [done|].
  rewrite not_elem_of_cons. intros [Hne Hnin].
  rewrite filter_cons_True by (simpl; congruence). by rewrite IH.
Qed.

(** X26. The whole life of a temporary channel.  A member who owns nothing
    joins the lobby and a channel is created; the member leaves it empty and
    its deletion is scheduled; the task starts to sleep, wakes with the
    channel still empty and is resumed with the platform's answer and after
    each of its two writes.  Afterwards the tracked list, the owner map, the
    registry and the settings are what they were before the member came; the
    counter has advanced by one, one finished task has been added, and the
    platform has been asked to create the channel, to move the member and to
    delete the channel, in that order. *)
Theorem temporary_channel_round_trip (py : PyBuiltins) (s : Cog)
    (guild1 guild2 : Guild) (member : Member) (base ch : Channel) (new : Z)
    (move_response : result unit) (cr2 : result Z) (mr2 : result unit)
    (now3 now4 now5 now6 now7 : ChannelInfo)
    (r3 r4 delete_response r6 r7 : result unit) :
  bot member = false →
  creation_channel_id (config s) = Some (channel_id base) →
  channel_id base ∉ temp_channels (config s) →
  PyDict.get (owner_channels (config s)) (str (member_id member)) = None →
  me_manage_channels guild1 = true → me_move_members guild1 = true →
  new ∉ temp_channels (config s) → new ∉ (owner_channels (config s)).*2 →
  PyDict.wf (owner_channels (config s)) →
  _delete_tasks s !! new = None →
  channel_id ch = new → members (channel_info ch) = [] →
  is_Some (channel_guild now3) →
  is_Some (channel_guild now4) → members now4 = [] →
  delete_response = Ok tt ∨ delete_response = Raise NotFound →
  let h := length (tasks s) in
  let s' := run py
              [VoiceStateUpdate (Some guild1) member None (Some base)
                 (Ok new) move_response;
               VoiceStateUpdate (Some guild2) member (Some ch) None cr2 mr2;
               ResumeTask h now3 r3;
               ResumeTask h now4 r4;
               ResumeTask h now5 delete_response;
               ResumeTask h now6 r6;
               ResumeTask h now7 r7] s in
  temp_channels (config s') = temp_channels (config s) ∧
  owner_channels (config s') = owner_channels (config s) ∧
  settings (config s') = settings (config s) ∧
  counter (config s') = Some (normalise (counter (config s)) + 1) ∧
  _delete_tasks s' = _delete_tasks s ∧
  tasks s' = tasks s ++ [{| task_channel := new;
                            task_phase_of := Done Returned;
                            must_cancel := false |}] ∧
  ∃ name cat ow,
    calls s' = calls s ++ [CreateVoiceChannel name cat ow;
                           MoveTo (member_id member) new;
                           DeleteChannel new].
Proof.
  intros Hbot Hc Hbase Hown Hman Hmov Hnew Hval Hwf Hreg Hch Hemp Hg3 Hg4 Hm4 Hdr.
  cbv zeta. unfold run. cbn [foldl handle].
  destruct (join_from_nowhere_run py guild1 member base new move_response s
              Hbot Hc Hbase Hown Hman Hmov) as (name & cat & ow & ->).
  cbv zeta. rewrite pop_absent by (by apply get_None).
  cbn [temp_channels owner_channels set_counter set_owner_channels].
  rewrite bool_decide_eq_true_2 by done. rewrite set_absent by done.
  rewrite (leave_empty_run _ _ _ _ _ _ (channel_id base));
    [|done|done|rewrite Hch; cbn; apply elem_of_app; right;
             by apply list_elem_of_singleton|done|by rewrite Hch].
  cbn [config _delete_tasks tasks calls]. rewrite Hch.
  set (t0 := {| task_channel := new; task_phase_of := NotStarted;
                must_cancel := false |}).
  rewrite (resume_start_run _ now3 r3 _ t0);
    [|apply lookup_new_task|done|done].
  destruct Hg3 as [g3 ->].
  rewrite (resume_fire_run _ _ (set_phase Sleeping t0) now4 r4 now5
             delete_response now6 r6 now7 r7);
    [|cbn [with_tasks tasks]; by rewrite list_lookup_alter_eq, lookup_new_task
     |done|done|done|done|done].
  cbn [with_tasks config _delete_tasks tasks calls set_phase task_channel t0].
  unfold reclaimed.
  cbn [temp_channels owner_channels set_temp_channels set_owner_channels
       counter settings creation_channel_id name_template delete_delay
       temp_category_id].
  rewrite bool_decide_eq_true_2
    by (apply elem_of_app; right; by apply list_elem_of_singleton).
  rewrite list_remove_last by done.
  rewrite clear_owner_filter.
  2:{ unfold PyDict.wf. rewrite fmap_app. apply NoDup_app. split_and!.
      - done.
      - intros x Hx Hx'. apply list_elem_of_singleton in Hx'. subst x.
        by apply get_None in Hown.
      - apply NoDup_singleton. }
  rewrite filter_app, filter_values_absent by done.
  rewrite filter_cons_False by (simpl; tauto). rewrite filter_nil, app_nil_r.
  split_and!; try done.
  - by rewrite delete_insert_id.
  - rewrite list_alter_alter_eq.
    rewrite alter_app_r_alt by done. by rewrite Nat.sub_diag.
  - exists name, cat, ow. by rewrite <- !app_assoc.
Qed.

Lemma temporary_channel_round_trip_witness :
  temp_channels
    (config (run plain_builtins
               [VoiceStateUpdate (Some (guild9 true true)) carl None (Some lobby)
                  (Ok 101) (Ok tt);
                VoiceStateUpdate (Some (guild9 true true)) carl
                  (Some {| channel_id := 101; channel_info := temp_info [] |})
                  None (Ok 0) (Ok tt);
                ResumeTask (length (tasks cog9)) (temp_info []) (Ok tt);
                ResumeTask (length (tasks cog9)) (temp_info []) (Ok tt);
                ResumeTask (length (tasks cog9)) (temp_info []) (Ok tt);
                ResumeTask (length (tasks cog9)) (temp_info []) (Ok tt);
                ResumeTask (length (tasks cog9)) (temp_info []) (Ok tt)]
               cog9))
  = temp_channels (config cog9).
Proof.
  refine (proj1 (temporary_channel_round_trip plain_builtins cog9
                   (guild9 true true) (guild9 true true) carl lobby
                   {| channel_id := 101; channel_info := temp_info [] |} 101
                   (Ok tt) (Ok 0) (Ok tt) (temp_info []) (temp_info [])
                   (temp_info []) (temp_info []) (temp_info [])
                   (Ok tt) (Ok tt) (Ok tt) (Ok tt) (Ok tt)
                   eq_refl eq_refl _ eq_refl eq_refl eq_refl _ _ _ eq_refl
                   eq_refl eq_refl _ _ eq_refl (or_introl eq_refl))).
  - apply not_elem_of_cons. split; [done|apply not_elem_of_nil].
  - apply not_elem_of_cons. split; [done|apply not_elem_of_nil].
  - apply not_elem_of_cons. split; [done|apply not_elem_of_nil].
  - apply NoDup_singleton.
  - by eexists.
  - by eexists.
Defined.



(** ** Cancelled tasks *)

(** X28. A task that was cancelled in its sleep, or at one of the later
    suspensions of its [try] (the answer to the delete request, the two
    writes), once resumed ends as cancelled without any request and without
    touching the settings, and its [finally] clause removes the registry
    entry of its channel whichever task that entry names: a newer task
    scheduled for the same channel in the meantime stays alive but is no
    longer registered.  A task cancelled before it ever ran ends without
    touching the registry. *)
Theorem cancelled_task_drops_registry_entry (s : Cog) (h : nat) (t : Task)
    (now : ChannelInfo) (r : result unit) :
  tasks s !! h = Some t → done_ t = false → must_cancel t = true →
  let cid := task_channel t in
  let s' := exec (resume_task h now r) s in
  eval (resume_task h now r) s = Ok tt ∧
  config s' = config s ∧ calls s' = calls s ∧
  tasks s' = alter (set_phase (Done WasCancelled)) h (tasks s) ∧
  _delete_tasks s' = match task_phase_of t with
                     | NotStarted => _delete_tasks s
                     | _ => delete cid (_delete_tasks s)
                     end ∧
  (∀ h' t', task_phase_of t ≠ NotStarted →
            _delete_tasks s !! cid = Some h' → h' ≠ h →
            tasks s !! h' = Some t' →
            _delete_tasks s' !! cid = None ∧ tasks s' !! h' = Some t').
Proof.
  intros Ht Hdone Hmc. cbv zeta. unfold exec, eval, resume_task, done_ in *.
  unfold _delete_temp_channel_after_delay_cancelled,
    _delete_temp_channel_after_delay_finally. unfold_prog. simpl.
  rewrite Ht, Hmc.
  destruct (task_phase_of t) eqn:Hph; [| | | | |done]; simpl.
  - split_and!; try done.
  - split_and!; try done. intros h' t' _ Hreg Hne Ht'. split.
    + apply lookup_delete_eq.
    + by rewrite list_lookup_alter_ne.
  - split_and!; try done. intros h' t' _ Hreg Hne Ht'. split.
    + apply lookup_delete_eq.
    + by rewrite list_lookup_alter_ne.
  - split_and!; try done. intros h' t' _ Hreg Hne Ht'. split.
    + apply lookup_delete_eq.
    + by rewrite list_lookup_alter_ne.
  - split_and!; try done. intros h' t' _ Hreg Hne Ht'. split.
    + apply lookup_delete_eq.
    + by rewrite list_lookup_alter_ne.
Qed.

Lemma cancelled_task_drops_registry_entry_witness :
  let s1 := exec (_schedule_delete_temp_channel temp100_empty) cog9 in
  let s2 := exec (resume_task 0 (temp_info []) (Ok tt)) s1 in
  let s3 := exec (_cancel_delete_task 100) s2 in
  let s4 := exec (_schedule_delete_temp_channel temp100_empty) s3 in
  let s5 := exec (resume_task 0 (temp_info []) (Ok tt)) s4 in
  _delete_tasks s5 !! 100 = None ∧
  tasks s5 !! 1%nat = Some {| task_channel := 100; task_phase_of := NotStarted;
                              must_cancel := false |}.
Proof.
  cbv zeta.
  exact (proj2 (proj2 (proj2 (proj2 (proj2
    (cancelled_task_drops_registry_entry
       (exec (_schedule_delete_temp_channel temp100_empty)
          (exec (_cancel_delete_task 100)
             (exec (resume_task 0 (temp_info []) (Ok tt))
                (exec (_schedule_delete_temp_channel temp100_empty) cog9))))
       0 {| task_channel := 100; task_phase_of := Sleeping; must_cancel := true |}
       (temp_info []) (Ok tt) eq_refl eq_refl eq_refl)))))
    1%nat {| task_channel := 100; task_phase_of := NotStarted;
             must_cancel := false |}
    (λ H : Sleeping = NotStarted, eq_ind Sleeping
       (λ ph, match ph with Sleeping => True | _ => False end) I NotStarted H)
    eq_refl (λ H : 1%nat = 0%nat, O_S _ (eq_sym H)) eq_refl).
Defined.

(** ** The owner map and the ownership check along runs *)











(** ** A deletion the platform refuses *)

(** X30. When the platform refuses the deletion with an error other than
    [NotFound], the error ends the task and does not reach the event loop;
    the request has been sent, the channel is still tracked and owned as
    before, and its registry entry is gone, so that no task is registered
    for the channel any more.  The task is resumed twice: at the end of its
    sleep, when it sends the request, and with the platform's answer. *)
Theorem deletion_refused_keeps_channel (s : Cog) (h : nat) (t : Task)
    (now now2 : ChannelInfo) (r1 : result unit) (e : exn) :
  tasks s !! h = Some t → task_phase_of t = Sleeping → must_cancel t = false →
  is_Some (channel_guild now) → members now = [] → is_NotFound e = false →
  let cid := task_channel t in
  let s1 := exec (resume_task h now r1) s in
  let s' := exec (resume_task h now2 (Raise e)) s1 in
  eval (resume_task h now r1) s = Ok tt ∧
  eval (resume_task h now2 (Raise e)) s1 = Ok tt ∧
  calls s1 = calls s ++ [DeleteChannel cid] ∧
  config s' = config s ∧
  calls s' = calls s ++ [DeleteChannel cid] ∧
  _delete_tasks s' !! cid = None ∧
  (∀ k, k ≠ cid → _delete_tasks s' !! k = _delete_tasks s !! k) ∧
  tasks s' = alter (set_phase (Done (Failed e))) h (tasks s).
Proof.
  intros Ht Hph Hmc Hg Hm He. cbv zeta.
  pose proof (resume_all_refused h s t now r1 now2 e Ht Hph Hmc Hg Hm He)
    as Hall.
  unfold resume_all in Hall. cbn [foldl fst snd] in Hall. rewrite Hall.
  destruct Hg as [g Hg]. unfold exec, eval.
  rewrite (resume_sleeping _ _ _ _ _ Ht Hph Hmc), Hg, Hm. cbn [fst snd].
  erewrite resume_deleting; [|task_lookup Ht|reflexivity|exact Hmc].
  unfold in_phase.
  cbn [fst snd with_tasks with_delete_tasks logged config calls
       _delete_tasks tasks].
  split_and!; try done.
  - apply lookup_delete_eq.
  - intros k Hk. by rewrite lookup_delete_ne.
  - rewrite list_alter_alter_eq. apply list_alter_ext; [|done].
    intros t0 _. reflexivity.
Qed.

Lemma deletion_refused_keeps_channel_witness :
  config (exec (resume_task 0 (temp_info []) (Raise HTTPException))
            (exec (resume_task 0 (temp_info []) (Ok tt)) cog9_sleeping))
  = config cog9_sleeping.
Proof.
  exact (proj1 (proj2 (proj2 (proj2
    (deletion_refused_keeps_channel cog9_sleeping 0
       {| task_channel := 100; task_phase_of := Sleeping;
          must_cancel := false |}
       (temp_info []) (temp_info []) (Ok tt) HTTPException
       eq_refl eq_refl eq_refl
       (ex_intro _ 9 eq_refl) eq_refl eq_refl))))).
Defined.
